(** * KPAdmin: the submission pipeline of [main.py]

    A shallow embedding of the three remote operations of [main.py]
    ([fetch_records], [post_to_repo], [update_repo_file]) and of the
    submit handler of the [f100d_e] form, with the properties the
    specification states about them.

    Python text ([str]) and raw bytes are both Rocq [string]s (lists of
    bytes), so [.encode('utf-8')] and [.decode()] of well-formed text are the
    identity.  The libraries the program calls (requests, pandas, fillpdf,
    streamlit) are described by what the program observes of them; what
    comes from outside the script (the repository behind HTTP, the secrets,
    the clock, the CSV reader, the template) is the [Platform] the program
    runs on.  A run is a function from the state of the session ([world]) to
    a result or an exception and the next state; the requests sent and the
    messages shown are kept in that state, in order.

    The file has the model first (the libraries, the three operations, the
    submit handler, then a small repository to run them against) and the
    properties after it. *)

From Stdlib Require Import ZArith Ascii DecimalString Lia.
From stdpp Require Import base option list strings gmap.

Local Open Scope Z_scope.

(** ** Python scalars *)

Inductive pyval :=
| PNone
| PBool (b : bool)
| PInt (z : Z)
| PStr (s : string).

#[global] Instance pyval_eq_dec : EqDecision pyval.
Proof. solve_decision. Defined.

(** A decoded JSON body, as [response.json()] returns it.  The program
    expects an object and reads one member of it, [sha], which the contents
    API gives as a string: the members of an object are kept as scalars.  A
    body may as well decode to an array (the contents API answers with one
    for a directory) or to a scalar. *)
Inductive json_value :=
| JObject (members : gmap string pyval)
| JArray (items : list pyval)
| JScalar (v : pyval).

(** Truth value of a scalar, as [if v:] tests it. *)
Definition truthy (v : pyval) : bool :=
  match v with
  | PNone => false
  | PBool b => b
  | PInt z => negb (z =? 0)
  | PStr s => negb (String.eqb s "")
  end.

(** [str(n)] for an integer. *)
Definition str_Z (z : Z) : string := NilZero.string_of_int (Z.to_int z).

(** [s.join(l)]. *)
Fixpoint join (sep : string) (l : list string) : string :=
  match l with
  | [] => ""
  | [x] => x
  | x :: rest => x +:+ sep +:+ join sep rest
  end.

(** ** [datetime] and [strftime] *)

Record datetime := {
  year : Z; month : Z; day : Z; hour : Z; minute : Z; second : Z
}.

Fixpoint zeros (n : nat) : string :=
  match n with
  | O => ""
  | S k => String "0" (zeros k)
  end.

(** Decimal rendering padded with zeros on the left up to [width]. *)
Definition zfill (width : nat) (z : Z) : string :=
  let s := str_Z z in
  zeros (width - String.length s) +:+ s.

(** One directive of [strftime]; an unknown letter is left as written. *)
Definition directive (c : ascii) (t : datetime) : string :=
  if Ascii.eqb c "Y" then zfill 4 (year t)
  else if Ascii.eqb c "m" then zfill 2 (month t)
  else if Ascii.eqb c "d" then zfill 2 (day t)
  else if Ascii.eqb c "H" then zfill 2 (hour t)
  else if Ascii.eqb c "M" then zfill 2 (minute t)
  else if Ascii.eqb c "S" then zfill 2 (second t)
  else if Ascii.eqb c "%" then "%"
  else String "%" (String c "").

Fixpoint strftime (fmt : string) (t : datetime) : string :=
  match fmt with
  | "" => ""
  | String c rest =>
      if Ascii.eqb c "%" then
        match rest with
        | "" => "%"
        | String d rest' => directive d t +:+ strftime rest' t
        end
      else String c (strftime rest t)
  end.

(** ** [base64.b64encode] *)

Definition b64_alphabet : string :=
  "ABCDEFGHIJKLMNOPQRSTUVWXYZabcdefghijklmnopqrstuvwxyz0123456789+/".

Definition b64_char (n : N) : ascii :=
  match String.get (N.to_nat n) b64_alphabet with
  | Some c => c
  | None => "="%char
  end.

Fixpoint b64encode (s : string) : string :=
  match s with
  | "" => ""
  | String a "" =>
      let x := N_of_ascii a in
      String (b64_char (N.shiftr x 2))
        (String (b64_char (N.shiftl (N.land x 3) 4)) "==")
  | String a (String b "") =>
      let x := N_of_ascii a in
      let y := N_of_ascii b in
      String (b64_char (N.shiftr x 2))
        (String (b64_char (N.lor (N.shiftl (N.land x 3) 4) (N.shiftr y 4)))
           (String (b64_char (N.shiftl (N.land y 15) 2)) "="))
  | String a (String b (String c rest)) =>
      let x := N_of_ascii a in
      let y := N_of_ascii b in
      let z := N_of_ascii c in
      String (b64_char (N.shiftr x 2))
        (String (b64_char (N.lor (N.shiftl (N.land x 3) 4) (N.shiftr y 4)))
           (String (b64_char (N.lor (N.shiftl (N.land y 15) 2) (N.shiftr z 6)))
              (String (b64_char (N.land z 63)) (b64encode rest))))
  end.

(** *** [base64.b64decode] *)

Definition b64_value (c : ascii) : option N :=
  let n := N_of_ascii c in
  if (65 <=? n)%N && (n <=? 90)%N then Some (n - 65)%N
  else if (97 <=? n)%N && (n <=? 122)%N then Some (n - 71)%N
  else if (48 <=? n)%N && (n <=? 57)%N then Some (n + 4)%N
  else if (n =? 43)%N then Some 62%N
  else if (n =? 47)%N then Some 63%N
  else None.

(** [base64.b64decode]; padding and anything outside the alphabet end the
    decoding. *)
Fixpoint b64decode (s : string) : string :=
  match s with
  | String a (String b (String c (String d rest))) =>
      match b64_value a, b64_value b, b64_value c, b64_value d with
      | Some x, Some y, Some z, Some t =>
          String (ascii_of_N (N.lor (N.shiftl x 2) (N.shiftr y 4)))
            (String (ascii_of_N (N.lor (N.shiftl (N.land y 15) 4) (N.shiftr z 2)))
               (String (ascii_of_N (N.lor (N.shiftl (N.land z 3) 6) t)) (b64decode rest)))
      | Some x, Some y, Some z, None =>
          String (ascii_of_N (N.lor (N.shiftl x 2) (N.shiftr y 4)))
            (String (ascii_of_N (N.lor (N.shiftl (N.land y 15) 4) (N.shiftr z 2))) "")
      | Some x, Some y, None, _ =>
          String (ascii_of_N (N.lor (N.shiftl x 2) (N.shiftr y 4))) ""
      | _, _, _, _ => ""
      end
  | _ => ""
  end.

(** The 256 bytes, for what is checked byte by byte. *)
Definition all_ascii : list ascii := ascii_of_nat <$> seq 0 256.

(** ** Tables: what the program uses of [pandas] *)

(** A cell holds the text [to_csv] writes for it, or is missing ([NaN]).
    The dtype of a column is not part of the model: the properties below are
    about tables in which the appended row has a value for every label, so
    that no column changes its dtype by gaining a missing cell. *)
Inductive cell :=
| NaN
| Str (s : string).

#[global] Instance cell_eq_dec : EqDecision cell.
Proof. solve_decision. Defined.

(** A [DataFrame] with a default integer index: column labels in order and
    the rows in order, each row holding one cell per column. *)
Record DataFrame := {
  columns : list string;
  rows : list (list cell)
}.

#[global] Instance DataFrame_eq_dec : EqDecision DataFrame.
Proof. solve_decision. Defined.

(** A frame is well formed when its labels are distinct and every row has
    one cell per label, as every frame built by pandas is. *)
Definition wf_frame (df : DataFrame) : Prop :=
  NoDup (columns df) ∧ Forall (λ r, length r = length (columns df)) (rows df).

(** [pd.DataFrame([record])] for a dict literal with string values. *)
Definition DataFrame_of_record (record : list (string * string)) : DataFrame :=
  {| columns := record.*1; rows := [Str <$> record.*2] |}.

Fixpoint index_of (c : string) (cols : list string) : option nat :=
  match cols with
  | [] => None
  | c' :: rest => if decide (c' = c) then Some O else S <$> index_of c rest
  end.

(** The cell of [row] (labelled by [old]) under label [c]; missing when the
    label is not one of [old]. *)
Definition cell_at (old : list string) (row : list cell) (c : string) : cell :=
  match index_of c old with
  | Some i => default NaN (row !! i)
  | None => NaN
  end.

(** A row re-aligned from the labels [old] to the labels [new]. *)
Definition reindex (old new : list string) (row : list cell) : list cell :=
  cell_at old row <$> new.

(** Labels of [acc] followed by the labels of [cols] not yet present
    (outer join, [sort=False]). *)
Definition union_columns (acc cols : list string) : list string :=
  acc ++ list_difference cols acc.

Inductive exn :=
| RequestException (msg : string)
| JSONDecodeError (msg : string)
| KeyError (key : string)
| FileNotFoundError (path : string)
| TypeError (msg : string)
| ValueError (msg : string)
| ParserError (msg : string).

(** [str(e)]. *)
Definition exn_str (e : exn) : string :=
  match e with
  | RequestException m | JSONDecodeError m | TypeError m | ValueError m | ParserError m => m
  | KeyError k => "'" +:+ k +:+ "'"
  | FileNotFoundError p => "[Errno 2] No such file or directory: '" +:+ p +:+ "'"
  end.

(** [except requests.RequestException]: since requests 2.27 the error raised
    by [response.json()] is a subclass of it. *)
Definition is_RequestException (e : exn) : bool :=
  match e with
  | RequestException _ | JSONDecodeError _ => true
  | _ => false
  end.

Inductive outcome (A : Type) :=
| Ret (a : A)
| Raise (e : exn).
Arguments Ret {A} a.
Arguments Raise {A} e.

(** [contents[key]] for a string [key].  Only an object has members, and a
    missing one is a [KeyError]; an array, a string, a number, a truth value
    and [null] raise [TypeError]. *)
Definition subscript (contents : json_value) (key : string) : outcome pyval :=
  match contents with
  | JObject members =>
      match members !! key with
      | Some v => Ret v
      | None => Raise (KeyError key)
      end
  | JArray _ => Raise (TypeError "list indices must be integers or slices, not str")
  | JScalar (PStr _) => Raise (TypeError "string indices must be integers, not 'str'")
  | JScalar (PInt _) => Raise (TypeError "'int' object is not subscriptable")
  | JScalar (PBool _) => Raise (TypeError "'bool' object is not subscriptable")
  | JScalar PNone => Raise (TypeError "'NoneType' object is not subscriptable")
  end.

(** [pd.concat(objs, ignore_index=True)]: [None] entries are dropped, the
    labels are united in order of first appearance, the rows follow each
    other in the order of [objs], and a cell a frame has no label for is
    missing.  Only a list of [None]s raises. *)
Definition pd_concat (objs : list (option DataFrame)) : outcome DataFrame :=
  let frames := omap id objs in
  match frames with
  | [] => Raise (ValueError "All objects passed were None")
  | _ =>
      let cols := foldl (λ acc df, union_columns acc (columns df)) [] frames in
      Ret {| columns := cols;
             rows := frames ≫= (λ df, reindex (columns df) cols <$> rows df) |}
  end.

(** *** [DataFrame.to_csv] *)

Definition dquote : ascii := ascii_of_nat 34.
Definition LF : ascii := ascii_of_nat 10.
Definition CR : ascii := ascii_of_nat 13.

Fixpoint string_exists (p : ascii → bool) (s : string) : bool :=
  match s with
  | "" => false
  | String c rest => p c || string_exists p rest
  end.

Fixpoint double_quotes (s : string) : string :=
  match s with
  | "" => ""
  | String c rest =>
      if Ascii.eqb c dquote then String dquote (String dquote (double_quotes rest))
      else String c (double_quotes rest)
  end.

Definition needs_quoting (c : ascii) : bool :=
  Ascii.eqb c "," || Ascii.eqb c dquote || Ascii.eqb c LF || Ascii.eqb c CR.

(** One field as [csv.writer] writes it with [QUOTE_MINIMAL]: in quotes,
    with every quote doubled, when it holds the delimiter, a quote or a
    line end (a carriage return counts as one, as in the current writer). *)
Definition csv_field (s : string) : string :=
  if string_exists needs_quoting s
  then String dquote (double_quotes s) +:+ String dquote ""
  else s.

(** [writer.writerow(fields)], line terminator included; a row made of one
    empty field is written as a pair of quotes. *)
Definition csv_row (fields : list string) : string :=
  match fields with
  | [""] => String dquote (String dquote (String LF ""))
  | _ => join "," (csv_field <$> fields) +:+ String LF ""
  end.

Definition cell_text (c : cell) : string :=
  match c with
  | NaN => ""
  | Str s => s
  end.

(** [df.to_csv(index=index)] with the other arguments at their defaults: a
    header row of labels, then one row per table row.  With [index=True]
    every row starts with one more field, the row number. *)
Definition to_csv (df : DataFrame) (index : bool) : string :=
  let header := if index then "" :: columns df else columns df in
  let line (ir : nat * list cell) :=
    let fields := cell_text <$> ir.2 in
    csv_row (if index then str_Z (Z.of_nat ir.1) :: fields else fields) in
  csv_row header +:+ String.concat "" (line <$> imap pair (rows df)).

(** *** Reading CSV text

    The records of a CSV text as the reader behind [pd.read_csv] (and
    [csv.reader]) splits it, before any value is interpreted: fields are
    separated by commas and records by line ends; a field that starts with
    a quote runs to its closing quote, a doubled quote standing for one
    quote; blank lines are skipped. *)
Inductive csv_state :=
| start_field              (* at the start of a field *)
| in_field                 (* within an unquoted field *)
| in_quoted_field          (* within a quoted field *)
| quote_in_quoted_field.   (* after a quote within a quoted field *)

Definition is_newline (c : ascii) : bool := Ascii.eqb c LF || Ascii.eqb c CR.

(** [record] holds the fields of the current record read so far, [field]
    the characters of the current field. *)
Fixpoint csv_read (st : csv_state) (record : list string) (field : string) (s : string)
  : list (list string) :=
  match s with
  | "" =>
      match st, record with
      | start_field, [] => []
      | _, _ => [record ++ [field]]
      end
  | String c rest =>
      match st with
      | start_field =>
          if Ascii.eqb c dquote then csv_read in_quoted_field record "" rest
          else if Ascii.eqb c "," then csv_read start_field (record ++ [""]) "" rest
          else if is_newline c then
            match record with
            | [] => csv_read start_field [] "" rest
            | _ => (record ++ [""]) :: csv_read start_field [] "" rest
            end
          else csv_read in_field record (String c "") rest
      | in_field =>
          if Ascii.eqb c "," then csv_read start_field (record ++ [field]) "" rest
          else if is_newline c then (record ++ [field]) :: csv_read start_field [] "" rest
          else csv_read in_field record (field +:+ String c "") rest
      | in_quoted_field =>
          if Ascii.eqb c dquote then csv_read quote_in_quoted_field record field rest
          else csv_read in_quoted_field record (field +:+ String c "") rest
      | quote_in_quoted_field =>
          if Ascii.eqb c dquote
          then csv_read in_quoted_field record (field +:+ String dquote "") rest
          else if Ascii.eqb c "," then csv_read start_field (record ++ [field]) "" rest
          else if is_newline c then (record ++ [field]) :: csv_read start_field [] "" rest
          else csv_read in_field record (field +:+ String c "") rest
      end
  end.

Definition csv_records (s : string) : list (list string) :=
  csv_read start_field [] "" s.

Definition ledger_demo : DataFrame :=
  {| columns := ["name"; "form"; "signed_on"];
     rows := [[Str "Ann"; Str "f100d_e"; Str "2023-12-30"];
              [Str "Lee, Bo"; Str "f100d_e"; Str "2023-12-31"]] |}.


(** ** HTTP as the program sees it *)

Inductive http_method := GET | POST | PUT.

#[global] Instance http_method_eq_dec : EqDecision http_method.
Proof. solve_decision. Defined.

(** One call of [requests.get], [requests.post] or [requests.put]:
    the URL, the [json=] body when there is one, and the [auth=] pair. *)
Record request := {
  req_method : http_method;
  req_url : string;
  req_json : option (gmap string pyval);
  req_auth : string * string
}.

#[global] Instance request_eq_dec : EqDecision request.
Proof. solve_decision. Defined.

(** The bytes a write request of the contents API carries: its [content]
    member, decoded from base64. *)
Definition content_bytes (body : gmap string pyval) : option string :=
  match body !! "content" with
  | Some (PStr b64) => Some (b64decode b64)
  | _ => None
  end.

(** What the program reads of a [requests.Response]: [status_code], the body
    ([content], which is also [text]) and [json()], [None] when the body is
    not JSON and [json()] raises. *)
Record response := {
  status_code : Z;
  content : string;
  json : option json_value
}.

Definition text (r : response) : string := content r.

Inductive http_result :=
| Responded (r : response)
| ConnectionFailed (msg : string).

(** What streamlit is asked to show. *)
Inductive ui_event :=
| st_error (msg : string)
| st_success (msg : string)
| st_write (msg : string)
| st_write_dict (label : string) (d : gmap string string)
| st_link_button (label url : string).

#[global] Instance ui_event_eq_dec : EqDecision ui_event.
Proof. solve_decision. Defined.

(** [st.secrets['forgejo']]. *)
Record secrets := {
  repo_url : string;
  api_base : string;
  username : string;
  password : string;
  owner : string;
  repo : string
}.

(** [st.session_state.branch]. *)
Definition branch : string := "main".

Definition ASSETS_DIR : string := "assets".
Definition INPUT_PDF : string := ASSETS_DIR +:+ "/" +:+ "f100d_e_fillable.pdf".
Definition OUTPUT_PDF : string := ASSETS_DIR +:+ "/" +:+ "filled_form.pdf".
Definition CSV_FILE : string := ASSETS_DIR +:+ "/" +:+ "form_records.csv".

(** The argument [new_content] of [update_repo_file]: a table, or any other
    object (of which only that it is no table matters). *)
Inductive pyobj :=
| ADataFrame (df : DataFrame)
| AScalar (v : pyval)
| AList (l : list pyval).

Definition isinstance_DataFrame (o : pyobj) : bool :=
  match o with
  | ADataFrame _ => true
  | _ => false
  end.

(** [for input_value, field in zip(inputs, form_fields): d[field] = input_value] *)
Definition fill_fields (inputs form_fields : list string) (d : gmap string string)
  : gmap string string :=
  foldl (λ acc p, <[p.2 := p.1]> acc) d (zip inputs form_fields).

(** The labels of the ledger, as the rows the program appends define them. *)
Definition ledger_schema : list string := ["name"; "form"; "signed_on"].

(** A ledger table: a well-formed frame whose labels are those of the
    schema, in any order. *)
Definition is_ledger (L : DataFrame) : Prop :=
  wf_frame L ∧ columns L ≡ₚ ledger_schema.

(** The dict [new_record] of the submit handler. *)
Definition new_record (name date : string) : list (string * string) :=
  [("name", name); ("form", "f100d_e"); ("signed_on", date)].

(** The f-string [pdf_repo_path] of the submit handler. *)
Definition pdf_repo_path (name date : string) : string :=
  "assets/filled_forms/f100d_e_" +:+ name +:+ "_" +:+ date +:+ ".pdf".

(** What the program takes from outside: the repository behind HTTP, the
    secrets, the clock and the two libraries that read and write files of a
    foreign format. *)
Class Platform := {
  (** The remote repository: it answers each request and moves on. *)
  server : Type;
  serve : server → request → server * http_result;
  (** [st.secrets['forgejo']]. *)
  cfg : secrets;
  (** [pd.read_csv(io.StringIO(body.decode('utf-8')), header=0)]: the decoded
      table, or the error raised by the decoding or by the parser. *)
  read_csv : string → outcome DataFrame;
  (** The value of the n-th call of [datetime.now()]. *)
  clock : nat → datetime;
  (** [list(fillpdfs.get_form_fields(INPUT_PDF).keys())]: the field
      identifiers of the template, in declared order. *)
  form_fields : list string;
  (** The bytes [fillpdfs.write_fillable_pdf] writes to its output path for
      a [data_dict], from the template [INPUT_PDF]. *)
  write_fillable_pdf : gmap string string → string
}.

Section Program.

Context `{Platform}.

(** The state a run of the script reads and changes. *)
Record world := {
  remote : server;                     (* the repository *)
  sent : list request;                 (* every HTTP request made, in order *)
  ui : list ui_event;                  (* what was shown, in order *)
  ticks : nat;                         (* calls of datetime.now() so far *)
  files : gmap string string;          (* local files, by path *)
  success : option bool;               (* st.session_state['success'] *)
  f100d_e : gmap string string         (* st.session_state["f100d_e"] *)
}.

Definition M (A : Type) : Type := world → outcome A * world.

#[global] Instance M_ret : MRet M := λ A a w, (Ret a, w).

#[global] Instance M_bind : MBind M := λ A B f m w,
  match m w with
  | (Ret a, w') => f a w'
  | (Raise e, w') => (Raise e, w')
  end.

Definition lift {A} (o : outcome A) : M A := λ w, (o, w).

(** [try: body except <class> as e: handler]. *)
Definition try_except {A} (body : M A) (caught : exn → bool) (handler : exn → M A) : M A :=
  λ w, match body w with
       | (Ret a, w') => (Ret a, w')
       | (Raise e, w') => if caught e then handler e w' else (Raise e, w')
       end.

Definition show (e : ui_event) : M unit := λ w,
  (Ret (), {| remote := remote w; sent := sent w; ui := ui w ++ [e]; ticks := ticks w;
              files := files w; success := success w; f100d_e := f100d_e w |}).

Definition datetime_now : M datetime := λ w,
  (Ret (clock (ticks w)),
   {| remote := remote w; sent := sent w; ui := ui w; ticks := S (ticks w);
      files := files w; success := success w; f100d_e := f100d_e w |}).

Definition set_success (b : bool) : M unit := λ w,
  (Ret (), {| remote := remote w; sent := sent w; ui := ui w; ticks := ticks w;
              files := files w; success := Some b; f100d_e := f100d_e w |}).

Definition set_f100d_e (d : gmap string string) : M unit := λ w,
  (Ret (), {| remote := remote w; sent := sent w; ui := ui w; ticks := ticks w;
              files := files w; success := success w; f100d_e := d |}).

Definition get_f100d_e : M (gmap string string) := λ w, (Ret (f100d_e w), w).

(** [open(path, 'rb').read()]. *)
Definition read_file (path : string) : M string := λ w,
  match files w !! path with
  | Some bytes => (Ret bytes, w)
  | None => (Raise (FileNotFoundError path), w)
  end.

Definition write_file (path bytes : string) : M unit := λ w,
  (Ret (), {| remote := remote w; sent := sent w; ui := ui w; ticks := ticks w;
              files := <[path := bytes]> (files w); success := success w;
              f100d_e := f100d_e w |}).

(** The state after the repository has been sent [r] and has moved to [s']. *)
Definition after_request (w : world) (r : request) (s' : server) : world :=
  {| remote := s'; sent := sent w ++ [r]; ui := ui w; ticks := ticks w;
     files := files w; success := success w; f100d_e := f100d_e w |}.

(** One call into [requests]: the request reaches the repository, which
    answers or fails; a failure is raised as [requests.RequestException]. *)
Definition requests_call (r : request) : M response := λ w,
  let '(s', res) := serve (remote w) r in
  match res with
  | Responded resp => (Ret resp, after_request w r s')
  | ConnectionFailed msg => (Raise (RequestException msg), after_request w r s')
  end.

Definition auth : string * string := (username cfg, password cfg).

Definition get_request (url : string) : request :=
  {| req_method := GET; req_url := url; req_json := None; req_auth := auth |}.
Definition post_request (url : string) (body : gmap string pyval) : request :=
  {| req_method := POST; req_url := url; req_json := Some body; req_auth := auth |}.
Definition put_request (url : string) (body : gmap string pyval) : request :=
  {| req_method := PUT; req_url := url; req_json := Some body; req_auth := auth |}.

Definition requests_get (url : string) : M response :=
  requests_call (get_request url).
Definition requests_post (url : string) (body : gmap string pyval) : M response :=
  requests_call (post_request url body).
Definition requests_put (url : string) (body : gmap string pyval) : M response :=
  requests_call (put_request url body).

(** [response.json()]. *)
Definition response_json (r : response) : M json_value :=
  match json r with
  | Some d => mret d
  | None => lift (Raise (JSONDecodeError "Expecting value: line 1 column 1 (char 0)"))
  end.

(** [contents[key]]. *)
Definition getitem (contents : json_value) (key : string) : M pyval :=
  lift (subscript contents key).

Definition raw_url (file_path : string) : string :=
  repo_url cfg +:+ "/raw/" +:+ branch +:+ "/" +:+ file_path.

Definition contents_url (file_path : string) : string :=
  api_base cfg +:+ "/repos/" +:+ owner cfg +:+ "/" +:+ repo cfg +:+ "/contents/" +:+ file_path.

(** *** [fetch_records] *)
Definition fetch_records (file_path : string) : M (option DataFrame) :=
  try_except
    (response ← requests_get (raw_url file_path);
     if status_code response =? 200 then
       df ← lift (read_csv (content response));
       mret (Some df)
     else
       show (st_error ("Failed to fetch " +:+ file_path +:+ ". Status code: "
                         +:+ str_Z (status_code response)));;
       mret None)
    (λ _, true)
    (λ e, show (st_error ("Error: " +:+ exn_str e));; mret None).

(** The commit message both writers make up when given none. *)
Definition default_message (verb name : string) (now : datetime) : string :=
  verb +:+ " by " +:+ name +:+ " at " +:+ strftime "%Y-%m-%d-%H-%m" now.

(** *** [post_to_repo] *)
Definition post_to_repo (pdf_path file_path name : string) (message : option string) : M bool :=
  pdf_content ← read_file pdf_path;
  let content := b64encode pdf_content in
  let url := contents_url file_path in
  message ← match message with
            | None => now ← datetime_now; mret (default_message "PDF uploaded" name now)
            | Some m => mret m
            end;
  let payload : gmap string pyval :=
    {[ "message" := PStr message; "content" := PStr content; "branch" := PStr branch ]} in
  response ← requests_post url payload;
  if (status_code response =? 200) || (status_code response =? 201) then
    show (st_success ("PDF correctly submitted for review: " +:+ message));;
    mret true
  else
    show (st_error ("Failed to commit: " +:+ text response));;
    set_success false;;
    mret false.

(** *** [update_repo_file] *)

(** [not commit_message]. *)
Definition falsy_message (m : option string) : bool :=
  match m with
  | None => true
  | Some s => String.eqb s ""
  end.

(** Step 1 of [update_repo_file]: the GET for the current file info.
    [Some sha] goes on to the write ([sha] is [None] after a 404); [None]
    stands for the two [return False]. *)
Definition retrieve_sha (url : string) : M (option pyval) :=
  try_except
    (response ← requests_get url;
     if status_code response =? 200 then
       contents ← response_json response;
       sha ← getitem contents "sha";
       mret (Some sha)
     else if status_code response =? 404 then
       mret (Some PNone)
     else
       show (st_error ("Error retrieving file info: " +:+ str_Z (status_code response)
                         +:+ " - " +:+ text response));;
       mret None)
    is_RequestException
    (λ e, show (st_error ("Failed to fetch file info: " +:+ exn_str e));; mret None).

(** Step 4 of [update_repo_file]: the request body. *)
Definition request_body (commit_message content_base64 : string) (sha : pyval)
  : gmap string pyval :=
  let data : gmap string pyval :=
    {[ "message" := PStr commit_message; "content" := PStr content_base64 ]} in
  if truthy sha then <["sha" := sha]> data else data.

(** Step 5 of [update_repo_file]: the PUT. *)
Definition send_update (url : string) (data : gmap string pyval) : M bool :=
  try_except
    (response ← requests_put url data;
     if (status_code response =? 200) || (status_code response =? 201) then
       show (st_success "File updated successfully.");;
       mret true
     else
       show (st_error ("Failed to update file: " +:+ str_Z (status_code response)
                         +:+ " - " +:+ text response));;
       mret false)
    is_RequestException
    (λ e, show (st_error ("Failed to update file: " +:+ exn_str e));; mret false).

(** [**to_csv_kwargs] is left out: the only call, in the submit handler,
    passes none, so [to_csv] runs with [index=False] and its defaults. *)
Definition update_repo_file (file_path : string) (new_content : pyobj) (name : string)
    (commit_message : option string) : M bool :=
  match new_content with
  | ADataFrame df =>
      let url := contents_url file_path in
      step1 ← retrieve_sha url;
      match step1 with
      | None => mret false
      | Some sha =>
          (* Step 2 and 3: the table as base64 of its CSV text *)
          let csv_string := to_csv df false in
          let content_base64 := b64encode csv_string in
          commit_message ←
            (if falsy_message commit_message then
               now ← datetime_now; mret (default_message "Edited" name now)
             else mret (default "" commit_message));
          send_update url (request_body commit_message content_base64 sha)
      end
  | _ =>
      show (st_error "new_content must be a Pandas DataFrame");;
      mret false
  end.

(** *** The submit handler of the form *)
Definition submit (trainee_name name department institution : string) : M unit :=
  now ← datetime_now;
  let date := strftime "%Y-%m-%d" now in
  let signature_text := name in
  (* Map inputs to form fields *)
  let inputs := [trainee_name; name; department; institution; signature_text; date] in
  d ← get_f100d_e;
  set_f100d_e (fill_fields inputs form_fields d);;
  d ← get_f100d_e;
  show (st_write_dict "Form Data:" d);;
  (* Fill form fields *)
  write_file OUTPUT_PDF (write_fillable_pdf d);;
  (* Update form_records.csv *)
  df ← fetch_records "assets/form_records.csv";
  (* Append new record *)
  df ← lift (pd_concat [df; Some (DataFrame_of_record (new_record name date))]);
  (* Save updated CSV *)
  record_success ← update_repo_file "assets/form_records.csv" (ADataFrame df) name None;
  (* Post the filled PDF to the repository *)
  pdf_success ← post_to_repo OUTPUT_PDF (pdf_repo_path name date) name None;
  if record_success && pdf_success then
    show (st_write "Visit the assets folder in the forms repository if you have access:");;
    show (st_link_button "Visit Records"
            "https://206-12-100-80.cloud.computecanada.ca/acbc-repo/poduska-lab/KPAdmin")
  else mret ().

(** *** What a piece of the program did, seen from outside *)

(** The commit message [update_repo_file] uses when it builds the request
    body in state [w]. *)
Definition ledger_message (name : string) (commit_message : option string) (w : world)
  : string :=
  if falsy_message commit_message then default_message "Edited" name (clock (ticks w))
  else default "" commit_message.

(** The commit message [post_to_repo] uses in state [w]. *)
Definition publish_message (name : string) (message : option string) (w : world) : string :=
  match message with
  | None => default_message "PDF uploaded" name (clock (ticks w))
  | Some m => m
  end.

(** The state in which the submit handler turns to the repository: the
    clock was read once for [date], the form state holds the inputs, it was
    shown, and the filled document was written to [OUTPUT_PDF]. *)
Definition prepared (trainee_name name department institution : string) (w : world) : world :=
  let date := strftime "%Y-%m-%d" (clock (ticks w)) in
  let d := fill_fields [trainee_name; name; department; institution; name; date]
             form_fields (f100d_e w) in
  {| remote := remote w; sent := sent w; ui := ui w ++ [st_write_dict "Form Data:" d];
     ticks := S (ticks w); files := <[OUTPUT_PDF := write_fillable_pdf d]> (files w);
     success := success w; f100d_e := d |}.

(** What the submit handler shows last: the link to the records, when both
    writes returned [True]. *)
Definition closing (both : bool) : list ui_event :=
  if both then
    [st_write "Visit the assets folder in the forms repository if you have access:";
     st_link_button "Visit Records"
       "https://206-12-100-80.cloud.computecanada.ca/acbc-repo/poduska-lab/KPAdmin"]
  else [].

(** The request body of [post_to_repo]. *)
Definition publish_body (message bytes : string) : gmap string pyval :=
  {[ "message" := PStr message; "content" := PStr (b64encode bytes);
     "branch" := PStr branch ]}.

(** The repository after it has served [reqs] in order. *)
Definition replay (s : server) (reqs : list request) : server :=
  foldl (λ s r, (serve s r).1) s reqs.

(** From [w] to [w'] the program sent [reqs], showed [events] and read the
    clock [n] times; it touched neither the local files nor the form state. *)
Definition steps (w w' : world) (reqs : list request) (events : list ui_event) (n : nat)
  : Prop :=
  remote w' = replay (remote w) reqs ∧ sent w' = sent w ++ reqs ∧
  ui w' = ui w ++ events ∧ ticks w' = (ticks w + n)%nat ∧
  files w' = files w ∧ f100d_e w' = f100d_e w.

(** The revision token a file-info response carries: the [sha] of its JSON
    body, when that is a non-empty string. *)
Definition observed_token (r : response) : option string :=
  match json r with
  | Some (JObject members) =>
      match members !! "sha" with
      | Some (PStr token) => if String.eqb token "" then None else Some token
      | _ => None
      end
  | _ => None
  end.

End Program.

(** ** A repository to run the program against

    A small content store with the interface the program uses: a raw
    endpoint, and a contents API whose GET returns the revision token
    ([sha]), whose PUT replaces a file when given its current token or
    creates it when given none, and whose POST creates a file.  It is used
    to run the program on concrete submissions. *)
Module Forgejo.

Fixpoint strip_prefix (p s : string) : option string :=
  match p, s with
  | "", _ => Some s
  | String a p', String b s' => if Ascii.eqb a b then strip_prefix p' s' else None
  | _, "" => None
  end.

Record blob := {
  blob_bytes : string;
  blob_sha : string
}.

Record state := {
  blobs : gmap string blob;       (* the files of the branch, by path *)
  commits : nat;                  (* writes accepted so far *)
  raw_status : Z;                 (* what the raw endpoint answers with; 200 when healthy *)
  protected : list string;        (* paths the account may not write *)
  online : bool                   (* whether the host can be reached at all *)
}.

Definition config : secrets :=
  {| repo_url := "https://git.example/lab/KPAdmin";
     api_base := "https://git.example/api/v1";
     username := "bot"; password := "secret";
     owner := "lab"; repo := "KPAdmin" |}.

Definition raw_prefix : string :=
  repo_url config +:+ "/raw/" +:+ branch +:+ "/".
Definition contents_prefix : string :=
  api_base config +:+ "/repos/" +:+ owner config +:+ "/" +:+ repo config +:+ "/contents/".

Definition quoted (s : string) : string := String dquote s +:+ String dquote "".

Definition plain (status : Z) (body : string) : http_result :=
  Responded {| status_code := status; content := body; json := None |}.

(** The answer of the contents API describing a file. *)
Definition file_info_response (status : Z) (b : blob) : response :=
  {| status_code := status;
     content := "{" +:+ quoted "sha" +:+ ":" +:+ quoted (blob_sha b) +:+ ","
                +:+ quoted "content" +:+ ":" +:+ quoted (b64encode (blob_bytes b)) +:+ "}";
     json := Some (JObject {[ "sha" := PStr (blob_sha b);
                              "content" := PStr (b64encode (blob_bytes b)) ]}) |}.

Definition file_info (status : Z) (b : blob) : http_result :=
  Responded (file_info_response status b).

Definition store (s : state) (path : string) (b64 : string) : state * blob :=
  let b := {| blob_bytes := b64decode b64; blob_sha := "sha" +:+ str_Z (Z.of_nat (S (commits s))) |} in
  ({| blobs := <[path := b]> (blobs s); commits := S (commits s);
      raw_status := raw_status s; protected := protected s; online := online s |}, b).

Definition write (s : state) (r : request) (path : string) : state * http_result :=
  match req_json r with
  | None => (s, plain 422 "empty body")
  | Some body =>
      if bool_decide (path ∈ protected s) then (s, plain 403 "forbidden") else
      match body !! "content" with
      | Some (PStr b64) =>
          match req_method r, blobs s !! path, body !! "sha" with
          | PUT, Some b, Some (PStr token) =>
              if String.eqb token (blob_sha b)
              then let '(s', b') := store s path b64 in (s', file_info 200 b')
              else (s, plain 409 "sha does not match")
          | PUT, None, None =>
              let '(s', b') := store s path b64 in (s', file_info 201 b')
          | POST, None, _ =>
              let '(s', b') := store s path b64 in (s', file_info 201 b')
          | _, _, _ => (s, plain 422 "repository file already exists or sha is missing")
          end
      | _ => (s, plain 422 "content is required")
      end
  end.

Definition handle (s : state) (r : request) : state * http_result :=
  if negb (online s) then (s, ConnectionFailed "Connection refused") else
  match req_method r with
  | GET =>
      match strip_prefix raw_prefix (req_url r), strip_prefix contents_prefix (req_url r) with
      | Some path, _ =>
          if raw_status s =? 200 then
            match blobs s !! path with
            | Some b => (s, plain 200 (blob_bytes b))
            | None => (s, plain 404 "Not found.")
            end
          else (s, plain (raw_status s) "unavailable")
      | None, Some path =>
          match blobs s !! path with
          | Some b => (s, file_info 200 b)
          | None => (s, plain 404 "Not found.")
          end
      | None, None => (s, plain 404 "Not found.")
      end
  | _ =>
      match strip_prefix contents_prefix (req_url r) with
      | Some path => write s r path
      | None => (s, plain 404 "Not found.")
      end
  end.

Definition parse_cell (s : string) : cell :=
  if String.eqb s "" then NaN else Str s.

(** A reader for CSV text: the first record holds the labels, an empty
    field is a missing cell. *)
Definition parse_csv (body : string) : outcome DataFrame :=
  match csv_records body with
  | [] => Raise (ParserError "No columns to parse from file")
  | header :: lines =>
      Ret {| columns := header; rows := (λ l : list string, parse_cell <$> l) <$> lines |}
  end.

Definition template_fields : list string :=
  ["TraineeName"; "Name"; "Department"; "Institution"; "Signature"; "Date"].

(** A stand-in for the filled document: the values of the template's
    fields, in declared order. *)
Definition render (fields : list string) (d : gmap string string) : string :=
  "%PDF-1.7 f100d_e " +:+ join "|" ((λ f, default "" (d !! f)) <$> fields).

Definition new_year_morning : datetime :=
  {| year := 2024; month := 1; day := 1; hour := 10; minute := 30; second := 0 |}.

#[local] Instance platform : Platform := {|
  server := state;
  serve := handle;
  cfg := config;
  read_csv := parse_csv;
  clock := λ _, new_year_morning;
  form_fields := template_fields;
  write_fillable_pdf := render template_fields
|}.

Definition csv_of (lines : list string) : string :=
  String.concat "" ((λ l, l +:+ String LF "") <$> lines).

Definition ledger_path : string := "assets/form_records.csv".

Definition ledger_blob : blob :=
  {| blob_bytes := csv_of ["name,form,signed_on"; "Ann,f100d_e,2023-12-30"; "Bo,f100d_e,2023-12-31"];
     blob_sha := "3f2a" |}.

(** The ledger as a table. *)
Definition ledger_table : DataFrame :=
  {| columns := ["name"; "form"; "signed_on"];
     rows := [[Str "Ann"; Str "f100d_e"; Str "2023-12-30"];
              [Str "Bo"; Str "f100d_e"; Str "2023-12-31"]] |}.

(** A repository that holds a ledger of two rows. *)
Definition repo_with_ledger : state :=
  {| blobs := {[ ledger_path := ledger_blob ]}; commits := 0; raw_status := 200;
     protected := []; online := true |}.

(** A fresh repository. *)
Definition repo_empty : state :=
  {| blobs := ∅; commits := 0; raw_status := 200; protected := []; online := true |}.

(** A host that cannot be reached. *)
Definition repo_offline : state :=
  {| blobs := ∅; commits := 0; raw_status := 200; protected := []; online := false |}.

(** The same ledger while the raw endpoint is failing. *)
Definition repo_raw_down : state :=
  {| blobs := {[ ledger_path := ledger_blob ]}; commits := 0; raw_status := 500;
     protected := []; online := true |}.

(** The same ledger, which the account may not write. *)
Definition repo_read_only_ledger : state :=
  {| blobs := {[ ledger_path := ledger_blob ]}; commits := 0; raw_status := 200;
     protected := [ledger_path]; online := true |}.

Definition start (s : state) : world :=
  {| remote := s; sent := []; ui := []; ticks := 0; files := ∅; success := None;
     f100d_e := ∅ |}.

(** A session in which a filled document lies at [OUTPUT_PDF]. *)
Definition start_with_document (s : state) : world :=
  {| remote := s; sent := []; ui := []; ticks := 0;
     files := {[ OUTPUT_PDF := "%PDF-1.7 f100d_e B|A. Example|Chem|U|A. Example|2024-01-01" ]};
     success := None; f100d_e := ∅ |}.

(** A session on the host of the app, where the template lies at
    [INPUT_PDF]. *)
Definition start_with_template (s : state) : world :=
  {| remote := s; sent := []; ui := []; ticks := 0;
     files := {[ INPUT_PDF := "%PDF-1.7 f100d_e" ]}; success := None; f100d_e := ∅ |}.

End Forgejo.

(** ** Calendar days

    The clock values for which [%Y-%m-%d] has its usual shape, and the
    reading of a run of decimal digits, used to tell the fields of a
    formatted date apart. *)

Definition calendar_day (t : datetime) : Prop :=
  1000 ≤ year t ≤ 9999 ∧ 1 ≤ month t ≤ 12 ∧ 1 ≤ day t ≤ 31.

Fixpoint Z_of_digits_from (acc : Z) (s : string) : Z :=
  match s with
  | "" => acc
  | String c rest => Z_of_digits_from (10 * acc + (Z.of_N (N_of_ascii c) - 48)) rest
  end.

(** [int(s)] for a string of decimal digits. *)
Definition Z_of_digits (s : string) : Z := Z_of_digits_from 0 s.

(** ** The script around the form

    What the script does on every run besides the form: it offers the blank
    template for download, and at its end offers the filled document, if
    there is one, and removes it.  The static headings ([st.title],
    [st.subheader]) show nothing that depends on the state and are left out. *)

(** The arguments of one [st.download_button]. *)
Record download := {
  dl_label : string;
  dl_data : string;
  dl_file_name : string;
  dl_mime : string
}.

#[global] Instance download_eq_dec : EqDecision download.
Proof. solve_decision. Defined.

Section Script.

Context `{Platform}.

(** The state in which [update_repo_file] builds the request body: the
    clock was read if the commit message had to be made up. *)
Definition message_made (commit_message : option string) (w : world) : world :=
  if falsy_message commit_message then (datetime_now w).2 else w.

(** The state after the submit handler has closed: the link to the records
    is shown when both writes returned [True]. *)
Definition finished (both : bool) (w : world) : world :=
  if both then
    (show (st_link_button "Visit Records"
             "https://206-12-100-80.cloud.computecanada.ca/acbc-repo/poduska-lab/KPAdmin")
       (show (st_write "Visit the assets folder in the forms repository if you have access:")
          w).2).2
  else w.

(** [os.path.exists(path)]. *)
Definition path_exists (path : string) : M bool := λ w,
  (Ret (bool_decide (is_Some (files w !! path))), w).

(** [os.remove(path)]. *)
Definition os_remove (path : string) : M unit := λ w,
  match files w !! path with
  | Some _ =>
      (Ret (), {| remote := remote w; sent := sent w; ui := ui w; ticks := ticks w;
                  files := delete path (files w); success := success w;
                  f100d_e := f100d_e w |})
  | None => (Raise (FileNotFoundError path), w)
  end.

(** The two download buttons of the page, for the bytes they serve. *)
Definition blank_button (file : string) : download :=
  {| dl_label := "Download Blank PDF"; dl_data := file;
     dl_file_name := "f100d_e_fillable.pdf"; dl_mime := "application/pdf" |}.

Definition filled_button (file : string) : download :=
  {| dl_label := "Download Filled PDF"; dl_data := file;
     dl_file_name := "filled_form.pdf"; dl_mime := "application/pdf" |}.

(** Option 1: Download blank PDF. *)
Definition download_blank : M download :=
  file ← read_file INPUT_PDF;
  mret (blank_button file).

(** Download filled PDF outside the form. *)
Definition download_filled : M (option download) :=
  there ← path_exists OUTPUT_PDF;
  if (there : bool) then
    file ← read_file OUTPUT_PDF;
    mret (Some (filled_button file))
  else (mret None : M (option download)).

(** Clean up temporary files on page refresh (only if they exist). *)
Definition clean_up : M unit :=
  there ← path_exists OUTPUT_PDF;
  if (there : bool) then os_remove OUTPUT_PDF else mret ().

(** The text inputs of the form, as the form delivers them on submit. *)
Record form_values := {
  fv_trainee_name : string;
  fv_name : string;
  fv_department : string;
  fv_institution : string
}.

(** One run of the script from the first download button on: [submitted]
    holds the form's values in the run the submit button triggers.  The date
    is computed in every run, submitted or not.  The result lists the
    download buttons of the page. *)
Definition script (submitted : option form_values) : M (list download) :=
  blank ← download_blank;
  show (st_write "#### NSERC f100d_e Form");;
  match submitted with
  | Some v => submit (fv_trainee_name v) (fv_name v) (fv_department v) (fv_institution v)
  | None => now ← datetime_now; mret ()
  end;;
  filled ← download_filled;
  clean_up;;
  mret (blank :: option_list filled).

End Script.

(** What the form delivers in the example of the specification. *)
Definition example_values : form_values :=
  {| fv_trainee_name := "B"; fv_name := "A. Example"; fv_department := "Chem";
     fv_institution := "U" |}.

(** ** A repository that answers from a script

    The answers are given in advance and handed out in order, whatever is
    asked; it is used to run the program on answers a well-behaved
    repository does not give. *)
Module Scripted.

Definition answer_next (s : list http_result) (r : request) : list http_result * http_result :=
  match s with
  | a :: rest => (rest, a)
  | [] => ([], ConnectionFailed "Connection refused")
  end.

#[local] Instance platform : Platform := {|
  server := list http_result;
  serve := answer_next;
  cfg := Forgejo.config;
  read_csv := Forgejo.parse_csv;
  clock := λ _, Forgejo.new_year_morning;
  form_fields := Forgejo.template_fields;
  write_fillable_pdf := Forgejo.render Forgejo.template_fields
|}.

Definition start (answers : list http_result) : world :=
  {| remote := answers; sent := []; ui := []; ticks := 0; files := ∅; success := None;
     f100d_e := ∅ |}.

(** A file info without [sha]. *)
Definition info_without_sha : http_result :=
  Responded {| status_code := 200; content := "{}"; json := Some (JObject ∅) |}.

(** The answer of the contents API for a directory: an array. *)
Definition directory_listing : http_result :=
  Responded {| status_code := 200; content := "[]"; json := Some (JArray []) |}.

(** An answer whose body is no JSON. *)
Definition html_page : http_result :=
  Responded {| status_code := 200; content := "<html>Sign in</html>"; json := None |}.

End Scripted.

(** * Properties *)

(** ** Sanity checks of the library models *)

Example b64_Man : b64encode "Man" = "TWFu". Proof. reflexivity. Qed.
Example b64_Ma : b64encode "Ma" = "TWE=". Proof. reflexivity. Qed.
Example b64_M : b64encode "M" = "TQ==". Proof. reflexivity. Qed.
Example b64_hello : b64encode "hello, csv" = "aGVsbG8sIGNzdg==". Proof. reflexivity. Qed.
Example strftime_ex :
  strftime "%Y-%m-%d-%H-%M" {| year := 2024; month := 1; day := 9; hour := 7; minute := 45; second := 3 |}
  = "2024-01-09-07-45".
Proof. reflexivity. Qed.
Example str_Z_ex : str_Z 404 = "404" /\ str_Z 0 = "0" /\ str_Z (-5) = "-5".
Proof. repeat split; reflexivity. Qed.

Example pd_concat_ex :
  pd_concat [Some ledger_demo; Some (DataFrame_of_record [("name", "C"); ("form", "f100d_e"); ("signed_on", "2024-01-01")])]
  = Ret {| columns := ["name"; "form"; "signed_on"];
           rows := rows ledger_demo ++ [[Str "C"; Str "f100d_e"; Str "2024-01-01"]] |}.
Proof. reflexivity. Qed.

Example pd_concat_None_ex :
  pd_concat [None; Some (DataFrame_of_record [("name", "C"); ("form", "f100d_e"); ("signed_on", "2024-01-01")])]
  = Ret {| columns := ["name"; "form"; "signed_on"];
           rows := [[Str "C"; Str "f100d_e"; Str "2024-01-01"]] |}.
Proof. reflexivity. Qed.

Example pd_concat_align_ex :
  pd_concat [Some {| columns := ["signed_on"; "name"]; rows := [[Str "d"; Str "n"]] |};
             Some (DataFrame_of_record [("name", "C"); ("form", "f"); ("signed_on", "e")])]
  = Ret {| columns := ["signed_on"; "name"; "form"];
           rows := [[Str "d"; Str "n"; NaN]; [Str "e"; Str "C"; Str "f"]] |}.
Proof. reflexivity. Qed.

Example to_csv_ex :
  to_csv ledger_demo false =
  "name,form,signed_on" +:+ String LF "" +:+
  "Ann,f100d_e,2023-12-30" +:+ String LF "" +:+
  String dquote "Lee, Bo" +:+ String dquote ",f100d_e,2023-12-31" +:+ String LF "".
Proof. reflexivity. Qed.

Example csv_records_ex :
  csv_records ("a,b" +:+ String CR (String LF "") +:+
               String dquote "c, " +:+ String dquote (String dquote "d") +:+
               String dquote (String dquote (String dquote ",")) +:+ String LF "" +:+
               String LF "" +:+ "e,")
  = [["a"; "b"]; ["c, " +:+ String dquote "d" +:+ String dquote ""; ""]; ["e"; ""]].
Proof. reflexivity. Qed.

(** ** Strings *)

Lemma append_cons (c : ascii) (s t : string) : String c s +:+ t = String c (s +:+ t).
Proof. reflexivity. Qed.

Lemma append_nil_l (s : string) : "" +:+ s = s.
Proof. reflexivity. Qed.

Lemma append_nil_r (s : string) : s +:+ "" = s.
Proof. induction s as [|c s IH]; [done |]. by rewrite append_cons, IH. Qed.

Lemma append_assoc (s1 s2 s3 : string) : (s1 +:+ s2) +:+ s3 = s1 +:+ (s2 +:+ s3).
Proof. induction s1 as [|c s1 IH]; [done |]. by rewrite !append_cons, IH. Qed.


(** The pattern of the default commit message, field by field: after the
    hour comes the month a second time; the minute does not occur. *)
Lemma default_message_fields (verb name : string) (now : datetime) :
  default_message verb name now =
  verb +:+ " by " +:+ name +:+ " at " +:+
  zfill 4 (year now) +:+ "-" +:+ zfill 2 (month now) +:+ "-" +:+ zfill 2 (day now) +:+ "-" +:+
  zfill 2 (hour now) +:+ "-" +:+ zfill 2 (month now).
Proof.
  unfold default_message. do 4 f_equal. simpl strftime. unfold directive. simpl.
  by rewrite append_nil_r.
Qed.

(** ** Base64 *)

Lemma all_ascii_complete (a : ascii) : a ∈ all_ascii.
Proof.
  rewrite <- (ascii_nat_embedding a). apply list_elem_of_fmap.
  exists (nat_of_ascii a). split; [done |]. apply elem_of_seq.
  pose proof (nat_ascii_bounded a). lia.
Qed.

Lemma forallb_ascii (p : ascii → bool) :
  forallb p all_ascii = true → ∀ a, p a = true.
Proof.
  intros Hall a. rewrite forallb_forall in Hall. apply Hall.
  apply list_elem_of_In, all_ascii_complete.
Qed.

Lemma forallb_ascii2 (p : ascii → ascii → bool) :
  forallb (λ a, forallb (p a) all_ascii) all_ascii = true → ∀ a b, p a b = true.
Proof.
  intros Hall a b. apply forallb_ascii. by apply (forallb_ascii _ Hall a).
Qed.

(** Checks a decidable property of one byte, or of two, on every byte. *)
Ltac each_byte a :=
  match goal with |- ?G => apply (bool_decide_eq_true_1 G) end;
  revert a; apply forallb_ascii; vm_compute; reflexivity.

Ltac each_two_bytes a b :=
  match goal with |- ?G => apply (bool_decide_eq_true_1 G) end;
  revert a b; apply forallb_ascii2; vm_compute; reflexivity.

Lemma b64_tail1 (a : ascii) : b64decode (b64encode (String a "")) = String a "".
Proof. each_byte a. Qed.

Lemma b64_tail2 (a b : ascii) :
  b64decode (b64encode (String a (String b ""))) = String a (String b "").
Proof. each_two_bytes a b. Qed.

Lemma b64encode_3 (a b c : ascii) (rest : string) :
  b64encode (String a (String b (String c rest))) =
  String (b64_char (N.shiftr (N_of_ascii a) 2))
    (String (b64_char (N.lor (N.shiftl (N.land (N_of_ascii a) 3) 4)
                         (N.shiftr (N_of_ascii b) 4)))
       (String (b64_char (N.lor (N.shiftl (N.land (N_of_ascii b) 15) 2)
                            (N.shiftr (N_of_ascii c) 6)))
          (String (b64_char (N.land (N_of_ascii c) 63)) (b64encode rest)))).
Proof. reflexivity. Qed.

Lemma b64decode_4 (a b c d : ascii) (rest : string) :
  b64decode (String a (String b (String c (String d rest)))) =
  match b64_value a, b64_value b, b64_value c, b64_value d with
  | Some x, Some y, Some z, Some t =>
      String (ascii_of_N (N.lor (N.shiftl x 2) (N.shiftr y 4)))
        (String (ascii_of_N (N.lor (N.shiftl (N.land y 15) 4) (N.shiftr z 2)))
           (String (ascii_of_N (N.lor (N.shiftl (N.land z 3) 6) t)) (b64decode rest)))
  | Some x, Some y, Some z, None =>
      String (ascii_of_N (N.lor (N.shiftl x 2) (N.shiftr y 4)))
        (String (ascii_of_N (N.lor (N.shiftl (N.land y 15) 4) (N.shiftr z 2))) "")
  | Some x, Some y, None, _ =>
      String (ascii_of_N (N.lor (N.shiftl x 2) (N.shiftr y 4))) ""
  | _, _, _, _ => ""
  end.
Proof. reflexivity. Qed.

(** Every character written for a group of three bytes stands for the six
    bits it was made from. *)
Lemma b64_value_1 (a : ascii) :
  b64_value (b64_char (N.shiftr (N_of_ascii a) 2)) = Some (N.shiftr (N_of_ascii a) 2).
Proof. each_byte a. Qed.

Lemma b64_value_2 (a b : ascii) :
  b64_value (b64_char (N.lor (N.shiftl (N.land (N_of_ascii a) 3) 4)
                         (N.shiftr (N_of_ascii b) 4)))
  = Some (N.lor (N.shiftl (N.land (N_of_ascii a) 3) 4) (N.shiftr (N_of_ascii b) 4)).
Proof. each_two_bytes a b. Qed.

Lemma b64_value_3 (b c : ascii) :
  b64_value (b64_char (N.lor (N.shiftl (N.land (N_of_ascii b) 15) 2)
                         (N.shiftr (N_of_ascii c) 6)))
  = Some (N.lor (N.shiftl (N.land (N_of_ascii b) 15) 2) (N.shiftr (N_of_ascii c) 6)).
Proof. each_two_bytes b c. Qed.

Lemma b64_value_4 (c : ascii) :
  b64_value (b64_char (N.land (N_of_ascii c) 63)) = Some (N.land (N_of_ascii c) 63).
Proof. each_byte c. Qed.

(** The three bytes put together again from the four groups of six bits. *)
Lemma b64_byte_1 (a b : ascii) :
  ascii_of_N (N.lor (N.shiftl (N.shiftr (N_of_ascii a) 2) 2)
                (N.shiftr (N.lor (N.shiftl (N.land (N_of_ascii a) 3) 4)
                             (N.shiftr (N_of_ascii b) 4)) 4)) = a.
Proof. each_two_bytes a b. Qed.

Lemma b64_byte_2_high (a b : ascii) :
  N.land (N.lor (N.shiftl (N.land (N_of_ascii a) 3) 4) (N.shiftr (N_of_ascii b) 4)) 15
  = N.shiftr (N_of_ascii b) 4.
Proof. each_two_bytes a b. Qed.

Lemma b64_byte_2_low (b c : ascii) :
  N.shiftr (N.lor (N.shiftl (N.land (N_of_ascii b) 15) 2) (N.shiftr (N_of_ascii c) 6)) 2
  = N.land (N_of_ascii b) 15.
Proof. each_two_bytes b c. Qed.

Lemma b64_byte_2 (b : ascii) :
  ascii_of_N (N.lor (N.shiftl (N.shiftr (N_of_ascii b) 4) 4) (N.land (N_of_ascii b) 15)) = b.
Proof. each_byte b. Qed.

Lemma b64_byte_3 (b c : ascii) :
  ascii_of_N (N.lor (N.shiftl (N.land (N.lor (N.shiftl (N.land (N_of_ascii b) 15) 2)
                                         (N.shiftr (N_of_ascii c) 6)) 3) 6)
                (N.land (N_of_ascii c) 63)) = c.
Proof. each_two_bytes b c. Qed.

Lemma b64_group (a b c : ascii) (rest : string) :
  b64decode (b64encode (String a (String b (String c rest))))
  = String a (String b (String c (b64decode (b64encode rest)))).
Proof.
  rewrite b64encode_3, b64decode_4.
  rewrite b64_value_1, b64_value_2, b64_value_3, b64_value_4.
  rewrite b64_byte_1, b64_byte_2_high, b64_byte_2_low, b64_byte_2, b64_byte_3. done.
Qed.

(** [base64.b64decode] undoes [base64.b64encode], whatever the bytes. *)
Lemma b64decode_b64encode (s : string) : b64decode (b64encode s) = s.
Proof.
  enough (H : b64decode (b64encode s) = s ∧
              (∀ a, b64decode (b64encode (String a s)) = String a s) ∧
              (∀ a b, b64decode (b64encode (String a (String b s)))
                      = String a (String b s))) by apply H.
  induction s as [|c s (IH0 & IH1 & IH2)].
  - split_and!; [done | apply b64_tail1 | apply b64_tail2].
  - split_and!; [apply IH1 | intros a; apply IH2 |].
    intros a b. by rewrite b64_group, IH0.
Qed.

(** X19. The base64 text the two writers put under [content] loses
    nothing: decoding it gives back the bytes that were encoded, whatever
    they are and whatever their number, so different files never have the
    same [content]. *)
Theorem b64encode_loses_nothing (s : string) :
  b64decode (b64encode s) = s ∧ ∀ t, b64encode s = b64encode t → s = t.
Proof.
  split; [apply b64decode_b64encode |].
  intros t Heq. by rewrite <- (b64decode_b64encode s), Heq, b64decode_b64encode.
Qed.

Lemma content_bytes_b64encode (body : gmap string pyval) (bytes : string) :
  body !! "content" = Some (PStr (b64encode bytes)) → content_bytes body = Some bytes.
Proof. unfold content_bytes. intros ->. by rewrite b64decode_b64encode. Qed.

(** ** Tables *)

Lemma list_difference_nil_r (l : list string) : list_difference l [] = l.
Proof.
  induction l as [|x l IH]; [done |]. simpl.
  destruct (decide_rel elem_of x []) as [Hx|_]; [by apply elem_of_nil in Hx |].
  by rewrite IH.
Qed.

Lemma list_difference_subseteq (l k : list string) :
  l ⊆ k → list_difference l k = [].
Proof.
  intros Hsub. induction l as [|x l IH]; [done |]. simpl.
  destruct (decide_rel elem_of x k) as [_|Hx]; [| destruct Hx; apply Hsub; left].
  apply IH. intros y Hy. apply Hsub. by right.
Qed.

Lemma index_of_lookup (cols : list string) c i :
  index_of c cols = Some i → cols !! i = Some c.
Proof.
  revert i. induction cols as [|c' cols IH]; intros i; simpl; [done |].
  case_decide as Hc.
  - intros [= <-]. by rewrite Hc.
  - destruct (index_of c cols) as [j|]; simpl; [|done].
    intros [= <-]. by apply IH.
Qed.

Lemma index_of_elem_of (cols : list string) c :
  c ∈ cols → is_Some (index_of c cols).
Proof.
  induction cols as [|c' cols IH]; [by intros ?%elem_of_nil |].
  intros Hin. simpl. case_decide as Hc; [by eexists |].
  apply elem_of_cons in Hin as [->|Hin]; [done |].
  destruct (IH Hin) as [j ->]. by eexists.
Qed.

Lemma index_of_NoDup (cols : list string) c i :
  NoDup cols → cols !! i = Some c → index_of c cols = Some i.
Proof.
  intros Hnd. revert i. induction Hnd as [|c' cols Hnotin Hnd IH]; intros i; [done |].
  destruct i as [|i]; simpl.
  - intros [= ->]. by rewrite decide_True.
  - intros Hi. rewrite decide_False.
    + by rewrite (IH _ Hi).
    + intros ->. apply Hnotin. by eapply list_elem_of_lookup_2.
Qed.

(** Re-aligning a row to its own labels changes nothing. *)
Lemma reindex_id (cols : list string) (row : list cell) :
  NoDup cols → length row = length cols → reindex cols cols row = row.
Proof.
  intros Hnd Hlen. apply list_eq. intros i. unfold reindex.
  rewrite list_lookup_fmap.
  destruct (cols !! i) as [c|] eqn:Hc; simpl.
  - unfold cell_at. rewrite (index_of_NoDup _ _ _ Hnd Hc).
    destruct (row !! i) as [x|] eqn:Hx; [done |].
    apply lookup_ge_None in Hx. apply lookup_lt_Some in Hc. lia.
  - symmetry. apply lookup_ge_None. apply lookup_ge_None in Hc. lia.
Qed.

(** A re-aligned row still holds, under each label, the cell it had. *)
Lemma cell_at_reindex (old new : list string) (row : list cell) c :
  c ∈ new → cell_at new (reindex old new row) c = cell_at old row c.
Proof.
  intros Hin. destruct (index_of_elem_of _ _ Hin) as [i Hi].
  unfold cell_at at 1. rewrite Hi. unfold reindex.
  rewrite list_lookup_fmap, (index_of_lookup _ _ _ Hi). done.
Qed.

Lemma to_csv_no_index (df : DataFrame) :
  to_csv df false =
  csv_row (columns df) +:+ String.concat "" ((λ r, csv_row (cell_text <$> r)) <$> rows df).
Proof.
  unfold to_csv. do 2 f_equal. rewrite fmap_imap.
  rewrite <- (imap_const (λ r, csv_row (cell_text <$> r))).
  by apply imap_ext.
Qed.


(** *** Reading back what [to_csv] writes *)

Lemma concat_cons (x : string) (l : list string) :
  String.concat "" (x :: l) = x +:+ String.concat "" l.
Proof. destruct l; simpl; [by rewrite append_nil_r | done]. Qed.

Lemma needs_quoting_false (c : ascii) :
  needs_quoting c = false →
  Ascii.eqb c "," = false ∧ Ascii.eqb c dquote = false ∧ is_newline c = false.
Proof.
  unfold needs_quoting, is_newline. intros H.
  apply orb_false_elim in H as [H Hcr]. apply orb_false_elim in H as [H Hlf].
  apply orb_false_elim in H as [Hcomma Hquote]. by rewrite Hlf, Hcr.
Qed.

Lemma csv_read_start_field (c : ascii) record field rest :
  csv_read start_field record field (String c rest) =
  if Ascii.eqb c dquote then csv_read in_quoted_field record "" rest
  else if Ascii.eqb c "," then csv_read start_field (record ++ [""]) "" rest
  else if is_newline c then
    match record with
    | [] => csv_read start_field [] "" rest
    | _ => (record ++ [""]) :: csv_read start_field [] "" rest
    end
  else csv_read in_field record (String c "") rest.
Proof. reflexivity. Qed.

Lemma csv_read_in_field (c : ascii) record field rest :
  csv_read in_field record field (String c rest) =
  if Ascii.eqb c "," then csv_read start_field (record ++ [field]) "" rest
  else if is_newline c then (record ++ [field]) :: csv_read start_field [] "" rest
  else csv_read in_field record (field +:+ String c "") rest.
Proof. reflexivity. Qed.

Lemma csv_read_in_quoted_field (c : ascii) record field rest :
  csv_read in_quoted_field record field (String c rest) =
  if Ascii.eqb c dquote then csv_read quote_in_quoted_field record field rest
  else csv_read in_quoted_field record (field +:+ String c "") rest.
Proof. reflexivity. Qed.

Lemma csv_read_quote_in_quoted_field (c : ascii) record field rest :
  csv_read quote_in_quoted_field record field (String c rest) =
  if Ascii.eqb c dquote
  then csv_read in_quoted_field record (field +:+ String dquote "") rest
  else if Ascii.eqb c "," then csv_read start_field (record ++ [field]) "" rest
  else if is_newline c then (record ++ [field]) :: csv_read start_field [] "" rest
  else csv_read in_field record (field +:+ String c "") rest.
Proof. reflexivity. Qed.

Lemma append_snoc_cons (f : string) (c : ascii) (s : string) :
  (f +:+ String c "") +:+ s = f +:+ String c s.
Proof. by rewrite append_assoc, append_cons, append_nil_l. Qed.

(** An unquoted field is read character by character. *)
Lemma csv_read_plain (s : string) record field rest :
  string_exists needs_quoting s = false →
  csv_read in_field record field (s +:+ rest) = csv_read in_field record (field +:+ s) rest.
Proof.
  revert field. induction s as [|c s IH]; intros field Hs.
  - by rewrite append_nil_l, append_nil_r.
  - simpl in Hs. apply orb_false_elim in Hs as [Hc Hs].
    destruct (needs_quoting_false c Hc) as (Hcomma & _ & Hnl).
    rewrite append_cons, csv_read_in_field, Hcomma, Hnl, (IH _ Hs).
    by rewrite append_snoc_cons.
Qed.

(** A quoted field is read up to its closing quote, and a doubled quote as
    one. *)
Lemma csv_read_quoted (s : string) record field rest :
  csv_read in_quoted_field record field (double_quotes s +:+ String dquote rest)
  = csv_read quote_in_quoted_field record (field +:+ s) rest.
Proof.
  revert field. induction s as [|c s IH]; intros field.
  - rewrite append_nil_l, append_nil_r, csv_read_in_quoted_field. done.
  - simpl double_quotes. destruct (Ascii.eqb c dquote) eqn:Hc.
    + apply Ascii.eqb_eq in Hc as ->.
      rewrite !append_cons, csv_read_in_quoted_field, Ascii.eqb_refl.
      rewrite csv_read_quote_in_quoted_field, Ascii.eqb_refl, IH.
      by rewrite append_snoc_cons.
    + rewrite append_cons, csv_read_in_quoted_field, Hc, IH.
      by rewrite append_snoc_cons.
Qed.

(** The reader after one written field, up to the delimiter [d] that
    follows it. *)
Lemma csv_read_field (s : string) (d : ascii) record rest :
  Ascii.eqb d dquote = false →
  csv_read start_field record "" (csv_field s +:+ String d rest) =
  match s with
  | "" => csv_read start_field record "" (String d rest)
  | _ =>
      if string_exists needs_quoting s
      then csv_read quote_in_quoted_field record s (String d rest)
      else csv_read in_field record s (String d rest)
  end.
Proof.
  intros Hd. unfold csv_field.
  destruct (string_exists needs_quoting s) eqn:Hs.
  - rewrite !append_cons, csv_read_start_field, Ascii.eqb_refl.
    rewrite append_assoc, append_cons, append_nil_l, csv_read_quoted, append_nil_l.
    by destruct s.
  - destruct s as [|c s]; [by rewrite append_nil_l |].
    simpl in Hs. apply orb_false_elim in Hs as [Hc Hs].
    destruct (needs_quoting_false c Hc) as (Hcomma & Hquote & Hnl).
    rewrite append_cons, csv_read_start_field, Hquote, Hcomma, Hnl.
    by rewrite (csv_read_plain _ _ _ _ Hs).
Qed.

Lemma csv_read_field_comma (s : string) record rest :
  csv_read start_field record "" (csv_field s +:+ String "," rest)
  = csv_read start_field (record ++ [s]) "" rest.
Proof.
  rewrite csv_read_field by done.
  destruct s as [|c s]; [done |].
  destruct (string_exists needs_quoting (String c s)); done.
Qed.

Lemma csv_read_field_newline (s : string) record rest :
  record ≠ [] ∨ s ≠ "" →
  csv_read start_field record "" (csv_field s +:+ String LF rest)
  = (record ++ [s]) :: csv_records rest.
Proof.
  intros Hne. rewrite csv_read_field by done.
  destruct s as [|c s].
  - destruct record as [|f record]; [by destruct Hne |]. done.
  - destruct (string_exists needs_quoting (String c s)); done.
Qed.

(** The reader after the fields of one written line. *)
Lemma csv_read_fields (fields : list string) record rest :
  fields ≠ [] → record ≠ [] ∨ fields ≠ [""] →
  csv_read start_field record "" (join "," (csv_field <$> fields) +:+ String LF rest)
  = (record ++ fields) :: csv_records rest.
Proof.
  revert record. induction fields as [|x fields IH]; intros record Hne Hblank; [done |].
  destruct fields as [|y fields].
  - simpl. apply csv_read_field_newline.
    destruct Hblank as [?|Hx]; [by left | right; by intros ->].
  - change (join "," (csv_field <$> x :: y :: fields))
      with (csv_field x +:+ "," +:+ join "," (csv_field <$> y :: fields)).
    rewrite !append_assoc, append_cons, append_nil_l, csv_read_field_comma.
    rewrite IH; [by rewrite <- app_assoc | done |].
    left. by destruct record.
Qed.

(** One written line reads back as the fields it was written from. *)
Lemma csv_records_row (fields : list string) rest :
  fields ≠ [] → csv_records (csv_row fields +:+ rest) = fields :: csv_records rest.
Proof.
  intros Hne. unfold csv_records at 1.
  destruct (decide (fields = [""])) as [->|Hblank]; [done |].
  assert (Hrow : csv_row fields = join "," (csv_field <$> fields) +:+ String LF "").
  { destruct fields as [|[|c x] [|y fields]]; done. }
  rewrite Hrow, append_assoc, append_cons, append_nil_l.
  rewrite csv_read_fields; [done | done | by right].
Qed.

Lemma csv_records_rows (rows : list (list string)) rest :
  Forall (λ r, r ≠ []) rows →
  csv_records (String.concat "" (csv_row <$> rows) +:+ rest) = rows ++ csv_records rest.
Proof.
  induction 1 as [|r rows Hr Hrows IH]; [by rewrite append_nil_l |].
  rewrite fmap_cons, concat_cons, append_assoc, csv_records_row by done.
  by rewrite IH.
Qed.

(** What [to_csv] writes without the index reads back as the labels and
    then the rows, cell by cell, whatever characters the cells hold. *)
Lemma csv_records_to_csv (df : DataFrame) :
  columns df ≠ [] → Forall (λ r, r ≠ []) (rows df) →
  csv_records (to_csv df false)
  = columns df :: ((λ r : list cell, cell_text <$> r) <$> rows df).
Proof.
  intros Hcols Hrows. rewrite to_csv_no_index, csv_records_row by done.
  rewrite <- (append_nil_r (String.concat _ _)).
  change (λ r : list cell, csv_row (cell_text <$> r))
    with (csv_row ∘ (λ r : list cell, cell_text <$> r)).
  rewrite list_fmap_compose.
  rewrite csv_records_rows; [by rewrite app_nil_r |].
  apply Forall_fmap. eapply Forall_impl; [exact Hrows |].
  intros r Hr. simpl. by destruct r.
Qed.



(** What [pd.concat] makes of a ledger and one more record. *)
Lemma pd_concat_ledger (L : DataFrame) (record : list (string * string)) :
  wf_frame L → record.*1 ⊆ columns L →
  pd_concat [Some L; Some (DataFrame_of_record record)] =
  Ret {| columns := columns L;
         rows := rows L ++ [reindex record.*1 (columns L) (Str <$> record.*2)] |}.
Proof.
  intros [Hnd Hrows] Hsub.
  assert (Hcols : union_columns (union_columns [] (columns L)) record.*1 = columns L).
  { unfold union_columns. simpl.
    rewrite list_difference_nil_r, (list_difference_subseteq _ _ Hsub).
    apply app_nil_r. }
  unfold pd_concat. simpl. rewrite Hcols. do 3 f_equal.
  apply list_eq. intros i. rewrite list_lookup_fmap.
  destruct (rows L !! i) as [row|] eqn:Hrow; [|done]. simpl. f_equal.
  apply reindex_id; [done |].
  by eapply (Forall_lookup_1 _ _ _ _ Hrows).
Qed.

Lemma ledger_labels_present (L : DataFrame) (name date : string) :
  is_ledger L → (new_record name date).*1 ⊆ columns L.
Proof.
  intros [_ Hperm] c Hc. change ((new_record name date).*1) with ledger_schema in Hc.
  by rewrite Hperm.
Qed.

(** The row of a submission, aligned to the labels of a ledger: it holds
    the name, the form identifier and the date under their labels. *)
Lemma new_row_cells (L : DataFrame) (name date : string) :
  is_ledger L →
  let new_row := reindex (new_record name date).*1 (columns L)
                   (Str <$> (new_record name date).*2) in
  length new_row = length (columns L) ∧
  cell_at (columns L) new_row "name" = Str name ∧
  cell_at (columns L) new_row "form" = Str "f100d_e" ∧
  cell_at (columns L) new_row "signed_on" = Str date.
Proof.
  intros HL new_row. pose proof (ledger_labels_present L name date HL) as Hsub.
  subst new_row. split_and!.
  - unfold reindex. by rewrite length_fmap.
  - rewrite cell_at_reindex; [done |]. apply Hsub. set_solver.
  - rewrite cell_at_reindex; [done |]. apply Hsub. set_solver.
  - rewrite cell_at_reindex; [done |]. apply Hsub. set_solver.
Qed.

Lemma ledger_rows_not_empty (L : DataFrame) :
  is_ledger L → columns L ≠ [] ∧ Forall (λ r, r ≠ []) (rows L).
Proof.
  intros [[_ Hrows] Hperm].
  assert (Hlen : length (columns L) = 3%nat) by (by rewrite Hperm).
  split; [by destruct (columns L) |].
  eapply Forall_impl; [exact Hrows |]. intros r Hr. simpl in Hr.
  destruct r; [|done]. simpl in Hr. lia.
Qed.




(** ** Filling the form *)

Lemma fill_fields_cons (v f : string) (inputs fields : list string) (d : gmap string string) :
  fill_fields (v :: inputs) (f :: fields) d = fill_fields inputs fields (<[f := v]> d).
Proof. reflexivity. Qed.

(** A field that is not among the first [length inputs] keeps what it had. *)
Lemma fill_fields_other (inputs fields : list string) (d : gmap string string) (f : string) :
  f ∉ take (length inputs) fields → fill_fields inputs fields d !! f = d !! f.
Proof.
  revert fields d. induction inputs as [|v inputs IH]; intros fields d Hf; [done |].
  destruct fields as [|f0 fields]; [done |].
  rewrite fill_fields_cons. simpl in Hf. apply not_elem_of_cons in Hf as [Hne Hf].
  rewrite IH by done. by apply lookup_insert_ne.
Qed.

(** The i-th field receives the i-th value. *)
Lemma fill_fields_assigned (inputs fields : list string) (d : gmap string string) i v f :
  NoDup fields → inputs !! i = Some v → fields !! i = Some f →
  fill_fields inputs fields d !! f = Some v.
Proof.
  intros Hnd. revert inputs d i.
  induction Hnd as [|f0 fields Hnotin Hnd IH]; intros inputs d i Hv Hf; [done |].
  destruct inputs as [|v0 inputs]; [done |].
  rewrite fill_fields_cons. destruct i as [|i]; simpl in Hv, Hf.
  - injection Hv as ->. injection Hf as ->.
    rewrite fill_fields_other; [by apply lookup_insert_eq |].
    intros Hin. apply Hnotin. by eapply subseteq_take.
  - by eapply IH.
Qed.

(** C8. With fewer values than the template has fields ([k < N]), the
    fill step gives the first [k] fields the first [k] values, in declared
    order, and changes no other field: the trailing [N - k] fields, and any
    key that is not one of the first [k] fields, keep what the form state
    held for them (nothing, when they were unset).  The step is a total
    function: it raises nothing. *)
Theorem fill_fields_fewer_values (inputs fields : list string) (d : gmap string string) :
  NoDup fields → (length inputs < length fields)%nat →
  (∀ i v, inputs !! i = Some v →
     ∃ f, fields !! i = Some f ∧ fill_fields inputs fields d !! f = Some v) ∧
  (∀ i f, (length inputs ≤ i)%nat → fields !! i = Some f →
     fill_fields inputs fields d !! f = d !! f) ∧
  (∀ f, f ∉ take (length inputs) fields → fill_fields inputs fields d !! f = d !! f).
Proof.
  intros Hnd Hlen. split_and!.
  - intros i v Hv.
    destruct (lookup_lt_is_Some_2 fields i) as [f Hf].
    { apply lookup_lt_Some in Hv. lia. }
    exists f. split; [done |]. by eapply fill_fields_assigned.
  - intros i f Hi Hf. apply fill_fields_other.
    intros Hin. apply elem_of_take in Hin as (j & Hj & Hlt).
    assert (j = i) by (by eapply NoDup_lookup). lia.
  - intros f Hf. by apply fill_fields_other.
Qed.

(** C8 at work: two values for three fields. *)
Lemma fill_fields_fewer_values_witness :
  fill_fields ["B"; "A"] ["TraineeName"; "Name"; "Department"] ∅ !! "Name" = Some "A" ∧
  fill_fields ["B"; "A"] ["TraineeName"; "Name"; "Department"] ∅ !! "Department" = None.
Proof.
  assert (Hnd : NoDup ["TraineeName"; "Name"; "Department"]) by compute_done.
  assert (Hlen : (length ["B"; "A"] < length ["TraineeName"; "Name"; "Department"])%nat)
    by (simpl; lia).
  destruct (fill_fields_fewer_values ["B"; "A"] ["TraineeName"; "Name"; "Department"] ∅ Hnd Hlen)
    as (Hfirst & Hrest & _).
  split.
  - destruct (Hfirst 1%nat "A" eq_refl) as (f & Hf & Hv). by injection Hf as <-.
  - rewrite (Hrest 2%nat "Department"); [done | simpl; lia | done].
Defined.

(** Values beyond the last field are dropped by [zip]. *)
Lemma fill_fields_take (inputs fields : list string) (d : gmap string string) :
  fill_fields (take (length fields) inputs) fields d = fill_fields inputs fields d.
Proof.
  revert fields d. induction inputs as [|v inputs IH]; intros fields d.
  - by rewrite take_nil.
  - destruct fields as [|f fields]; [done |]. simpl take.
    rewrite !fill_fields_cons. apply IH.
Qed.

(** What a field among the first [length inputs] receives does not depend
    on what the form state held. *)
Lemma fill_fields_assigned_indep (inputs fields : list string) (d d' : gmap string string) f :
  f ∈ take (length inputs) fields →
  fill_fields inputs fields d !! f = fill_fields inputs fields d' !! f.
Proof.
  revert fields d d'. induction inputs as [|v inputs IH]; intros fields d d' Hf.
  - simpl in Hf. by apply elem_of_nil in Hf.
  - destruct fields as [|f0 fields]; [by apply elem_of_nil in Hf |].
    rewrite !fill_fields_cons.
    destruct (decide (f ∈ take (length inputs) fields)) as [Hin|Hnotin].
    + by apply IH.
    + simpl in Hf. apply elem_of_cons in Hf as [->|Hf]; [|done].
      rewrite !fill_fields_other by done. by rewrite !lookup_insert_eq.
Qed.

(** X9. With at least as many values as the template has fields, every
    field receives the value at its own position, the values beyond the last
    field are dropped without an error, and no key that is not a field of
    the template is touched. *)
Theorem fill_fields_enough_values (inputs fields : list string) (d : gmap string string) :
  NoDup fields → (length fields ≤ length inputs)%nat →
  (∀ i f, fields !! i = Some f → fill_fields inputs fields d !! f = inputs !! i) ∧
  fill_fields inputs fields d = fill_fields (take (length fields) inputs) fields d ∧
  (∀ f, f ∉ fields → fill_fields inputs fields d !! f = d !! f).
Proof.
  intros Hnd Hlen. split_and!.
  - intros i f Hf.
    destruct (lookup_lt_is_Some_2 inputs i) as [v Hv].
    { apply lookup_lt_Some in Hf. lia. }
    rewrite Hv. by eapply fill_fields_assigned.
  - by rewrite fill_fields_take.
  - intros f Hf. apply fill_fields_other. intros Hin. apply Hf.
    by eapply subseteq_take.
Qed.

Lemma fill_fields_enough_values_witness :
  fill_fields ["B"; "A"; "Chem"] ["TraineeName"; "Name"] ∅ !! "Name" = Some "A" ∧
  fill_fields ["B"; "A"; "Chem"] ["TraineeName"; "Name"] ∅
  = fill_fields ["B"; "A"] ["TraineeName"; "Name"] ∅.
Proof.
  assert (Hnd : NoDup ["TraineeName"; "Name"]) by compute_done.
  assert (Hlen : (length ["TraineeName"; "Name"] ≤ length ["B"; "A"; "Chem"])%nat)
    by (simpl; lia).
  destruct (fill_fields_enough_values ["B"; "A"; "Chem"] ["TraineeName"; "Name"] ∅ Hnd Hlen)
    as (Hall & Hdrop & _).
  split; [exact (Hall 1%nat "Name" eq_refl) | exact Hdrop].
Defined.

(** X10. Filling the form a second time, with at least as many values as
    the first time, leaves no trace of the first: the form state is what the
    second fill alone gives.  (The handler always passes six values.) *)
Theorem fill_fields_again (inputs1 inputs2 fields : list string) (d : gmap string string) :
  (length inputs1 ≤ length inputs2)%nat →
  fill_fields inputs2 fields (fill_fields inputs1 fields d) = fill_fields inputs2 fields d.
Proof.
  intros Hlen. apply map_eq. intros f.
  destruct (decide (f ∈ take (length inputs2) fields)) as [Hin|Hnotin].
  - by apply fill_fields_assigned_indep.
  - rewrite (fill_fields_other inputs2 fields (fill_fields inputs1 fields d)) by done.
    rewrite (fill_fields_other inputs2 fields d) by done.
    apply fill_fields_other.
    intros Hin. apply Hnotin.
    apply elem_of_take in Hin as (i & Hi & Hlt). apply elem_of_take. exists i.
    split; [done | lia].
Qed.

Lemma fill_fields_again_witness :
  fill_fields ["B2"; "A2"] ["TraineeName"; "Name"; "Department"]
    (fill_fields ["B1"; "A1"] ["TraineeName"; "Name"; "Department"] ∅)
  = fill_fields ["B2"; "A2"] ["TraineeName"; "Name"; "Department"] ∅.
Proof.
  apply (fill_fields_again ["B1"; "A1"] ["B2"; "A2"] ["TraineeName"; "Name"; "Department"] ∅).
  simpl. lia.
Defined.

(** X11. The keys of the form state after a fill are the keys it had and
    the fields that received a value: no other key is ever created, and none
    is removed. *)
Theorem fill_fields_dom (inputs fields : list string) (d : gmap string string) :
  dom (fill_fields inputs fields d) = dom d ∪ list_to_set (take (length inputs) fields).
Proof.
  revert fields d. induction inputs as [|v inputs IH]; intros fields d.
  - simpl. by rewrite (right_id_L ∅ (∪)).
  - destruct fields as [|f fields]; [simpl; by rewrite (right_id_L ∅ (∪)) |].
    rewrite fill_fields_cons, IH, dom_insert_L. simpl.
    by rewrite (comm_L (∪) {[f]} (dom d)), (assoc_L (∪)).
Qed.

(** ** The path of the published document *)

Lemma length_append (s t : string) :
  String.length (s +:+ t) = (String.length s + String.length t)%nat.
Proof. induction s as [|c s IH]; [done |]. rewrite append_cons. simpl. by rewrite IH. Qed.

Lemma append_inj_l (s t t' : string) : s +:+ t = s +:+ t' → t = t'.
Proof.
  induction s as [|c s IH]; [done |]. rewrite !append_cons. intros [= Heq]. by apply IH.
Qed.

(** Two texts that end in tails of the same length are equal only if the
    fronts and the tails are. *)
Lemma append_inj_same_length (s s' t t' : string) :
  String.length t = String.length t' → s +:+ t = s' +:+ t' → s = s' ∧ t = t'.
Proof.
  intros Hlen. revert s'. induction s as [|c s IH]; intros [|c' s'] Heq.
  - done.
  - rewrite append_nil_l in Heq. subst t. rewrite length_append in Hlen. simpl in Hlen. lia.
  - rewrite append_nil_l in Heq. subst t'. rewrite length_append in Hlen. simpl in Hlen. lia.
  - rewrite !append_cons in Heq. injection Heq as -> Heq.
    destruct (IH s' Heq) as [-> ->]. done.
Qed.

Lemma zfill_year (z : Z) :
  1000 ≤ z ≤ 9999 → String.length (zfill 4 z) = 4%nat ∧ Z_of_digits (zfill 4 z) = z.
Proof.
  intros Hz.
  assert (Hall : Forall (λ z, String.length (zfill 4 z) = 4%nat ∧ Z_of_digits (zfill 4 z) = z)
                   (seqZ 1000 9000)) by compute_done.
  eapply (proj1 (Forall_forall _ _) Hall). apply elem_of_seqZ. lia.
Qed.

Lemma zfill_two_digits (z : Z) :
  0 ≤ z ≤ 99 → String.length (zfill 2 z) = 2%nat ∧ Z_of_digits (zfill 2 z) = z.
Proof.
  intros Hz.
  assert (Hall : Forall (λ z, String.length (zfill 2 z) = 2%nat ∧ Z_of_digits (zfill 2 z) = z)
                   (seqZ 0 100)) by compute_done.
  eapply (proj1 (Forall_forall _ _) Hall). apply elem_of_seqZ. lia.
Qed.

Lemma date_fields (t : datetime) :
  strftime "%Y-%m-%d" t
  = zfill 4 (year t) +:+ "-" +:+ zfill 2 (month t) +:+ "-" +:+ zfill 2 (day t).
Proof. simpl strftime. unfold directive. simpl. by rewrite append_nil_r. Qed.

Lemma append_inj_same_length_l (s s' t t' : string) :
  String.length s = String.length s' → s +:+ t = s' +:+ t' → s = s' ∧ t = t'.
Proof.
  revert s'. induction s as [|c s IH]; intros [|c' s'] Hlen Heq; try done.
  rewrite !append_cons in Heq. injection Heq as -> Heq.
  injection Hlen as Hlen. destruct (IH s' Hlen Heq) as [-> ->]. done.
Qed.

Lemma date_length (t : datetime) :
  calendar_day t → String.length (strftime "%Y-%m-%d" t) = 10%nat.
Proof.
  intros (Hy & Hm & Hd). rewrite date_fields, !length_append.
  destruct (zfill_year (year t) Hy) as [-> _].
  destruct (zfill_two_digits (month t)) as [-> _]; [lia |].
  destruct (zfill_two_digits (day t)) as [-> _]; [lia |]. done.
Qed.

Lemma date_inj (t t' : datetime) :
  calendar_day t → calendar_day t' →
  strftime "%Y-%m-%d" t = strftime "%Y-%m-%d" t' →
  year t = year t' ∧ month t = month t' ∧ day t = day t'.
Proof.
  intros (Hy & Hm & Hd) (Hy' & Hm' & Hd'). rewrite !date_fields. intros Heq.
  destruct (zfill_year (year t) Hy) as [Hly Hpy].
  destruct (zfill_year (year t') Hy') as [Hly' Hpy'].
  destruct (zfill_two_digits (month t)) as [Hlm Hpm]; [lia |].
  destruct (zfill_two_digits (month t')) as [Hlm' Hpm']; [lia |].
  destruct (zfill_two_digits (day t)) as [Hld Hpd]; [lia |].
  destruct (zfill_two_digits (day t')) as [Hld' Hpd']; [lia |].
  apply append_inj_same_length_l in Heq as [Hyear Heq]; [|congruence].
  apply append_inj_l in Heq.
  apply append_inj_same_length_l in Heq as [Hmonth Heq]; [|congruence].
  apply append_inj_l in Heq.
  split_and!; congruence.
Qed.

(** X12. The date of a submission has ten characters, and two submissions
    are published at the same path exactly when they have the same name and
    fall on the same calendar day: the path tells nothing else apart. *)
Theorem pdf_repo_path_same_iff_same_name_and_day (name name' : string) (t t' : datetime) :
  calendar_day t → calendar_day t' →
  String.length (strftime "%Y-%m-%d" t) = 10%nat ∧
  (pdf_repo_path name (strftime "%Y-%m-%d" t) = pdf_repo_path name' (strftime "%Y-%m-%d" t')
   ↔ name = name' ∧ year t = year t' ∧ month t = month t' ∧ day t = day t').
Proof.
  intros Ht Ht'. split; [by apply date_length |]. split.
  - unfold pdf_repo_path. intros Heq. apply append_inj_l in Heq.
    apply append_inj_same_length in Heq as [-> Heq].
    + apply append_inj_l in Heq.
      apply append_inj_same_length in Heq as [Heq _]; [|done].
      split; [done |]. by apply date_inj.
    + by rewrite !length_append, !date_length.
  - intros (-> & Hy & Hm & Hd). by rewrite !date_fields, Hy, Hm, Hd.
Qed.

Lemma pdf_repo_path_same_iff_same_name_and_day_witness :
  String.length
    (strftime "%Y-%m-%d"
       {| year := 2024; month := 1; day := 1; hour := 10; minute := 30; second := 0 |})
  = 10%nat ∧
  pdf_repo_path "Ann"
    (strftime "%Y-%m-%d"
       {| year := 2024; month := 1; day := 1; hour := 10; minute := 30; second := 0 |})
  ≠ pdf_repo_path "Ann"
      (strftime "%Y-%m-%d"
         {| year := 2024; month := 1; day := 2; hour := 10; minute := 30; second := 0 |}).
Proof.
  destruct (pdf_repo_path_same_iff_same_name_and_day "Ann" "Ann"
              {| year := 2024; month := 1; day := 1; hour := 10; minute := 30; second := 0 |}
              {| year := 2024; month := 1; day := 2; hour := 10; minute := 30; second := 0 |})
    as [Hlength [Hsame _]].
  - unfold calendar_day. simpl. lia.
  - unfold calendar_day. simpl. lia.
  - split; [exact Hlength |].
    intros Heq. destruct (Hsame Heq) as (_ & _ & _ & Hday). discriminate Hday.
Defined.

(** ** The remote operations *)

Section Facts.

Context `{Platform}.

Implicit Types (w : world) (r : response) (url file_path name : string).

Lemma steps_refl w : steps w w [] [] 0.
Proof. unfold steps. rewrite !app_nil_r. simpl. split_and!; auto with lia. Qed.

Lemma steps_trans w1 w2 w3 reqs1 reqs2 events1 events2 n1 n2 :
  steps w1 w2 reqs1 events1 n1 → steps w2 w3 reqs2 events2 n2 →
  steps w1 w3 (reqs1 ++ reqs2) (events1 ++ events2) (n1 + n2).
Proof.
  intros (Hr1 & Hs1 & Hu1 & Ht1 & Hf1 & Hd1) (Hr2 & Hs2 & Hu2 & Ht2 & Hf2 & Hd2).
  unfold steps, replay in *. rewrite foldl_app, !app_assoc.
  split_and!; try congruence. lia.
Qed.

Lemma bind_Ret {A B} (m : M A) (k : A → M B) w a w' :
  m w = (Ret a, w') → (m ≫= k) w = k a w'.
Proof. intros Hm. unfold mbind, M_bind. by rewrite Hm. Qed.

Lemma bind_Raise {A B} (m : M A) (k : A → M B) w e w' :
  m w = (Raise e, w') → (m ≫= k) w = (Raise e, w').
Proof. intros Hm. unfold mbind, M_bind. by rewrite Hm. Qed.

Lemma steps_after_request w req s' :
  (serve (remote w) req).1 = s' → steps w (after_request w req s') [req] [] 0.
Proof.
  intros <-. unfold steps, replay. simpl. rewrite app_nil_r.
  split_and!; auto with lia.
Qed.

Lemma steps_show w e : steps w (show e w).2 [] [e] 0.
Proof. unfold steps. simpl. rewrite app_nil_r. split_and!; auto with lia. Qed.

Lemma steps_datetime_now w : steps w (datetime_now w).2 [] [] 1.
Proof. unfold steps. simpl. rewrite !app_nil_r. split_and!; auto with lia. Qed.

(** Unfolds the monad and the calls into [requests]. *)
Ltac run :=
  unfold try_except, requests_get, requests_put, requests_post, requests_call,
    response_json, getitem, lift, mbind, M_bind, mret, M_ret;
  simpl.

(** Closes a [steps] goal between two explicit states. *)
Ltac solve_steps :=
  unfold steps, replay, after_request; simpl;
  repeat match goal with Hs : serve _ _ = _ |- _ => rewrite Hs end; simpl;
  rewrite ?app_nil_r, <- ?app_assoc; simpl;
  split_and!; first [done | lia | auto].

(** [fetch_records] never raises: it sends one GET and returns a table, or
    shows an error and returns [None]. *)
Lemma fetch_records_cases file_path w :
  ∃ res w' events,
    fetch_records file_path w = (Ret res, w') ∧
    steps w w' [get_request (raw_url file_path)] events 0 ∧
    match res with
    | Some _ => events = []
    | None => ∃ msg, events = [st_error msg]
    end.
Proof.
  unfold fetch_records. run.
  destruct (serve (remote w) (get_request (raw_url file_path))) as [s' [r|msg]] eqn:Hserve.
  - destruct (status_code r =? 200).
    + destruct (read_csv (content r)) as [df|e]; simpl.
      * eexists (Some df), _, []. split_and!; [done | solve_steps | done].
      * eexists None, _, [_]. split_and!; [done | solve_steps | by eexists].
    + simpl. eexists None, _, [_]. split_and!; [done | solve_steps | by eexists].
  - simpl. eexists None, _, [_]. split_and!; [done | solve_steps | by eexists].
Qed.

Lemma fetch_records_found file_path w s1 r L :
  serve (remote w) (get_request (raw_url file_path)) = (s1, Responded r) →
  status_code r = 200 → read_csv (content r) = Ret L →
  fetch_records file_path w
  = (Ret (Some L), after_request w (get_request (raw_url file_path)) s1).
Proof.
  intros Hserve Hstatus Hcsv.
  unfold fetch_records. run. by rewrite Hserve, Hstatus, Hcsv.
Qed.

Lemma observed_token_Some r token :
  observed_token r = Some token →
  ∃ contents, json r = Some (JObject contents) ∧ contents !! "sha" = Some (PStr token) ∧
              truthy (PStr token) = true.
Proof.
  unfold observed_token. destruct (json r) as [[contents|items|v]|]; simpl; [|done ..].
  destruct (contents !! "sha") as [[| | |s]|] eqn:Hsha; try done.
  simpl. destruct (String.eqb s "") eqn:Hs; [done |].
  intros [= <-]. exists contents. by rewrite Hs.
Qed.

(** What [contents[key]] can raise. *)
Lemma subscript_raises contents key e :
  subscript contents key = Raise e → e = KeyError key ∨ ∃ m, e = TypeError m.
Proof.
  destruct contents as [members|items|[]]; simpl;
    [destruct (members !! key); [done |]; intros [= <-]; by left | ..];
    intros [= <-]; right; by eexists.
Qed.

(** Step 1 when the file is found: the token of the answer is kept. *)
Lemma retrieve_sha_found url w s1 r token :
  serve (remote w) (get_request url) = (s1, Responded r) →
  status_code r = 200 → observed_token r = Some token →
  retrieve_sha url w = (Ret (Some (PStr token)), after_request w (get_request url) s1).
Proof.
  intros Hserve Hstatus (contents & Hjson & Hsha & _)%observed_token_Some.
  unfold retrieve_sha. run. rewrite Hserve, Hstatus. simpl.
  rewrite Hjson. simpl. by rewrite Hsha.
Qed.

(** Step 1 when the file does not exist: no token. *)
Lemma retrieve_sha_not_found url w s1 r :
  serve (remote w) (get_request url) = (s1, Responded r) →
  status_code r = 404 →
  retrieve_sha url w = (Ret (Some PNone), after_request w (get_request url) s1).
Proof.
  intros Hserve Hstatus.
  unfold retrieve_sha. run. by rewrite Hserve, Hstatus.
Qed.

(** Step 1 on any other status: an error is shown and the write is given up. *)
Lemma retrieve_sha_unexpected url w s1 r :
  serve (remote w) (get_request url) = (s1, Responded r) →
  status_code r ≠ 200 → status_code r ≠ 404 →
  ∃ w' msg, retrieve_sha url w = (Ret None, w') ∧
            steps w w' [get_request url] [st_error msg] 0.
Proof.
  intros Hserve H200 H404.
  unfold retrieve_sha. run. rewrite Hserve.
  apply Z.eqb_neq in H200, H404. rewrite H200, H404. simpl.
  eexists _, _. split; [done | solve_steps].
Qed.

(** Step 1 when the connection fails: the exception is caught, an error is
    shown and the write is given up. *)
Lemma retrieve_sha_connection_failed url w s1 m :
  serve (remote w) (get_request url) = (s1, ConnectionFailed m) →
  ∃ w' msg, retrieve_sha url w = (Ret None, w') ∧
            steps w w' [get_request url] [st_error msg] 0.
Proof.
  intros Hserve. unfold retrieve_sha. run. rewrite Hserve. simpl.
  eexists _, _. split; [done | solve_steps].
Qed.

(** Step 1 in general: one GET; then a token or none, an error shown, or
    the exception [contents['sha']] raised on a file info that is no object
    with a [sha]. *)
Lemma retrieve_sha_cases url w :
  ∃ res w' events,
    retrieve_sha url w = (res, w') ∧
    steps w w' [get_request url] events 0 ∧
    match res with
    | Ret (Some _) => events = []
    | Ret None => ∃ msg, events = [st_error msg]
    | Raise e => (∃ r contents,
                    (serve (remote w) (get_request url)).2 = Responded r ∧
                    status_code r = 200 ∧ json r = Some contents ∧
                    subscript contents "sha" = Raise e) ∧
                 events = []
    end.
Proof.
  unfold retrieve_sha. run.
  destruct (serve (remote w) (get_request url)) as [s' [r|msg]] eqn:Hserve.
  - destruct (status_code r =? 200) eqn:Hstatus.
    + apply Z.eqb_eq in Hstatus.
      destruct (json r) as [contents|] eqn:Hjson; simpl.
      * destruct (subscript contents "sha") as [sha|e] eqn:Hsha; simpl.
        -- eexists _, _, []. split_and!; [done | solve_steps | done].
        -- destruct (subscript_raises _ _ _ Hsha) as [->|[m ->]]; simpl;
             (eexists _, _, [];
              split_and!; [done | solve_steps | split; [by eexists r, contents | done]]).
      * eexists _, _, [_]. split_and!; [done | solve_steps | by eexists].
    + destruct (status_code r =? 404); simpl.
      * eexists _, _, []. split_and!; [done | solve_steps | done].
      * eexists _, _, [_]. split_and!; [done | solve_steps | by eexists].
  - simpl. eexists _, _, [_]. split_and!; [done | solve_steps | by eexists].
Qed.

(** Step 5: one PUT, and the outcome shown; it never raises. *)
Lemma send_update_cases url data w :
  ∃ ok w' event,
    send_update url data w = (Ret ok, w') ∧
    steps w w' [put_request url data] [event] 0 ∧
    if ok then event = st_success "File updated successfully."
    else ∃ msg, event = st_error msg.
Proof.
  unfold send_update. run.
  destruct (serve (remote w) (put_request url data)) as [s' [r|msg]] eqn:Hserve.
  - destruct ((status_code r =? 200) || (status_code r =? 201)); simpl.
    + eexists true, _, _. split_and!; [done | solve_steps | done].
    + eexists false, _, _. split_and!; [done | solve_steps | by eexists].
  - simpl. eexists false, _, _. split_and!; [done | solve_steps | by eexists].
Qed.

(** Once step 1 has returned [sha], the rest of [update_repo_file] is the
    PUT of the table with the body of step 4. *)
Lemma update_repo_file_after_step1 file_path df name commit_message w w1 sha :
  retrieve_sha (contents_url file_path) w = (Ret (Some sha), w1) →
  ∃ w2, steps w1 w2 [] [] (if falsy_message commit_message then 1 else 0) ∧
    update_repo_file file_path (ADataFrame df) name commit_message w
    = send_update (contents_url file_path)
        (request_body (ledger_message name commit_message w1)
           (b64encode (to_csv df false)) sha) w2.
Proof.
  intros Hstep1. unfold update_repo_file.
  rewrite (bind_Ret _ _ _ _ _ Hstep1). unfold ledger_message.
  destruct (falsy_message commit_message).
  - eexists (datetime_now w1).2. split; [apply steps_datetime_now | done].
  - exists w1. split; [apply steps_refl | done].
Qed.

Lemma request_body_sha_token message content token :
  truthy (PStr token) = true →
  request_body message content (PStr token) !! "sha" = Some (PStr token).
Proof. intros Htrue. unfold request_body. rewrite Htrue. apply lookup_insert_eq. Qed.

Lemma request_body_sha_None message content :
  request_body message content PNone !! "sha" = None.
Proof. unfold request_body. by simplify_map_eq. Qed.

(** C1. In every call of [update_repo_file] on a table, a write request
    follows the GET exactly when the GET is answered with status 200 or 404,
    and its body includes [sha] if and only if the GET found the file
    (status 200): then [sha] is the revision token observed in that answer;
    after a 404 the body has no [sha], so the write is a create.  On any
    other status, and when the connection fails, no write request is sent.
    A found file is taken to come with its token (a non-empty string). *)
Theorem update_repo_file_sha_iff_found file_path df name commit_message w s1 answer :
  let url := contents_url file_path in
  let w' := (update_repo_file file_path (ADataFrame df) name commit_message w).2 in
  serve (remote w) (get_request url) = (s1, answer) →
  (∀ r, answer = Responded r → status_code r = 200 → is_Some (observed_token r)) →
  match answer with
  | Responded r =>
      (status_code r = 200 ∨ status_code r = 404 →
       ∃ body, sent w' = sent w ++ [get_request url; put_request url body] ∧
         (is_Some (body !! "sha") ↔ status_code r = 200) ∧
         (status_code r = 200 → body !! "sha" = PStr <$> observed_token r) ∧
         (status_code r = 404 → body !! "sha" = None)) ∧
      (status_code r ≠ 200 → status_code r ≠ 404 → sent w' = sent w ++ [get_request url])
  | ConnectionFailed _ => sent w' = sent w ++ [get_request url]
  end.
Proof.
  intros url w' Hserve Htoken. destruct answer as [r|m].
  - split.
    + intros [H200|H404].
      * destruct (Htoken r eq_refl H200) as [token Hobs].
        pose proof (retrieve_sha_found _ _ _ _ _ Hserve H200 Hobs) as Hstep1.
        destruct (update_repo_file_after_step1 file_path df name commit_message _ _ _ Hstep1)
          as (w2 & Hw2 & Hrest).
        destruct (send_update_cases url
                    (request_body (ledger_message name commit_message
                                     (after_request w (get_request url) s1))
                       (b64encode (to_csv df false)) (PStr token)) w2)
          as (ok & w3 & event & Hsend & Hw3 & _).
        apply observed_token_Some in Hobs as Hobs'. destruct Hobs' as (_ & _ & _ & Htrue).
        eexists. split_and!.
        -- subst w'. fold url in Hrest. rewrite Hrest, Hsend. simpl.
           destruct Hw3 as (_ & -> & _), Hw2 as (_ & -> & _). simpl.
           by rewrite app_nil_r, <- app_assoc.
        -- rewrite request_body_sha_token by done. split; [done | by eexists].
        -- intros _. rewrite Hobs. by apply request_body_sha_token.
        -- intros ?. lia.
      * pose proof (retrieve_sha_not_found _ _ _ _ Hserve H404) as Hstep1.
        destruct (update_repo_file_after_step1 file_path df name commit_message _ _ _ Hstep1)
          as (w2 & Hw2 & Hrest).
        destruct (send_update_cases url
                    (request_body (ledger_message name commit_message
                                     (after_request w (get_request url) s1))
                       (b64encode (to_csv df false)) PNone) w2)
          as (ok & w3 & event & Hsend & Hw3 & _).
        eexists. split_and!.
        -- subst w'. fold url in Hrest. rewrite Hrest, Hsend. simpl.
           destruct Hw3 as (_ & -> & _), Hw2 as (_ & -> & _). simpl.
           by rewrite app_nil_r, <- app_assoc.
        -- rewrite request_body_sha_None. split; [by intros [? ?] | lia].
        -- intros ?. lia.
        -- intros _. apply request_body_sha_None.
    + intros H200 H404.
      destruct (retrieve_sha_unexpected _ _ _ _ Hserve H200 H404) as (w1 & msg & Hstep1 & Hw1).
      subst w'. unfold update_repo_file. rewrite (bind_Ret _ _ _ _ _ Hstep1). simpl.
      by destruct Hw1 as (_ & -> & _).
  - destruct (retrieve_sha_connection_failed _ _ _ _ Hserve) as (w1 & msg & Hstep1 & Hw1).
    subst w'. unfold update_repo_file. rewrite (bind_Ret _ _ _ _ _ Hstep1). simpl.
    by destruct Hw1 as (_ & -> & _).
Qed.

(** C9. Given anything but a table, [update_repo_file] shows an error and
    returns [False] without a single HTTP request: the list of requests sent
    and the state of the repository are what they were. *)
Theorem update_repo_file_rejects_non_table file_path new_content name commit_message w :
  isinstance_DataFrame new_content = false →
  ∃ w', update_repo_file file_path new_content name commit_message w = (Ret false, w') ∧
        sent w' = sent w ∧ remote w' = remote w ∧
        ui w' = ui w ++ [st_error "new_content must be a Pandas DataFrame"].
Proof.
  intros Hno. destruct new_content as [df|v|l]; [done | |];
    (eexists; split; [reflexivity | done]).
Qed.

(** [update_repo_file] on a table: the GET, at most one PUT after it, and
    one message shown; or the exception of step 1. *)
Lemma update_repo_file_cases file_path df name commit_message w :
  let url := contents_url file_path in
  ∃ res w' reqs events n,
    update_repo_file file_path (ADataFrame df) name commit_message w = (res, w') ∧
    steps w w' (get_request url :: reqs) events n ∧
    (reqs = [] ∨ ∃ body, reqs = [put_request url body]) ∧
    match res with
    | Ret true => events = [st_success "File updated successfully."]
    | Ret false => ∃ msg, events = [st_error msg]
    | Raise e => (e = KeyError "sha" ∨ ∃ m, e = TypeError m) ∧ events = [] ∧ reqs = []
    end.
Proof.
  intros url.
  destruct (retrieve_sha_cases url w) as ([[sha|]|e] & w1 & ev1 & Hstep1 & Hw1 & Hev1).
  - subst ev1.
    destruct (update_repo_file_after_step1 file_path df name commit_message _ _ _ Hstep1)
      as (w2 & Hw2 & Hrest). fold url in Hrest.
    destruct (send_update_cases url
                (request_body (ledger_message name commit_message w1)
                   (b64encode (to_csv df false)) sha) w2)
      as (ok & w3 & event & Hsend & Hw3 & Hevent).
    eexists (Ret ok), w3, [put_request url _], [event], _. split_and!.
    + rewrite Hrest. exact Hsend.
    + exact (steps_trans _ _ _ _ _ _ _ _ _ Hw1 (steps_trans _ _ _ _ _ _ _ _ _ Hw2 Hw3)).
    + right. by eexists.
    + destruct ok; [by rewrite Hevent | destruct Hevent as [msg ->]; by eexists].
  - destruct Hev1 as [msg ->].
    eexists (Ret false), w1, [], [st_error msg], 0%nat. split_and!.
    + unfold update_repo_file. by rewrite (bind_Ret _ _ _ _ _ Hstep1).
    + exact Hw1.
    + by left.
    + by eexists.
  - destruct Hev1 as [(r & contents & _ & _ & _ & Hsha) ->].
    eexists (Raise e), w1, [], [], 0%nat. split_and!.
    + unfold update_repo_file. by rewrite (bind_Raise _ _ _ _ _ Hstep1).
    + exact Hw1.
    + by left.
    + by eapply subscript_raises.
    + done.
    + done.
Qed.

(** [post_to_repo] on a document that exists: one POST with the body of
    message, content and branch; the answer decides what is returned. *)
Lemma post_to_repo_cases pdf_path file_path name message w bytes :
  files w !! pdf_path = Some bytes →
  let msg := publish_message name message w in
  let req := post_request (contents_url file_path) (publish_body msg bytes) in
  ∃ res w' events n,
    post_to_repo pdf_path file_path name message w = (res, w') ∧
    steps w w' [req] events n ∧
    match (serve (remote w) req).2 with
    | Responded r =>
        if bool_decide (status_code r = 200 ∨ status_code r = 201)
        then res = Ret true ∧
             events = [st_success ("PDF correctly submitted for review: " +:+ msg)]
        else res = Ret false ∧ events = [st_error ("Failed to commit: " +:+ text r)]
    | ConnectionFailed m => res = Raise (RequestException m) ∧ events = []
    end.
Proof.
  intros Hfile msg req. unfold post_to_repo, read_file. run. rewrite Hfile.
  destruct message as [m|]; simpl.
  - fold (publish_body m bytes). subst msg req. simpl.
    destruct (serve (remote w) (post_request (contents_url file_path) (publish_body m bytes)))
      as [s' [r|err]] eqn:Hserve; simpl.
    + case_bool_decide as Hok.
      * assert ((status_code r =? 200) || (status_code r =? 201) = true) as ->
          by (apply orb_true_iff; lia).
        simpl. eexists _, _, [_], 0%nat. split_and!; [done | solve_steps | done | done].
      * assert ((status_code r =? 200) || (status_code r =? 201) = false) as ->
          by (apply orb_false_iff; lia).
        simpl. eexists _, _, [_], 0%nat. split_and!; [done | solve_steps | done | done].
    + eexists _, _, [], 0%nat. split_and!; [done | solve_steps | done | done].
  - fold (publish_body (default_message "PDF uploaded" name (clock (ticks w))) bytes).
    subst msg req. simpl.
    destruct (serve (remote w) (post_request (contents_url file_path)
                (publish_body (default_message "PDF uploaded" name (clock (ticks w))) bytes)))
      as [s' [r|err]] eqn:Hserve; simpl.
    + case_bool_decide as Hok.
      * assert ((status_code r =? 200) || (status_code r =? 201) = true) as ->
          by (apply orb_true_iff; lia).
        simpl. eexists _, _, [_], 1%nat. split_and!; [done | solve_steps | done | done].
      * assert ((status_code r =? 200) || (status_code r =? 201) = false) as ->
          by (apply orb_false_iff; lia).
        simpl. eexists _, _, [_], 1%nat. split_and!; [done | solve_steps | done | done].
    + eexists _, _, [], 1%nat. split_and!; [done | solve_steps | done | done].
Qed.

Lemma pd_concat_record (fetched : option DataFrame) (record : list (string * string)) :
  ∃ df, pd_concat [fetched; Some (DataFrame_of_record record)] = Ret df.
Proof. destruct fetched; by eexists. Qed.

(** The local part of the submit handler leads to [prepared]. *)
Lemma submit_prepared trainee_name name department institution w :
  let date := strftime "%Y-%m-%d" (clock (ticks w)) in
  submit trainee_name name department institution w =
  (df ← fetch_records "assets/form_records.csv";
   df ← lift (pd_concat [df; Some (DataFrame_of_record (new_record name date))]);
   record_success ← update_repo_file "assets/form_records.csv" (ADataFrame df) name None;
   pdf_success ← post_to_repo OUTPUT_PDF (pdf_repo_path name date) name None;
   if record_success && pdf_success then
     show (st_write "Visit the assets folder in the forms repository if you have access:");;
     show (st_link_button "Visit Records"
             "https://206-12-100-80.cloud.computecanada.ca/acbc-repo/poduska-lab/KPAdmin")
   else mret ())
    (prepared trainee_name name department institution w).
Proof. reflexivity. Qed.

Lemma submit_decompose trainee_name name department institution w :
  let date := strftime "%Y-%m-%d" (clock (ticks w)) in
  let w0 := prepared trainee_name name department institution w in
  ∃ fetched w1 df,
    fetch_records "assets/form_records.csv" w0 = (Ret fetched, w1) ∧
    pd_concat [fetched; Some (DataFrame_of_record (new_record name date))] = Ret df ∧
    match update_repo_file "assets/form_records.csv" (ADataFrame df) name None w1 with
    | (Raise e, w2) => submit trainee_name name department institution w = (Raise e, w2)
    | (Ret record_success, w2) =>
        match post_to_repo OUTPUT_PDF (pdf_repo_path name date) name None w2 with
        | (Raise e, w3) => submit trainee_name name department institution w = (Raise e, w3)
        | (Ret pdf_success, w3) =>
            ∃ w', submit trainee_name name department institution w = (Ret (), w') ∧
                  steps w3 w' [] (closing (record_success && pdf_success)) 0
        end
    end.
Proof.
  intros date w0.
  destruct (fetch_records_cases "assets/form_records.csv" w0)
    as (fetched & w1 & ev1 & Hfetch & _ & _).
  destruct (pd_concat_record fetched (new_record name date)) as [df Hdf].
  exists fetched, w1, df. split_and!; [done | done |].
  rewrite submit_prepared. fold date w0.
  rewrite (bind_Ret _ _ _ _ _ Hfetch).
  rewrite (bind_Ret (lift _) _ w1 df w1) by (unfold lift; by rewrite Hdf).
  destruct (update_repo_file "assets/form_records.csv" (ADataFrame df) name None w1)
    as [[record_success|e] w2] eqn:Hupdate.
  - rewrite (bind_Ret _ _ _ _ _ Hupdate).
    destruct (post_to_repo OUTPUT_PDF (pdf_repo_path name date) name None w2)
      as [[pdf_success|e] w3] eqn:Hpost.
    + rewrite (bind_Ret _ _ _ _ _ Hpost).
      destruct (record_success && pdf_success).
      * eexists. split; [reflexivity |]. solve_steps.
      * eexists. split; [reflexivity |]. solve_steps.
    + by rewrite (bind_Raise _ _ _ _ _ Hpost).
  - by rewrite (bind_Raise _ _ _ _ _ Hupdate).
Qed.
Lemma publish_body_lookups message bytes :
  publish_body message bytes !! "message" = Some (PStr message) ∧
  publish_body message bytes !! "content" = Some (PStr (b64encode bytes)) ∧
  publish_body message bytes !! "branch" = Some (PStr branch) ∧
  publish_body message bytes !! "sha" = None ∧
  dom (publish_body message bytes) = ({["message"; "content"; "branch"]} : gset string).
Proof.
  unfold publish_body. split_and!; by simplify_map_eq.
Qed.

(** C7 (amended). Given a document at [pdf_path], [post_to_repo] sends
    exactly one HTTP request, a POST to the contents API at [file_path],
    whose JSON body holds the commit message, the base64 text of the
    document's bytes and the branch, and nothing else: no [sha].  When the
    repository answers, the result is [True] exactly when the status is 200
    or 201 and [False] otherwise; when the connection fails, the exception of
    [requests] escapes. *)
Theorem post_to_repo_sends_one_post pdf_path file_path name message w bytes :
  files w !! pdf_path = Some bytes →
  let run := post_to_repo pdf_path file_path name message w in
  ∃ req body,
    sent run.2 = sent w ++ [req] ∧
    req_method req = POST ∧ req_url req = contents_url file_path ∧
    req_json req = Some body ∧
    body !! "message" = Some (PStr (publish_message name message w)) ∧
    body !! "content" = Some (PStr (b64encode bytes)) ∧
    body !! "branch" = Some (PStr branch) ∧
    body !! "sha" = None ∧
    dom body = ({["message"; "content"; "branch"]} : gset string) ∧
    match (serve (remote w) req).2 with
    | Responded r => run.1 = Ret (bool_decide (status_code r = 200 ∨ status_code r = 201))
    | ConnectionFailed m => run.1 = Raise (RequestException m)
    end.
Proof.
  intros Hfile run.
  destruct (post_to_repo_cases pdf_path file_path name message w bytes Hfile)
    as (res & w' & events & n & Hrun & Hsteps & Hres).
  destruct (publish_body_lookups (publish_message name message w) bytes)
    as (Hm & Hc & Hb & Hs & Hdom).
  eexists _, _. subst run. rewrite Hrun. simpl.
  split_and!; [ by destruct Hsteps as (_ & -> & _) | done | done | done
              | exact Hm | exact Hc | exact Hb | exact Hs | exact Hdom | ].
  destruct (serve (remote w) _).2 as [r|m]; [| by destruct Hres].
  by case_bool_decide; destruct Hres.
Qed.
Lemma prepared_document trainee_name name department institution w :
  let w0 := prepared trainee_name name department institution w in
  files w0 !! OUTPUT_PDF = Some (write_fillable_pdf (f100d_e w0)).
Proof. simpl. apply lookup_insert_eq. Qed.

(** The three ways [post_to_repo] ends. *)
Lemma post_to_repo_outcomes pdf_path file_path name message w bytes :
  files w !! pdf_path = Some bytes →
  ∃ res w' body events n,
    post_to_repo pdf_path file_path name message w = (res, w') ∧
    steps w w' [post_request (contents_url file_path) body] events n ∧
    ((res = Ret true ∧
      ∃ m, events = [st_success ("PDF correctly submitted for review: " +:+ m)]) ∨
     (res = Ret false ∧ ∃ msg, events = [st_error msg]) ∨
     ((∃ m, res = Raise (RequestException m)) ∧ events = [])).
Proof.
  intros Hfile.
  destruct (post_to_repo_cases pdf_path file_path name message w bytes Hfile)
    as (res & w' & events & n & Hrun & Hsteps & Hres).
  exists res, w', (publish_body (publish_message name message w) bytes), events, n.
  split_and!; [done | done |].
  destruct (serve (remote w) _).2 as [r|m].
  - case_bool_decide; destruct Hres as [-> ->].
    + left. split; [done | by eexists].
    + right; left. split; [done | by eexists].
  - destruct Hres as [-> ->]. right; right. split; [by eexists | done].
Qed.

(** Every run of the submit handler, seen from outside: the two GETs for
    the ledger, at most one PUT, and then, unless the exception of step 1
    escaped, the POST of the document, whatever the ledger steps returned. *)
Lemma submit_cases trainee_name name department institution w :
  let date := strftime "%Y-%m-%d" (clock (ticks w)) in
  let w0 := prepared trainee_name name department institution w in
  let ledger_url := contents_url "assets/form_records.csv" in
  let publish_url := contents_url (pdf_repo_path name date) in
  ∃ res w' reqs events n,
    submit trainee_name name department institution w = (res, w') ∧
    steps w0 w'
      (get_request (raw_url "assets/form_records.csv") :: get_request ledger_url :: reqs)
      events n ∧
    (((∃ e, res = Raise e ∧ (e = KeyError "sha" ∨ ∃ m, e = TypeError m)) ∧ reqs = []) ∨
     ∃ puts body ev1 ev2 ev3 record_success pdf_success,
       reqs = puts ++ [post_request publish_url body] ∧
       (puts = [] ∨ ∃ b, puts = [put_request ledger_url b]) ∧
       events = ev1 ++ ev2 ++ ev3 ++ closing (record_success && pdf_success) ∧
       (ev1 = [] ∨ ∃ msg, ev1 = [st_error msg]) ∧
       (if record_success then ev2 = [st_success "File updated successfully."]
        else ∃ msg, ev2 = [st_error msg]) ∧
       ((pdf_success = true ∧ res = Ret () ∧
         ∃ m, ev3 = [st_success ("PDF correctly submitted for review: " +:+ m)]) ∨
        (pdf_success = false ∧ res = Ret () ∧ ∃ msg, ev3 = [st_error msg]) ∨
        (pdf_success = false ∧ (∃ m, res = Raise (RequestException m)) ∧ ev3 = []))).
Proof.
  intros date w0 ledger_url publish_url.
  destruct (submit_decompose trainee_name name department institution w)
    as (fetched & w1 & df & Hfetch & Hdf & Hrest). fold date w0 in Hfetch, Hdf, Hrest.
  destruct (fetch_records_cases "assets/form_records.csv" w0)
    as (fetched' & w1' & ev1 & Hfetch' & Hw1 & Hev1).
  rewrite Hfetch in Hfetch'. injection Hfetch' as <- <-.
  assert (Hev1' : ev1 = [] ∨ ∃ msg, ev1 = [st_error msg]).
  { destruct fetched; [by left | by right]. }
  clear Hev1.
  destruct (update_repo_file_cases "assets/form_records.csv" df name None w1)
    as (r2 & w2 & puts & ev2 & n2 & Hupdate & Hw2 & Hputs & Hev2).
  fold ledger_url in Hw2, Hputs.
  rewrite Hupdate in Hrest.
  pose proof (steps_trans _ _ _ _ _ _ _ _ _ Hw1 Hw2) as Hw02. simpl in Hw02.
  destruct r2 as [record_success|e].
  - assert (Hfile : files w2 !! OUTPUT_PDF = Some (write_fillable_pdf (f100d_e w0))).
    { destruct Hw02 as (_ & _ & _ & _ & -> & _). apply prepared_document. }
    assert (Hev2' : if record_success then ev2 = [st_success "File updated successfully."]
                    else ∃ msg, ev2 = [st_error msg]) by (by destruct record_success).
    destruct (post_to_repo_outcomes OUTPUT_PDF (pdf_repo_path name date) name None w2 _ Hfile)
      as (r3 & w3 & body & ev3 & n3 & Hpost & Hw3 & Hr3).
    fold publish_url in Hw3.
    rewrite Hpost in Hrest.
    pose proof (steps_trans _ _ _ _ _ _ _ _ _ Hw02 Hw3) as Hw03. simpl in Hw03.
    destruct Hr3 as [(-> & Hev3)|[(-> & Hev3)|((m & ->) & ->)]].
    + destruct Hrest as (w' & Hsubmit & Hw').
      pose proof (steps_trans _ _ _ _ _ _ _ _ _ Hw03 Hw') as Hfinal. simpl in Hfinal.
      rewrite app_nil_r in Hfinal.
      eexists (Ret ()), w', _, _, _. split_and!; [exact Hsubmit | exact Hfinal |].
      right. eexists puts, body, ev1, ev2, ev3, record_success, true.
      split_and!; [done | exact Hputs | by rewrite <- !app_assoc | exact Hev1' | exact Hev2' |].
      left. done.
    + destruct Hrest as (w' & Hsubmit & Hw').
      pose proof (steps_trans _ _ _ _ _ _ _ _ _ Hw03 Hw') as Hfinal. simpl in Hfinal.
      rewrite app_nil_r in Hfinal.
      eexists (Ret ()), w', _, _, _. split_and!; [exact Hsubmit | exact Hfinal |].
      right. eexists puts, body, ev1, ev2, ev3, record_success, false.
      split_and!; [done | exact Hputs | by rewrite <- !app_assoc | exact Hev1' | exact Hev2' |].
      right; left. done.
    + eexists (Raise (RequestException m)), w3, _, _, _.
      split_and!; [exact Hrest | exact Hw03 |].
      right. eexists puts, body, ev1, ev2, [], record_success, false.
      rewrite andb_false_r. simpl. rewrite !app_nil_r.
      split_and!; [done | exact Hputs | done | exact Hev1' | exact Hev2' |].
      right; right. split_and!; [done | by eexists | done].
  - destruct Hev2 as (He & -> & ->). rewrite app_nil_r in Hw02.
    eexists (Raise e), w2, _, _, _.
    split_and!; [exact Hrest | exact Hw02 |]. left. split; [by exists e | done].
Qed.
(** C10. Whatever the repository answers, after a submission the form state
    holds the entered name under the template's signature field (its fifth
    field: the mapping is by position), the same value as under the name
    field (its second), and the document written to [OUTPUT_PDF] is filled
    from that form state: the signature is never supplied on its own. *)
Theorem submit_signature_is_name trainee_name name department institution w signature_field :
  NoDup form_fields → form_fields !! 4%nat = Some signature_field →
  let w' := (submit trainee_name name department institution w).2 in
  f100d_e w' !! signature_field = Some name ∧
  (∀ name_field, form_fields !! 1%nat = Some name_field →
                 f100d_e w' !! name_field = Some name) ∧
  files w' !! OUTPUT_PDF = Some (write_fillable_pdf (f100d_e w')).
Proof.
  intros Hnd Hsig w'.
  destruct (submit_cases trainee_name name department institution w)
    as (res & w'' & reqs & events & n & Hsubmit & Hsteps & _).
  subst w'. rewrite Hsubmit. simpl.
  destruct Hsteps as (_ & _ & _ & _ & Hfiles & Hform).
  rewrite Hfiles, Hform. split_and!.
  - simpl. by eapply (fill_fields_assigned _ _ _ 4).
  - intros name_field Hname. simpl. by eapply (fill_fields_assigned _ _ _ 1).
  - apply prepared_document.
Qed.

Lemma request_body_content message content sha :
  request_body message content sha !! "content" = Some (PStr content).
Proof. unfold request_body. destruct (truthy sha); by simplify_map_eq. Qed.

(** ** More on the three operations *)

(** X1. [fetch_records] never raises and sends exactly one request, the GET
    of the raw URL; it changes nothing else but what is shown.  It returns a
    table exactly when the answer has status 200 and its body parses; every
    other outcome, a 404 like any other status, a failed connection, a body
    that does not parse, is [None] with one error shown, and a status other
    than 200 is reported by its number. *)
Theorem fetch_records_table_iff_200 file_path w :
  let req := get_request (raw_url file_path) in
  ∃ res w',
    fetch_records file_path w = (Ret res, w') ∧
    sent w' = sent w ++ [req] ∧ remote w' = (serve (remote w) req).1 ∧
    ticks w' = ticks w ∧ files w' = files w ∧ f100d_e w' = f100d_e w ∧
    success w' = success w ∧
    (∀ df, res = Some df ↔
       ∃ r, (serve (remote w) req).2 = Responded r ∧ status_code r = 200 ∧
            read_csv (content r) = Ret df) ∧
    (is_Some res → ui w' = ui w) ∧
    (res = None → ∃ msg, ui w' = ui w ++ [st_error msg]) ∧
    (∀ r, (serve (remote w) req).2 = Responded r → status_code r ≠ 200 →
       res = None ∧
       ui w' = ui w ++ [st_error ("Failed to fetch " +:+ file_path +:+ ". Status code: "
                                    +:+ str_Z (status_code r))]).
Proof.
  intros req. unfold fetch_records. run. fold req.
  destruct (serve (remote w) req) as [s' [r|msg]] eqn:Hserve; simpl;
    [destruct (status_code r =? 200) eqn:Hstatus;
       [apply Z.eqb_eq in Hstatus; destruct (read_csv (content r)) as [df|e] eqn:Hcsv
       |apply Z.eqb_neq in Hstatus] |];
    simpl; eexists _, _; split_and!;
    try solve
      [ done | by eexists | by intros [? ?]
      | intros r' [= <-] ?; first [lia | done]
      | intros df'; split;
        [ intros [= <-]; by exists r
        | intros (r' & [= <-] & _ & Hcsv'); congruence ]
      | intros df'; split; [done |];
        intros (r' & Hr & Hs & Hc); simplify_eq; first [congruence | lia] ].
Qed.

(** Whether an answer is a success of a write. *)
Lemma write_accepted_spec r :
  (status_code r =? 200) || (status_code r =? 201) = true ↔
  status_code r = 200 ∨ status_code r = 201.
Proof. rewrite orb_true_iff, !Z.eqb_eq. done. Qed.

(** Step 5, computed. *)
Lemma send_update_run url data w :
  send_update url data w =
  match serve (remote w) (put_request url data) with
  | (s', Responded r) =>
      (Ret ((status_code r =? 200) || (status_code r =? 201)),
       (show (if (status_code r =? 200) || (status_code r =? 201)
              then st_success "File updated successfully."
              else st_error ("Failed to update file: " +:+ str_Z (status_code r)
                               +:+ " - " +:+ text r))
          (after_request w (put_request url data) s')).2)
  | (s', ConnectionFailed m) =>
      (Ret false,
       (show (st_error ("Failed to update file: " +:+ m))
          (after_request w (put_request url data) s')).2)
  end.
Proof.
  unfold send_update. run.
  destruct (serve (remote w) (put_request url data)) as [s' [r|m]]; simpl; [|done].
  by destruct ((status_code r =? 200) || (status_code r =? 201)).
Qed.

(** [update_repo_file] on a table, in terms of its steps. *)
Lemma update_repo_file_run file_path df name commit_message w :
  update_repo_file file_path (ADataFrame df) name commit_message w =
  match retrieve_sha (contents_url file_path) w with
  | (Ret (Some sha), w1) =>
      send_update (contents_url file_path)
        (request_body (ledger_message name commit_message w1)
           (b64encode (to_csv df false)) sha)
        (message_made commit_message w1)
  | (Ret None, w1) => (Ret false, w1)
  | (Raise e, w1) => (Raise e, w1)
  end.
Proof.
  unfold update_repo_file, mbind, M_bind at 1.
  destruct (retrieve_sha (contents_url file_path) w) as [[[sha|]|e] w1]; [|done|done].
  unfold ledger_message, message_made. by destruct (falsy_message commit_message).
Qed.

(** Step 1, computed. *)
Lemma retrieve_sha_run url w :
  retrieve_sha url w =
  match serve (remote w) (get_request url) with
  | (s', Responded r) =>
      let w1 := after_request w (get_request url) s' in
      if status_code r =? 200 then
        match json r with
        | Some contents =>
            match subscript contents "sha" with
            | Ret sha => (Ret (Some sha), w1)
            | Raise e => (Raise e, w1)
            end
        | None =>
            (Ret None,
             (show (st_error ("Failed to fetch file info: "
                                +:+ "Expecting value: line 1 column 1 (char 0)")) w1).2)
        end
      else if status_code r =? 404 then (Ret (Some PNone), w1)
      else (Ret None,
            (show (st_error ("Error retrieving file info: " +:+ str_Z (status_code r)
                               +:+ " - " +:+ text r)) w1).2)
  | (s', ConnectionFailed m) =>
      (Ret None,
       (show (st_error ("Failed to fetch file info: " +:+ m))
          (after_request w (get_request url) s')).2)
  end.
Proof.
  unfold retrieve_sha. run.
  destruct (serve (remote w) (get_request url)) as [s' [r|m]]; simpl; [|done].
  destruct (status_code r =? 200).
  - destruct (json r) as [contents|]; simpl; [|done].
    destruct (subscript contents "sha") as [sha|e] eqn:Hsha; simpl; [done |].
    by destruct (subscript_raises _ _ _ Hsha) as [->|[m ->]].
  - by destruct (status_code r =? 404).
Qed.

Lemma remote_message_made commit_message w :
  remote (message_made commit_message w) = remote w ∧
  sent (message_made commit_message w) = sent w ∧
  ui (message_made commit_message w) = ui w ∧
  files (message_made commit_message w) = files w ∧
  f100d_e (message_made commit_message w) = f100d_e w ∧
  success (message_made commit_message w) = success w ∧
  ticks (message_made commit_message w)
  = (if falsy_message commit_message then S (ticks w) else ticks w).
Proof. unfold message_made. by destruct (falsy_message commit_message). Qed.

(** X2. [update_repo_file] on a table returns [True] exactly when it sent
    the PUT and the repository answered it with status 200 or 201.  An
    exception escapes exactly when the file info is answered with status 200
    and a JSON body on which [contents['sha']] raises: the [KeyError] of an
    object without [sha], the [TypeError] of a body that is no object; no
    other exception escapes.  In every other case it returns [False]. *)
Theorem update_repo_file_true_iff_accepted file_path df name commit_message w :
  let url := contents_url file_path in
  let run := update_repo_file file_path (ADataFrame df) name commit_message w in
  let s1 := (serve (remote w) (get_request url)).1 in
  (run.1 = Ret true ↔
   ∃ body r, sent run.2 = sent w ++ [get_request url; put_request url body] ∧
             (serve s1 (put_request url body)).2 = Responded r ∧
             (status_code r = 200 ∨ status_code r = 201)) ∧
  (∀ e, run.1 = Raise e ↔
     ∃ r contents, (serve (remote w) (get_request url)).2 = Responded r ∧
                   status_code r = 200 ∧ json r = Some contents ∧
                   subscript contents "sha" = Raise e) ∧
  (run.1 = Ret true ∨ run.1 = Ret false ∨ run.1 = Raise (KeyError "sha") ∨
   ∃ m, run.1 = Raise (TypeError m)).
Proof.
  intros url run s1. subst run s1. rewrite update_repo_file_run, retrieve_sha_run.
  fold url.
  assert (Hshort : ∀ body, sent w ++ [get_request url]
                           ≠ sent w ++ [get_request url; put_request url body]).
  { intros body Heq. apply app_inv_head in Heq. discriminate. }
  destruct (serve (remote w) (get_request url)) as [s1 [r1|m1]] eqn:Hget; simpl.
  2: { split_and!; [| |by right; left].
       - split; [done |]. intros (body & r & Hsent & _). by apply Hshort in Hsent.
       - intros e. split; [done |]. by intros (r & contents & [=] & _). }
  assert (Hgo : ∀ sha,
    let data := request_body
                  (ledger_message name commit_message (after_request w (get_request url) s1))
                  (b64encode (to_csv df false)) sha in
    let run := send_update url data
                 (message_made commit_message (after_request w (get_request url) s1)) in
    (run.1 = Ret true ↔
     ∃ body r, sent run.2 = sent w ++ [get_request url; put_request url body] ∧
               (serve s1 (put_request url body)).2 = Responded r ∧
               (status_code r = 200 ∨ status_code r = 201)) ∧
    (∀ e, run.1 ≠ Raise e) ∧
    (run.1 = Ret true ∨ run.1 = Ret false)).
  { intros sha data run. subst run. rewrite send_update_run.
    destruct (remote_message_made commit_message (after_request w (get_request url) s1))
      as (Hremote & Hsent & _). rewrite Hremote. simpl remote.
    assert (Hbody : ∀ body, sent w ++ [get_request url; put_request url data]
                            = sent w ++ [get_request url; put_request url body] →
                            body = data).
    { intros body Heq. apply app_inv_head in Heq. by injection Heq. }
    destruct (serve s1 (put_request url data)) as [s2 [r2|m2]] eqn:Hput; simpl.
    - rewrite Hsent. simpl. rewrite <- app_assoc. simpl.
      destruct ((status_code r2 =? 200) || (status_code r2 =? 201)) eqn:Hok.
      + split_and!; [| done | by left]. split; [|done]. intros _. exists data, r2.
        rewrite Hput. split_and!; [done | done | by apply write_accepted_spec].
      + split_and!; [| done | by right]. split; [done |].
        intros (body & r & Hs & Hr & Hstatus). apply Hbody in Hs as ->.
        rewrite Hput in Hr. injection Hr as <-.
        apply write_accepted_spec in Hstatus. congruence.
    - rewrite Hsent. simpl. rewrite <- app_assoc. simpl.
      split_and!; [| done | by right]. split; [done |].
      intros (body & r & Hs & Hr & _). apply Hbody in Hs as ->.
      rewrite Hput in Hr. discriminate. }
  assert (Hwrite : ∀ sha,
    (∀ e, ¬ ∃ r contents, Responded r1 = Responded r ∧ status_code r = 200 ∧
                          json r = Some contents ∧ subscript contents "sha" = Raise e) →
    let run := send_update url
                 (request_body
                    (ledger_message name commit_message (after_request w (get_request url) s1))
                    (b64encode (to_csv df false)) sha)
                 (message_made commit_message (after_request w (get_request url) s1)) in
    (run.1 = Ret true ↔
     ∃ body r, sent run.2 = sent w ++ [get_request url; put_request url body] ∧
               (serve s1 (put_request url body)).2 = Responded r ∧
               (status_code r = 200 ∨ status_code r = 201)) ∧
    (∀ e, run.1 = Raise e ↔
       ∃ r contents, Responded r1 = Responded r ∧ status_code r = 200 ∧
                     json r = Some contents ∧ subscript contents "sha" = Raise e) ∧
    (run.1 = Ret true ∨ run.1 = Ret false ∨ run.1 = Raise (KeyError "sha") ∨
     ∃ m, run.1 = Raise (TypeError m))).
  { intros sha Hno run. destruct (Hgo sha) as (Hiff & Hnever & Hbool). fold run in Hiff, Hnever, Hbool.
    split_and!; [exact Hiff | | destruct Hbool; [by left | by right; left]].
    intros e. split; [by intros ?%Hnever | by intros ?%Hno]. }
  assert (Hstop : ∀ (res : outcome bool) (reqs : list request),
    res ≠ Ret true → reqs = sent w ++ [get_request url] →
    (∀ e, res = Raise e ↔
       ∃ r contents, Responded r1 = Responded r ∧ status_code r = 200 ∧
                     json r = Some contents ∧ subscript contents "sha" = Raise e) →
    (res = Ret true ∨ res = Ret false ∨ res = Raise (KeyError "sha") ∨
     ∃ m, res = Raise (TypeError m)) →
    (res = Ret true ↔
     ∃ body r, reqs = sent w ++ [get_request url; put_request url body] ∧
               (serve s1 (put_request url body)).2 = Responded r ∧
               (status_code r = 200 ∨ status_code r = 201)) ∧
    (∀ e, res = Raise e ↔
       ∃ r contents, Responded r1 = Responded r ∧ status_code r = 200 ∧
                     json r = Some contents ∧ subscript contents "sha" = Raise e) ∧
    (res = Ret true ∨ res = Ret false ∨ res = Raise (KeyError "sha") ∨
     ∃ m, res = Raise (TypeError m))).
  { intros res reqs Hres -> Hraise Hcases. split_and!; [| done | done].
    split; [done |]. intros (body & r & Hs & _). by apply Hshort in Hs. }
  destruct (status_code r1 =? 200) eqn:H200.
  - apply Z.eqb_eq in H200.
    destruct (json r1) as [contents|] eqn:Hjson; simpl.
    + destruct (subscript contents "sha") as [sha|e0] eqn:Hsha; simpl.
      * apply Hwrite. intros e (r & c & [= <-] & _ & Hj & Hs). congruence.
      * apply Hstop; [done | done | |].
        -- intros e. split.
           ++ intros [= <-]. by exists r1, contents.
           ++ intros (r & c & [= <-] & _ & Hj & Hs). congruence.
        -- destruct (subscript_raises _ _ _ Hsha) as [->|[m ->]];
             [by right; right; left | right; right; right; by exists m].
    + apply Hstop; [done | done | | by right; left].
      intros e. split; [done |]. intros (r & c & [= <-] & _ & Hj & _). congruence.
  - apply Z.eqb_neq in H200.
    destruct (status_code r1 =? 404); simpl.
    + apply Hwrite. intros e (r & c & [= <-] & Hs & _). done.
    + apply Hstop; [done | done | | by right; left].
      intros e. split; [done |]. by intros (r & c & [= <-] & Hs & _).
Qed.

(** X3. A file info that is answered with status 200 but is not what the
    program expects never leads to a write.  Without a [sha] member the
    [KeyError] escapes [update_repo_file]: nothing is shown and nothing but
    the GET was sent; the same holds of whatever [contents['sha']] raises, so
    of the [TypeError] raised on a body that is no object.  With a body that
    is no JSON the error is caught: one error is shown and [False]
    returned. *)
Theorem update_repo_file_malformed_file_info file_path df name commit_message w s1 r :
  let url := contents_url file_path in
  serve (remote w) (get_request url) = (s1, Responded r) →
  status_code r = 200 →
  (∀ contents, json r = Some (JObject contents) → contents !! "sha" = None →
     update_repo_file file_path (ADataFrame df) name commit_message w
     = (Raise (KeyError "sha"), after_request w (get_request url) s1)) ∧
  (∀ contents e, json r = Some contents → subscript contents "sha" = Raise e →
     update_repo_file file_path (ADataFrame df) name commit_message w
     = (Raise e, after_request w (get_request url) s1)) ∧
  (json r = None →
     ∃ w' msg,
       update_repo_file file_path (ADataFrame df) name commit_message w = (Ret false, w') ∧
       sent w' = sent w ++ [get_request url] ∧ remote w' = s1 ∧
       ui w' = ui w ++ [st_error msg]).
Proof.
  intros url Hget Hstatus. split_and!.
  - intros contents Hjson Hsha.
    rewrite update_repo_file_run, retrieve_sha_run. fold url.
    rewrite Hget, Hstatus. simpl. rewrite Hjson. simpl. by rewrite Hsha.
  - intros contents e Hjson Hsha.
    rewrite update_repo_file_run, retrieve_sha_run. fold url.
    rewrite Hget, Hstatus. simpl. by rewrite Hjson, Hsha.
  - intros Hjson. eexists _, _.
    rewrite update_repo_file_run, retrieve_sha_run. fold url.
    rewrite Hget, Hstatus. simpl. rewrite Hjson. done.
Qed.

Lemma request_body_shape message content sha :
  request_body message content sha !! "message" = Some (PStr message) ∧
  request_body message content sha !! "content" = Some (PStr content) ∧
  request_body message content sha !! "branch" = None ∧
  dom (request_body message content sha) ⊆ ({["message"; "content"; "sha"]} : gset string).
Proof.
  unfold request_body.
  destruct (truthy sha); (split_and!; [by simplify_map_eq .. | compute_done]).
Qed.

(** The requests and the clock of [update_repo_file] on a table, exactly. *)
Lemma update_repo_file_requests file_path df name commit_message w :
  let url := contents_url file_path in
  let w' := (update_repo_file file_path (ADataFrame df) name commit_message w).2 in
  (sent w' = sent w ++ [get_request url] ∧ ticks w' = ticks w) ∨
  (∃ sha, sent w' = sent w ++ [get_request url;
             put_request url
               (request_body
                  (if falsy_message commit_message
                   then default_message "Edited" name (clock (ticks w))
                   else default "" commit_message)
                  (b64encode (to_csv df false)) sha)] ∧
          ticks w' = (if falsy_message commit_message then S (ticks w) else ticks w)).
Proof.
  intros url w'. subst w'. rewrite update_repo_file_run, retrieve_sha_run. fold url.
  assert (Hgo : ∀ s1 sha,
    let w1 := after_request w (get_request url) s1 in
    let w' := (send_update url
                 (request_body (ledger_message name commit_message w1)
                    (b64encode (to_csv df false)) sha)
                 (message_made commit_message w1)).2 in
    ∃ sha, sent w' = sent w ++ [get_request url;
             put_request url
               (request_body
                  (if falsy_message commit_message
                   then default_message "Edited" name (clock (ticks w))
                   else default "" commit_message)
                  (b64encode (to_csv df false)) sha)] ∧
          ticks w' = (if falsy_message commit_message then S (ticks w) else ticks w)).
  { intros s1 sha w1 w'. subst w'. exists sha. rewrite send_update_run.
    destruct (remote_message_made commit_message w1) as (_ & Hsent & _ & _ & _ & _ & Hticks).
    unfold ledger_message.
    destruct (serve _ _) as [s2 [r2|m2]]; simpl; rewrite Hsent, Hticks; simpl;
      by rewrite <- app_assoc. }
  destruct (serve (remote w) (get_request url)) as [s1 [r1|m1]]; simpl; [|by left].
  destruct (status_code r1 =? 200).
  - destruct (json r1) as [contents|]; simpl; [|by left].
    destruct (subscript contents "sha") as [sha|e]; simpl; [right; apply Hgo | by left].
  - destruct (status_code r1 =? 404); simpl; [right; apply Hgo | by left].
Qed.

(** X4. The write request of [update_repo_file] carries the table as the
    base64 text of its CSV ([index=False]) under [content] and a commit
    message under [message]; besides these two it may hold [sha] and nothing
    else: it never names a branch.  The GET comes first, and at most one PUT
    follows it. *)
Theorem update_repo_file_body_names_no_branch file_path df name commit_message w :
  let url := contents_url file_path in
  let w' := (update_repo_file file_path (ADataFrame df) name commit_message w).2 in
  ∃ reqs, sent w' = sent w ++ get_request url :: reqs ∧
    (reqs = [] ∨
     ∃ body, reqs = [put_request url body] ∧
       body !! "content" = Some (PStr (b64encode (to_csv df false))) ∧
       (∃ m, body !! "message" = Some (PStr m)) ∧
       body !! "branch" = None ∧
       dom body ⊆ ({["message"; "content"; "sha"]} : gset string)).
Proof.
  intros url w'.
  destruct (update_repo_file_requests file_path df name commit_message w)
    as [[Hsent _]|(sha & Hsent & _)]; fold url w' in Hsent.
  - exists []. split; [done | by left].
  - eexists [_]. split; [exact Hsent |]. right. eexists. split; [done |].
    destruct (request_body_shape
                (if falsy_message commit_message
                 then default_message "Edited" name (clock (ticks w))
                 else default "" commit_message)
                (b64encode (to_csv df false)) sha) as (Hm & Hc & Hb & Hdom).
    split_and!; [exact Hc | by eexists | exact Hb | exact Hdom].
Qed.

(** X5. The commit message of the ledger write: a message that is given and
    not empty is used as it is and the clock is not read; with no message,
    or an empty one, the message is made up from the name and the clock,
    which is then read exactly once.  When no write request is sent the
    clock is not read at all. *)
Theorem update_repo_file_commit_message file_path df name commit_message w :
  let url := contents_url file_path in
  let w' := (update_repo_file file_path (ADataFrame df) name commit_message w).2 in
  (sent w' = sent w ++ [get_request url] ∧ ticks w' = ticks w) ∨
  ∃ body, sent w' = sent w ++ [get_request url; put_request url body] ∧
    match commit_message with
    | Some (String c m) =>
        body !! "message" = Some (PStr (String c m)) ∧ ticks w' = ticks w
    | _ =>
        body !! "message"
        = Some (PStr ("Edited by " +:+ name +:+ " at "
                        +:+ strftime "%Y-%m-%d-%H-%m" (clock (ticks w)))) ∧
        ticks w' = S (ticks w)
    end.
Proof.
  intros url w'.
  destruct (update_repo_file_requests file_path df name commit_message w)
    as [H1|(sha & Hsent & Hticks)]; fold url w' in H1 || fold url w' in Hsent, Hticks.
  - by left.
  - right. eexists. split; [exact Hsent |].
    destruct commit_message as [[|c m]|]; simpl in *;
      (split; [apply request_body_shape | exact Hticks]).
Qed.

(** [post_to_repo] on a document that exists, computed. *)
Lemma post_to_repo_run pdf_path file_path name message w bytes :
  files w !! pdf_path = Some bytes →
  let msg := publish_message name message w in
  let req := post_request (contents_url file_path) (publish_body msg bytes) in
  let w1 := match message with None => (datetime_now w).2 | Some _ => w end in
  post_to_repo pdf_path file_path name message w =
  match serve (remote w) req with
  | (s', Responded r) =>
      if (status_code r =? 200) || (status_code r =? 201) then
        (Ret true,
         (show (st_success ("PDF correctly submitted for review: " +:+ msg))
            (after_request w1 req s')).2)
      else
        (Ret false,
         (set_success false
            (show (st_error ("Failed to commit: " +:+ text r)) (after_request w1 req s')).2).2)
  | (s', ConnectionFailed m) => (Raise (RequestException m), after_request w1 req s')
  end.
Proof.
  intros Hfile msg req w1. unfold post_to_repo, read_file. run. rewrite Hfile.
  subst msg req w1.
  destruct message as [m|]; simpl.
  - fold (publish_body m bytes).
    destruct (serve (remote w) _) as [s' [r|err]]; simpl; [|done].
    by destruct ((status_code r =? 200) || (status_code r =? 201)).
  - fold (publish_body (default_message "PDF uploaded" name (clock (ticks w))) bytes).
    destruct (serve (remote w) _) as [s' [r|err]]; simpl; [|done].
    by destruct ((status_code r =? 200) || (status_code r =? 201)).
Qed.

(** X6. Without a file at [pdf_path], [post_to_repo] stops at once: the
    [FileNotFoundError] escapes, no request is sent, nothing is shown, the
    clock is not read; the state is what it was. *)
Theorem post_to_repo_without_document pdf_path file_path name message w :
  files w !! pdf_path = None →
  post_to_repo pdf_path file_path name message w = (Raise (FileNotFoundError pdf_path), w).
Proof. intros Hfile. unfold post_to_repo, read_file. run. by rewrite Hfile. Qed.

(** X7. The commit message of the publish: a message that is given is used
    as it is, the empty one too (unlike in [update_repo_file]), and the
    clock is not read; with no message it is made up from the name and the
    clock, which is then read exactly once. *)
Theorem post_to_repo_commit_message pdf_path file_path name message w bytes :
  files w !! pdf_path = Some bytes →
  let w' := (post_to_repo pdf_path file_path name message w).2 in
  ∃ body, sent w' = sent w ++ [post_request (contents_url file_path) body] ∧
    match message with
    | Some m => body !! "message" = Some (PStr m) ∧ ticks w' = ticks w
    | None =>
        body !! "message"
        = Some (PStr ("PDF uploaded by " +:+ name +:+ " at "
                        +:+ strftime "%Y-%m-%d-%H-%m" (clock (ticks w)))) ∧
        ticks w' = S (ticks w)
    end.
Proof.
  intros Hfile w'. subst w'.
  rewrite (post_to_repo_run pdf_path file_path name message w bytes Hfile).
  eexists. split.
  - destruct (serve (remote w) _) as [s' [r|err]]; simpl;
      [destruct ((status_code r =? 200) || (status_code r =? 201)); simpl |];
      by destruct message.
  - destruct (publish_body_lookups (publish_message name message w) bytes) as (Hm & _).
    destruct message as [m|]; simpl in *; (split; [exact Hm |]);
      (destruct (serve (remote w) _) as [s' [r|err]]; simpl;
       [by destruct ((status_code r =? 200) || (status_code r =? 201)) | done]).
Qed.

Lemma update_repo_file_success file_path new_content name commit_message w :
  success (update_repo_file file_path new_content name commit_message w).2 = success w.
Proof.
  destruct new_content as [df|v|l]; [|done|done].
  rewrite update_repo_file_run, retrieve_sha_run.
  assert (Hgo : ∀ s1 sha,
    success (send_update (contents_url file_path)
               (request_body
                  (ledger_message name commit_message
                     (after_request w (get_request (contents_url file_path)) s1))
                  (b64encode (to_csv df false)) sha)
               (message_made commit_message
                  (after_request w (get_request (contents_url file_path)) s1))).2
    = success w).
  { intros s1 sha. rewrite send_update_run.
    destruct (remote_message_made commit_message
                (after_request w (get_request (contents_url file_path)) s1))
      as (_ & _ & _ & _ & _ & Hsuccess & _).
    destruct (serve _ _) as [s2 [r2|m2]]; simpl; by rewrite Hsuccess. }
  destruct (serve (remote w) _) as [s1 [r1|m1]]; simpl; [|done].
  destruct (status_code r1 =? 200).
  - destruct (json r1) as [contents|]; simpl; [|done].
    destruct (subscript contents "sha") as [sha|e]; simpl; [apply Hgo | done].
  - destruct (status_code r1 =? 404); simpl; [apply Hgo | done].
Qed.

Lemma post_to_repo_success pdf_path file_path name message w :
  success (post_to_repo pdf_path file_path name message w).2 =
  match (post_to_repo pdf_path file_path name message w).1 with
  | Ret false => Some false
  | _ => success w
  end.
Proof.
  destruct (files w !! pdf_path) as [bytes|] eqn:Hfile.
  - rewrite (post_to_repo_run pdf_path file_path name message w bytes Hfile).
    destruct (serve (remote w) _) as [s' [r|err]]; simpl;
      [destruct ((status_code r =? 200) || (status_code r =? 201)); simpl |];
      by destruct message.
  - unfold post_to_repo, read_file. run. by rewrite Hfile.
Qed.

Lemma fetch_records_success file_path w :
  success (fetch_records file_path w).2 = success w.
Proof.
  unfold fetch_records. run.
  destruct (serve (remote w) _) as [s' [r|msg]]; simpl; [|done].
  destruct (status_code r =? 200); [|done].
  by destruct (read_csv (content r)).
Qed.

(** The submit handler, call by call, with the state it ends in. *)
Lemma submit_run trainee_name name department institution w :
  let date := strftime "%Y-%m-%d" (clock (ticks w)) in
  let w0 := prepared trainee_name name department institution w in
  ∃ fetched w1 df,
    fetch_records "assets/form_records.csv" w0 = (Ret fetched, w1) ∧
    pd_concat [fetched; Some (DataFrame_of_record (new_record name date))] = Ret df ∧
    submit trainee_name name department institution w =
    match update_repo_file "assets/form_records.csv" (ADataFrame df) name None w1 with
    | (Raise e, w2) => (Raise e, w2)
    | (Ret record_success, w2) =>
        match post_to_repo OUTPUT_PDF (pdf_repo_path name date) name None w2 with
        | (Raise e, w3) => (Raise e, w3)
        | (Ret pdf_success, w3) => (Ret (), finished (record_success && pdf_success) w3)
        end
    end.
Proof.
  intros date w0.
  destruct (fetch_records_cases "assets/form_records.csv" w0)
    as (fetched & w1 & ev1 & Hfetch & _ & _).
  destruct (pd_concat_record fetched (new_record name date)) as [df Hdf].
  exists fetched, w1, df. split_and!; [done | done |].
  rewrite submit_prepared. fold date w0.
  rewrite (bind_Ret _ _ _ _ _ Hfetch).
  rewrite (bind_Ret (lift _) _ w1 df w1) by (unfold lift; by rewrite Hdf).
  destruct (update_repo_file "assets/form_records.csv" (ADataFrame df) name None w1)
    as [[record_success|e] w2] eqn:Hupdate.
  - rewrite (bind_Ret _ _ _ _ _ Hupdate).
    destruct (post_to_repo OUTPUT_PDF (pdf_repo_path name date) name None w2)
      as [[pdf_success|e] w3] eqn:Hpost.
    + rewrite (bind_Ret _ _ _ _ _ Hpost). unfold finished.
      by destruct (record_success && pdf_success).
    + by rewrite (bind_Raise _ _ _ _ _ Hpost).
  - by rewrite (bind_Raise _ _ _ _ _ Hupdate).
Qed.

Lemma finished_frame both w :
  remote (finished both w) = remote w ∧ sent (finished both w) = sent w ∧
  ticks (finished both w) = ticks w ∧ files (finished both w) = files w ∧
  f100d_e (finished both w) = f100d_e w ∧ success (finished both w) = success w ∧
  ui (finished both w) = ui w ++ closing both.
Proof. destruct both; simpl; rewrite <- ?app_assoc, ?app_nil_r; done. Qed.

(** X8. [st.session_state['success']] is only ever set to [False]:
    [update_repo_file] leaves it alone, [post_to_repo] sets it to [False]
    exactly when it returns [False], and nothing sets it back.  So after a
    submission it is what it was or [False], and once [False] it stays
    [False] through every later submission, successful or not. *)
Theorem success_is_only_set_to_False :
  (∀ file_path new_content name commit_message w,
     success (update_repo_file file_path new_content name commit_message w).2 = success w) ∧
  (∀ pdf_path file_path name message w,
     success (post_to_repo pdf_path file_path name message w).2 =
     match (post_to_repo pdf_path file_path name message w).1 with
     | Ret false => Some false
     | _ => success w
     end) ∧
  (∀ trainee_name name department institution w,
     let w' := (submit trainee_name name department institution w).2 in
     (success w' = success w ∨ success w' = Some false) ∧
     (success w = Some false → success w' = Some false)).
Proof.
  split_and!; [apply update_repo_file_success | apply post_to_repo_success |].
  intros trainee_name name department institution w w'.
  assert (Hcases : success w' = success w ∨ success w' = Some false).
  { subst w'.
    destruct (submit_run trainee_name name department institution w)
      as (fetched & w1 & df & Hfetch & _ & ->).
    pose proof (fetch_records_success "assets/form_records.csv"
                  (prepared trainee_name name department institution w)) as H1.
    rewrite Hfetch in H1. simpl in H1.
    pose proof (update_repo_file_success "assets/form_records.csv" (ADataFrame df) name None w1)
      as H2.
    destruct (update_repo_file _ _ _ _ w1) as [[record_success|e] w2]; simpl in H2.
    - pose proof (post_to_repo_success OUTPUT_PDF
                    (pdf_repo_path name
                       (strftime "%Y-%m-%d" (clock (ticks w)))) name None w2) as H3.
      destruct (post_to_repo _ _ _ _ w2) as [[pdf_success|e] w3]; simpl in H3.
      + simpl.
        destruct (finished_frame (record_success && pdf_success) w3)
          as (_ & _ & _ & _ & _ & -> & _).
        destruct pdf_success; [left | right]; congruence.
      + simpl. left. congruence.
    - simpl. left. congruence. }
  split; [done |]. intros Hw. destruct Hcases; congruence.
Qed.

(** X13. The requests of a submission, all of them: the GET of the raw
    ledger and the GET of its file info come first; then, unless the
    exception of step 1 escaped (the [KeyError] or the [TypeError] of
    [contents['sha']]), at most one PUT of the ledger and exactly one POST
    of the document, after which the handler returns or the failed
    connection of the POST escapes.  Nothing else is ever sent: never more
    than four requests, never a write to the raw URL, never a second write
    to either path. *)
Theorem submit_sends_at_most_four_requests trainee_name name department institution w :
  let date := strftime "%Y-%m-%d" (clock (ticks w)) in
  let ledger_url := contents_url "assets/form_records.csv" in
  let publish_url := contents_url (pdf_repo_path name date) in
  let g1 := get_request (raw_url "assets/form_records.csv") in
  let g2 := get_request ledger_url in
  let run := submit trainee_name name department institution w in
  ((run.1 = Raise (KeyError "sha") ∨ ∃ m, run.1 = Raise (TypeError m)) ∧
   sent run.2 = sent w ++ [g1; g2]) ∨
  ((run.1 = Ret () ∨ ∃ m, run.1 = Raise (RequestException m)) ∧
   ((∃ post_body, sent run.2 = sent w ++ [g1; g2; post_request publish_url post_body]) ∨
    (∃ put_body post_body,
       sent run.2 = sent w ++ [g1; g2; put_request ledger_url put_body;
                               post_request publish_url post_body]))).
Proof.
  intros date ledger_url publish_url g1 g2 run.
  destruct (submit_cases trainee_name name department institution w)
    as (res & w' & reqs & events & n & Hsubmit & Hsteps & Hshape).
  fold date ledger_url publish_url g1 g2 in Hsteps, Hshape.
  subst run. rewrite Hsubmit. simpl.
  destruct Hsteps as (_ & Hsent & _). simpl in Hsent.
  destruct Hshape
    as [[(e & -> & He) ->]|(puts & body & ? & ? & ? & ? & ? & -> & Hputs & _ & _ & _ & Hres)].
  - left. split; [|done]. destruct He as [->|[m ->]]; [by left | right; by exists m].
  - right. split.
    + destruct Hres as [(_ & -> & _)|[(_ & -> & _)|(_ & [m ->] & _)]];
        [by left | by left | right; by exists m].
    + destruct Hputs as [->|[b ->]]; [left; by exists body | right; by exists b, body].
Qed.

(** The requests of a submission, step by step. *)
Lemma submit_requests_by_step trainee_name name department institution w :
  let date := strftime "%Y-%m-%d" (clock (ticks w)) in
  let w0 := prepared trainee_name name department institution w in
  let publish_url := contents_url (pdf_repo_path name date) in
  let run := submit trainee_name name department institution w in
  ∃ fetched w1 df update post,
    fetch_records "assets/form_records.csv" w0 = (Ret fetched, w1) ∧
    pd_concat [fetched; Some (DataFrame_of_record (new_record name date))] = Ret df ∧
    sent (update_repo_file "assets/form_records.csv" (ADataFrame df) name None w1).2
    = sent w1 ++ update ∧
    ((post = [] ∧ (run.1 = Raise (KeyError "sha") ∨ ∃ m, run.1 = Raise (TypeError m))) ∨
     ∃ body, post = [post_request publish_url body] ∧
             body !! "content" = Some (PStr (b64encode (write_fillable_pdf (f100d_e w0))))) ∧
    sent run.2 = sent w ++ [get_request (raw_url "assets/form_records.csv")] ++ update ++ post ∧
    files run.2 = files w0 ∧ f100d_e run.2 = f100d_e w0.
Proof.
  intros date w0 publish_url run. subst run.
  destruct (submit_run trainee_name name department institution w)
    as (fetched & w1 & df & Hfetch & Hdf & Hsubmit). fold date w0 in Hfetch, Hdf, Hsubmit.
  destruct (fetch_records_cases "assets/form_records.csv" w0)
    as (fetched' & w1' & ev1 & Hfetch' & Hw1 & _).
  rewrite Hfetch in Hfetch'. injection Hfetch' as <- <-.
  destruct (update_repo_file_cases "assets/form_records.csv" df name None w1)
    as (r2 & w2 & puts & ev2 & n2 & Hupdate & Hw2 & _ & Hr2).
  rewrite Hupdate in Hsubmit.
  destruct Hw1 as (_ & Hsent1 & _ & _ & Hfiles1 & Hform1).
  destruct Hw2 as (_ & Hsent2 & _ & _ & Hfiles2 & Hform2).
  simpl in Hsent1.
  exists fetched, w1, df, (get_request (contents_url "assets/form_records.csv") :: puts).
  destruct r2 as [record_success|e].
  - assert (Hfile : files w2 !! OUTPUT_PDF = Some (write_fillable_pdf (f100d_e w0))).
    { rewrite Hfiles2, Hfiles1. apply prepared_document. }
    destruct (post_to_repo_cases OUTPUT_PDF (pdf_repo_path name date) name None w2 _ Hfile)
      as (r3 & w3 & ev3 & n3 & Hpost & Hw3 & _).
    fold publish_url in Hw3. rewrite Hpost in Hsubmit.
    destruct Hw3 as (_ & Hsent3 & _ & _ & Hfiles3 & Hform3).
    eexists [_].
    split_and!; [done | done | by rewrite Hupdate | right; eexists; split; [done |] | | |].
    + apply publish_body_lookups.
    + rewrite Hsubmit.
      destruct r3 as [pdf_success|e]; simpl.
      * destruct (finished_frame (record_success && pdf_success) w3) as (_ & -> & _).
        rewrite Hsent3, Hsent2, Hsent1. by rewrite <- !app_assoc.
      * rewrite Hsent3, Hsent2, Hsent1. by rewrite <- !app_assoc.
    + rewrite Hsubmit.
      destruct r3 as [pdf_success|e]; simpl.
      * destruct (finished_frame (record_success && pdf_success) w3)
          as (_ & _ & _ & -> & _). by rewrite Hfiles3, Hfiles2, Hfiles1.
      * by rewrite Hfiles3, Hfiles2, Hfiles1.
    + rewrite Hsubmit.
      destruct r3 as [pdf_success|e]; simpl.
      * destruct (finished_frame (record_success && pdf_success) w3)
          as (_ & _ & _ & _ & -> & _). by rewrite Hform3, Hform2, Hform1.
      * by rewrite Hform3, Hform2, Hform1.
  - destruct Hr2 as (He & _ & _).
    exists [].
    split_and!; [done | done | by rewrite Hupdate
                 | left; rewrite Hsubmit; split; [done |];
                   destruct He as [->|[m ->]]; [by left | right; by exists m]
                 | rewrite Hsubmit; simpl
                 | rewrite Hsubmit; simpl; by rewrite Hfiles2, Hfiles1
                 | rewrite Hsubmit; simpl; by rewrite Hform2, Hform1].
    rewrite Hsent2, Hsent1, app_nil_r. by rewrite <- !app_assoc.
Qed.

Lemma pd_concat_None_record (record : list (string * string)) :
  NoDup record.*1 →
  pd_concat [None; Some (DataFrame_of_record record)] = Ret (DataFrame_of_record record).
Proof.
  intros Hnd. unfold pd_concat. simpl. unfold union_columns. simpl.
  rewrite list_difference_nil_r. unfold DataFrame_of_record. do 3 f_equal.
  apply reindex_id; [done |]. by rewrite length_fmap, !length_fmap.
Qed.

(** X14. When the ledger read fails, for whatever reason, the submission
    goes on from an empty table: if a ledger write is sent at all, the table
    it carries is the header and the one new row, whatever the ledger holds
    in the repository. *)
Theorem failed_read_sends_only_the_new_row trainee_name name department institution w :
  let date := strftime "%Y-%m-%d" (clock (ticks w)) in
  let w0 := prepared trainee_name name department institution w in
  let ledger_url := contents_url "assets/form_records.csv" in
  (fetch_records "assets/form_records.csv" w0).1 = Ret None →
  ∃ reqs,
    sent (submit trainee_name name department institution w).2 = sent w ++ reqs ∧
    ∀ body, put_request ledger_url body ∈ reqs →
      body !! "content" =
      Some (PStr (b64encode (csv_row ["name"; "form"; "signed_on"]
                               +:+ csv_row [name; "f100d_e"; date]))).
Proof.
  intros date w0 ledger_url Hnone.
  destruct (submit_requests_by_step trainee_name name department institution w)
    as (fetched & w1 & df & update & post & Hfetch & Hdf & Hupdate & Hpost & Hsent & _).
  fold date w0 in Hfetch, Hdf. rewrite Hfetch in Hnone. injection Hnone as ->.
  rewrite pd_concat_None_record in Hdf by compute_done. injection Hdf as <-.
  eexists. split; [exact Hsent |].
  intros body Hin.
  assert (Hcsv : to_csv (DataFrame_of_record (new_record name date)) false
                 = csv_row ["name"; "form"; "signed_on"] +:+ csv_row [name; "f100d_e"; date]).
  { rewrite to_csv_no_index. simpl rows. simpl columns.
    change (String.concat "" _) with (csv_row [name; "f100d_e"; date]). done. }
  destruct (update_repo_file_requests "assets/form_records.csv"
              (DataFrame_of_record (new_record name date)) name None w1)
    as [[Hu _]|(sha & Hu & _)]; fold ledger_url in Hu; rewrite Hupdate in Hu;
    apply app_inv_head in Hu; subst update.
  - apply elem_of_cons in Hin as [[=]|Hin].
    apply elem_of_cons in Hin as [[=]|Hin].
    destruct Hpost as [[-> _]|(b & -> & _)]; [by apply elem_of_nil in Hin |].
    apply list_elem_of_singleton in Hin. discriminate.
  - apply elem_of_cons in Hin as [[=]|Hin].
    apply elem_of_cons in Hin as [[=]|Hin].
    apply elem_of_cons in Hin as [Heq|Hin].
    + injection Heq as ->. rewrite request_body_content, <- Hcsv. done.
    + destruct Hpost as [[-> _]|(b & -> & _)]; [by apply elem_of_nil in Hin |].
      apply list_elem_of_singleton in Hin. discriminate.
Qed.

(** ** The script around the form *)

(** The end of the script: the filled document, if there is one, is
    offered for download and removed. *)
Lemma script_tail (blank : download) w :
  (filled ← download_filled; clean_up;; mret (blank :: option_list filled)) w =
  match files w !! OUTPUT_PDF with
  | Some file =>
      (Ret [blank; filled_button file],
       {| remote := remote w; sent := sent w; ui := ui w; ticks := ticks w;
          files := delete OUTPUT_PDF (files w); success := success w;
          f100d_e := f100d_e w |})
  | None => (Ret [blank], w)
  end.
Proof.
  unfold download_filled, clean_up, path_exists, read_file, os_remove. run.
  destruct (files w !! OUTPUT_PDF) as [file|] eqn:Hfile; simpl.
  - repeat (rewrite Hfile; simpl). done.
  - repeat (rewrite Hfile; simpl). done.
Qed.

(** One run of the script, in terms of the handler. *)
Lemma script_run submitted w template :
  files w !! INPUT_PDF = Some template →
  let w0 := (show (st_write "#### NSERC f100d_e Form") w).2 in
  script submitted w =
  match submitted with
  | Some v =>
      match submit (fv_trainee_name v) (fv_name v) (fv_department v) (fv_institution v) w0 with
      | (Ret _, w1) =>
          (filled ← download_filled; clean_up;;
           mret (blank_button template :: option_list filled)) w1
      | (Raise e, w1) => (Raise e, w1)
      end
  | None =>
      (filled ← download_filled; clean_up;;
       mret (blank_button template :: option_list filled)) (datetime_now w0).2
  end.
Proof.
  intros Hfile w0. unfold script.
  rewrite (bind_Ret download_blank _ w (blank_button template) w).
  2: { unfold download_blank, read_file. run. by rewrite Hfile. }
  rewrite (bind_Ret (show _) _ w () w0) by done.
  destruct submitted as [v|].
  - destruct (submit _ _ _ _ w0) as [[[]|e] w1] eqn:Hsubmit.
    + by rewrite (bind_Ret _ _ _ _ _ Hsubmit).
    + by rewrite (bind_Raise _ _ _ _ _ Hsubmit).
  - by rewrite (bind_Ret (now ← datetime_now; mret ()) _ w0 () (datetime_now w0).2).
Qed.

(** X15. A run of the script in which the form is submitted, from a state
    that holds the template.  When the handler returns, whatever the two
    writes returned, the page has two download buttons, the blank template
    and the filled document; the bytes of the second are those of the
    document filled from the form state, the same bytes whose base64 text
    the POST carried, and the transient file is gone afterwards.  When an
    exception escapes the handler, which only the [KeyError] or the
    [TypeError] of [contents['sha']] and the failed connection of the POST
    do, the script stops there: no button for the filled document, and the
    transient file stays. *)
Theorem script_offers_the_published_document v w template :
  files w !! INPUT_PDF = Some template →
  let date := strftime "%Y-%m-%d" (clock (ticks w)) in
  let d := fill_fields [fv_trainee_name v; fv_name v; fv_department v; fv_institution v;
                        fv_name v; date] form_fields (f100d_e w) in
  let document := write_fillable_pdf d in
  let publish_url := contents_url (pdf_repo_path (fv_name v) date) in
  let run := script (Some v) w in
  (run.1 = Ret [blank_button template; filled_button document] ∧
   files run.2 = delete OUTPUT_PDF (files w) ∧
   ∃ reqs body, sent run.2 = sent w ++ reqs ++ [post_request publish_url body] ∧
                body !! "content" = Some (PStr (b64encode document))) ∨
  ((run.1 = Raise (KeyError "sha") ∨ (∃ m, run.1 = Raise (TypeError m)) ∨
    ∃ m, run.1 = Raise (RequestException m)) ∧
   files run.2 = <[OUTPUT_PDF := document]> (files w)).
Proof.
  intros Hfile date d document publish_url run. subst run.
  rewrite (script_run (Some v) w template Hfile). cbv beta iota zeta.
  set (w0 := (show (st_write "#### NSERC f100d_e Form") w).2).
  destruct (submit_requests_by_step (fv_trainee_name v) (fv_name v) (fv_department v)
              (fv_institution v) w0)
    as (fetched & w1 & df & update & post & _ & _ & _ & Hpost & Hsent & Hfiles & _).
  destruct (submit_cases (fv_trainee_name v) (fv_name v) (fv_department v)
              (fv_institution v) w0)
    as (res & w' & reqs & events & n & Hsubmit & _ & Hshape).
  rewrite Hsubmit in Hpost, Hsent, Hfiles. rewrite Hsubmit. simpl in Hpost, Hsent, Hfiles.
  change (files (prepared _ _ _ _ w0)) with (<[OUTPUT_PDF := document]> (files w)) in Hfiles.
  change (f100d_e (prepared _ _ _ _ w0)) with d in Hpost. fold document in Hpost.
  change (sent w0) with (sent w) in Hsent.
  change (ticks w0) with (ticks w) in Hpost. fold date publish_url in Hpost.
  destruct Hshape
    as [[(e & -> & He) _]|(? & ? & ? & ? & ? & ? & ? & _ & _ & _ & _ & _ & Hres)].
  - right. split; [|done].
    destruct He as [->|[m ->]]; [by left | right; left; by exists m].
  - destruct Hres as [(_ & -> & _)|[(_ & -> & _)|(_ & [m ->] & _)]].
    + left. rewrite script_tail, Hfiles, lookup_insert_eq. simpl.
      split_and!; [done | apply delete_insert_eq |].
      destruct Hpost as [[_ [[=]|[? [=]]]]|(body & -> & Hbody)].
      exists ([get_request (raw_url "assets/form_records.csv")] ++ update), body.
      split; [by rewrite Hsent, <- !app_assoc | done].
    + left. rewrite script_tail, Hfiles, lookup_insert_eq. simpl.
      split_and!; [done | apply delete_insert_eq |].
      destruct Hpost as [[_ [[=]|[? [=]]]]|(body & -> & Hbody)].
      exists ([get_request (raw_url "assets/form_records.csv")] ++ update), body.
      split; [by rewrite Hsent, <- !app_assoc | done].
    + right. split; [right; right; by exists m | done].
Qed.

(** A run of the script without a submission, computed. *)
Lemma script_None_run w template :
  files w !! INPUT_PDF = Some template →
  (script None w).1
  = Ret (blank_button template :: option_list (filled_button <$> files w !! OUTPUT_PDF)) ∧
  files (script None w).2 = delete OUTPUT_PDF (files w) ∧
  sent (script None w).2 = sent w ∧ remote (script None w).2 = remote w ∧
  f100d_e (script None w).2 = f100d_e w ∧ success (script None w).2 = success w.
Proof.
  intros Hfile. rewrite (script_run None w template Hfile). simpl.
  rewrite script_tail. simpl.
  destruct (files w !! OUTPUT_PDF) as [file|] eqn:Hout; simpl; [done |].
  split_and!; try done. symmetry. by apply delete_id.
Qed.

(** X16. The transient file is offered once and then gone.  After a run of
    the script that comes to its end, with or without a submission, no filled
    document is left, and the next run without a submission offers only the
    blank template.  After a run the handler's exception cut short, the
    document of that submission is still there: the next run, without any
    submission, offers it for download, sends nothing to the repository,
    and removes it. *)
Theorem filled_document_is_offered_once submitted w template :
  files w !! INPUT_PDF = Some template →
  let run := script submitted w in
  let next := script None run.2 in
  sent next.2 = sent run.2 ∧ remote next.2 = remote run.2 ∧
  files next.2 !! OUTPUT_PDF = None ∧
  match run.1 with
  | Ret _ => files run.2 !! OUTPUT_PDF = None ∧ next.1 = Ret [blank_button template]
  | Raise _ =>
      ∃ v, submitted = Some v ∧
        let date := strftime "%Y-%m-%d" (clock (ticks w)) in
        let d := fill_fields [fv_trainee_name v; fv_name v; fv_department v;
                              fv_institution v; fv_name v; date] form_fields (f100d_e w) in
        next.1 = Ret [blank_button template; filled_button (write_fillable_pdf d)]
  end.
Proof.
  intros Hfile run next.
  assert (Htemplate : files run.2 !! INPUT_PDF = Some template).
  { subst run. rewrite (script_run submitted w template Hfile).
    destruct submitted as [v|]; simpl.
    - destruct (submit_requests_by_step (fv_trainee_name v) (fv_name v) (fv_department v)
                  (fv_institution v) (show (st_write "#### NSERC f100d_e Form") w).2)
        as (_ & _ & _ & _ & _ & _ & _ & _ & _ & _ & Hfiles & _).
      destruct (submit _ _ _ _ _) as [[[]|e] w1]; simpl in Hfiles |- *.
      + rewrite script_tail.
        destruct (files w1 !! OUTPUT_PDF); simpl; rewrite ?lookup_delete_ne by done;
          by rewrite Hfiles, lookup_insert_ne.
      + by rewrite Hfiles, lookup_insert_ne.
    - rewrite script_tail. simpl.
      destruct (files w !! OUTPUT_PDF); simpl; by rewrite ?lookup_delete_ne. }
  destruct (script_None_run run.2 template Htemplate)
    as (Hnext & Hfiles' & Hsent' & Hremote' & _). fold next in Hnext, Hfiles', Hsent', Hremote'.
  split_and!; [done | done | rewrite Hfiles'; apply lookup_delete_eq |].
  rewrite Hnext. clear Hnext Hfiles' Hsent' Hremote' Htemplate next. subst run.
  assert (Hgone : ∀ m : gmap string string, delete OUTPUT_PDF m !! OUTPUT_PDF = None)
    by (intros m; apply lookup_delete_eq).
  rewrite (script_run submitted w template Hfile).
  destruct submitted as [v|]; cbv beta iota zeta.
  - destruct (submit_requests_by_step (fv_trainee_name v) (fv_name v) (fv_department v)
                (fv_institution v) (show (st_write "#### NSERC f100d_e Form") w).2)
      as (_ & _ & _ & _ & _ & _ & _ & _ & _ & _ & Hfiles & _).
    destruct (submit _ _ _ _ _) as [[[]|e] w1]; cbn [fst snd] in Hfiles |- *.
    + rewrite script_tail.
      destruct (files w1 !! OUTPUT_PDF) as [file|] eqn:Hout; cbn [fst snd files].
      * by rewrite !Hgone.
      * by rewrite Hout.
    + exists v. split; [done |]. rewrite Hfiles. cbn [files prepared].
      by rewrite lookup_insert_eq.
  - rewrite script_tail. cbn [fst snd files datetime_now show].
    destruct (files w !! OUTPUT_PDF) as [file|] eqn:Hout; cbn [fst snd files].
    + by rewrite !Hgone.
    + by rewrite Hout.
Qed.

(** X17. The link to the records is what a submission shows last, and it is
    shown exactly when both writes returned [True]: the value
    [update_repo_file] returned for the ledger and the value [post_to_repo]
    returned for the document, called in the state the ledger step left.
    A failed read of the ledger does not keep the link from being shown. *)
Theorem link_is_shown_iff_both_writes_returned_True
    trainee_name name department institution w :
  let date := strftime "%Y-%m-%d" (clock (ticks w)) in
  let w0 := prepared trainee_name name department institution w in
  let link := st_link_button "Visit Records"
                "https://206-12-100-80.cloud.computecanada.ca/acbc-repo/poduska-lab/KPAdmin" in
  let run := submit trainee_name name department institution w in
  ∃ fetched w1 df events,
    fetch_records "assets/form_records.csv" w0 = (Ret fetched, w1) ∧
    pd_concat [fetched; Some (DataFrame_of_record (new_record name date))] = Ret df ∧
    ui run.2 = ui w ++ events ∧
    let update := update_repo_file "assets/form_records.csv" (ADataFrame df) name None w1 in
    let post := post_to_repo OUTPUT_PDF (pdf_repo_path name date) name None update.2 in
    (link ∈ events ↔ update.1 = Ret true ∧ post.1 = Ret true) ∧
    (link ∈ events → last events = Some link ∧ run.1 = Ret ()).
Proof.
  intros date w0 link run. subst run.
  destruct (submit_run trainee_name name department institution w)
    as (fetched & w1 & df & Hfetch & Hdf & Hsubmit). fold date w0 in Hfetch, Hdf, Hsubmit.
  destruct (fetch_records_cases "assets/form_records.csv" w0)
    as (fetched' & w1' & ev1 & Hfetch' & Hw1 & Hev1).
  rewrite Hfetch in Hfetch'. injection Hfetch' as <- <-.
  assert (Hev1' : link ∉ ev1).
  { destruct fetched; [subst ev1; apply not_elem_of_nil |].
    destruct Hev1 as [msg ->]. by intros [=]%list_elem_of_singleton. }
  clear Hev1.
  destruct (update_repo_file_cases "assets/form_records.csv" df name None w1)
    as (r2 & w2 & puts & ev2 & n2 & Hupdate & Hw2 & _ & Hev2).
  destruct Hw1 as (_ & _ & Hui1 & _ & Hfiles1 & Hform1).
  destruct Hw2 as (_ & _ & Hui2 & _ & Hfiles2 & Hform2).
  assert (Hui0 : ui w0 = ui w ++ [st_write_dict "Form Data:" (f100d_e w0)]) by done.
  destruct r2 as [record_success|e].
  - assert (Hfile : files w2 !! OUTPUT_PDF = Some (write_fillable_pdf (f100d_e w0))).
    { rewrite Hfiles2, Hfiles1. apply prepared_document. }
    destruct (post_to_repo_outcomes OUTPUT_PDF (pdf_repo_path name date) name None w2 _ Hfile)
      as (r3 & w3 & body & ev3 & n3 & Hpost & Hw3 & Hr3).
    destruct Hw3 as (_ & _ & Hui3 & _).
    assert (Hev2' : link ∉ ev2).
    { destruct record_success; [subst ev2 | destruct Hev2 as [msg ->]];
        by intros [=]%list_elem_of_singleton. }
    assert (Hev3 : link ∉ ev3).
    { destruct Hr3 as [(_ & m & ->)|[(_ & m & ->)|(_ & ->)]];
        [by intros [=]%list_elem_of_singleton ..|apply not_elem_of_nil]. }
    destruct r3 as [pdf_success|e].
    + exists fetched, w1, df,
        ([st_write_dict "Form Data:" (f100d_e w0)] ++ ev1 ++ ev2 ++ ev3
           ++ closing (record_success && pdf_success)).
      cbv zeta. rewrite Hsubmit, Hupdate. cbn [fst snd]. rewrite Hpost. cbn [fst snd].
      split_and!; [done | done | | |].
      * destruct (finished_frame (record_success && pdf_success) w3)
          as (_ & _ & _ & _ & _ & _ & ->).
        rewrite Hui3, Hui2, Hui1, Hui0. by rewrite <- !app_assoc.
      * rewrite !elem_of_app. split.
        -- intros [[=]%list_elem_of_singleton|[?|[?|[?|Hin]]]]; try done.
           by destruct record_success, pdf_success; try by apply elem_of_nil in Hin.
        -- intros [[= ->] [= ->]]. do 4 right. simpl. apply elem_of_cons. right.
           by apply list_elem_of_singleton.
      * rewrite !elem_of_app.
        intros [[=]%list_elem_of_singleton|[?|[?|[?|Hin]]]]; try done.
        destruct record_success, pdf_success; try by apply elem_of_nil in Hin.
        split; [|done]. simpl closing. by rewrite !last_app.
    + exists fetched, w1, df, ([st_write_dict "Form Data:" (f100d_e w0)] ++ ev1 ++ ev2 ++ ev3).
      cbv zeta. rewrite Hsubmit, Hupdate. cbn [fst snd]. rewrite Hpost. cbn [fst snd].
      split_and!; [done | done | | |].
      * rewrite Hui3, Hui2, Hui1, Hui0. by rewrite <- !app_assoc.
      * rewrite !elem_of_app. split.
        -- by intros [[=]%list_elem_of_singleton|[?|[?|?]]].
        -- by intros [_ [=]].
      * rewrite !elem_of_app. by intros [[=]%list_elem_of_singleton|[?|[?|?]]].
  - destruct Hev2 as (_ & -> & _).
    exists fetched, w1, df, ([st_write_dict "Form Data:" (f100d_e w0)] ++ ev1).
    cbv zeta. rewrite Hsubmit, Hupdate. cbn [fst snd].
    split_and!; [done | done | | |].
    + rewrite Hui2, Hui1, Hui0, app_nil_r. by rewrite <- !app_assoc.
    + rewrite !elem_of_app. split.
      * by intros [[=]%list_elem_of_singleton|?].
      * by intros [[=] _].
    + rewrite !elem_of_app. by intros [[=]%list_elem_of_singleton|?].
Qed.

(** ** A submission the repository accepts *)

(** C6 (amended). A submission with name [n] on a day [d] (the clock read
    as [%Y-%m-%d]), made when the ledger is read as the table [L], its file
    info is answered (the file found with its token, or 404), and the
    repository accepts the two writes it is then sent (status 200 or 201).
    The handler returns and has sent four requests: the two GETs for the
    ledger, the PUT of the ledger and the POST of the document; the
    repository is left as the accepted POST left it, and both successes and
    the link to the records are shown.  The accepted PUT carries, under the
    token observed, base64 text that decodes to a CSV text that reads back
    as the labels of [L], the rows of [L], and exactly one row more, which
    holds [n], the identifier [f100d_e] and [d] under their labels.  The
    accepted POST carries base64 text that decodes to the filled document,
    without a token, to the contents URL the program makes from the path
    [assets/filled_forms/f100d_e_<n>_<d>.pdf], a function of the form
    identifier, [n] and [d]. *)
Theorem submit_appends_row_and_publishes
    trainee_name name department institution w s1 r1 s2 r2 s3 r3 s4 r4 L :
  let date := strftime "%Y-%m-%d" (clock (ticks w)) in
  let ledger_url := contents_url "assets/form_records.csv" in
  let publish_url := contents_url (pdf_repo_path name date) in
  let d := fill_fields [trainee_name; name; department; institution; name; date]
             form_fields (f100d_e w) in
  let new_row := reindex (new_record name date).*1 (columns L)
                   (Str <$> (new_record name date).*2) in
  let L' := {| columns := columns L; rows := rows L ++ [new_row] |} in
  let put_body :=
    request_body (default_message "Edited" name (clock (S (ticks w))))
      (b64encode (to_csv L' false))
      (if status_code r2 =? 200 then from_option PStr PNone (observed_token r2) else PNone) in
  let upload_message := default_message "PDF uploaded" name (clock (S (S (ticks w)))) in
  let post_body := publish_body upload_message (write_fillable_pdf d) in
  let run := submit trainee_name name department institution w in
  serve (remote w) (get_request (raw_url "assets/form_records.csv")) = (s1, Responded r1) →
  status_code r1 = 200 → read_csv (content r1) = Ret L → is_ledger L →
  serve s1 (get_request ledger_url) = (s2, Responded r2) →
  (status_code r2 = 200 ∧ is_Some (observed_token r2)) ∨ status_code r2 = 404 →
  serve s2 (put_request ledger_url put_body) = (s3, Responded r3) →
  status_code r3 = 200 ∨ status_code r3 = 201 →
  serve s3 (post_request publish_url post_body) = (s4, Responded r4) →
  status_code r4 = 200 ∨ status_code r4 = 201 →
  run.1 = Ret () ∧
  sent run.2 = sent w ++
    [get_request (raw_url "assets/form_records.csv"); get_request ledger_url;
     put_request ledger_url put_body; post_request publish_url post_body] ∧
  remote run.2 = s4 ∧
  ui run.2 = ui w ++
    [st_write_dict "Form Data:" d;
     st_success "File updated successfully.";
     st_success ("PDF correctly submitted for review: " +:+ upload_message);
     st_write "Visit the assets folder in the forms repository if you have access:";
     st_link_button "Visit Records"
       "https://206-12-100-80.cloud.computecanada.ca/acbc-repo/poduska-lab/KPAdmin"] ∧
  put_body !! "content" = Some (PStr (b64encode (to_csv L' false))) ∧
  put_body !! "sha" = (if status_code r2 =? 200 then PStr <$> observed_token r2 else None) ∧
  csv_records <$> content_bytes put_body
  = Some (columns L :: ((λ r : list cell, cell_text <$> r) <$> rows L)
                         ++ [cell_text <$> new_row]) ∧
  csv_records (to_csv L' false)
  = columns L :: ((λ r : list cell, cell_text <$> r) <$> rows L) ++ [cell_text <$> new_row] ∧
  length new_row = length (columns L) ∧
  cell_at (columns L) new_row "name" = Str name ∧
  cell_at (columns L) new_row "form" = Str "f100d_e" ∧
  cell_at (columns L) new_row "signed_on" = Str date ∧
  post_body !! "content" = Some (PStr (b64encode (write_fillable_pdf (f100d_e run.2)))) ∧
  content_bytes post_body = Some (write_fillable_pdf d) ∧
  post_body !! "sha" = None ∧
  pdf_repo_path name date = "assets/filled_forms/f100d_e_" +:+ name +:+ "_" +:+ date +:+ ".pdf".
Proof.
  intros date ledger_url publish_url d new_row L' put_body upload_message post_body run
    Hraw Hstatus1 Hcsv HL Hinfo Hstatus2 Hput Hok3 Hpost Hok4.
  set (w0 := prepared trainee_name name department institution w).
  destruct (submit_run trainee_name name department institution w)
    as (fetched & w1 & df & Hfetch & Hdf & Hsubmit). fold date w0 in Hfetch, Hdf, Hsubmit.
  (* the ledger read *)
  rewrite (fetch_records_found "assets/form_records.csv" w0 s1 r1 L Hraw Hstatus1 Hcsv)
    in Hfetch.
  injection Hfetch as <- <-.
  (* the appended table *)
  destruct (new_row_cells L name date HL) as (Hlen & Hname & Hform & Hdate).
  fold new_row in Hlen, Hname, Hform, Hdate.
  rewrite (pd_concat_ledger L (new_record name date) (proj1 HL)
             (ledger_labels_present L name date HL)) in Hdf.
  fold new_row L' in Hdf. injection Hdf as <-.
  (* the token *)
  set (w1 := after_request w0 (get_request (raw_url "assets/form_records.csv")) s1) in *.
  set (sha := if status_code r2 =? 200 then from_option PStr PNone (observed_token r2)
              else PNone) in *.
  assert (Hstep1 : retrieve_sha ledger_url w1
                   = (Ret (Some sha), after_request w1 (get_request ledger_url) s2) ∧
                   request_body (default_message "Edited" name (clock (S (ticks w))))
                     (b64encode (to_csv L' false)) sha !! "sha"
                   = (if status_code r2 =? 200 then PStr <$> observed_token r2 else None)).
  { subst sha. destruct Hstatus2 as [[H200 [token Htoken]]|H404].
    - rewrite H200, Htoken. simpl. split; [by eapply retrieve_sha_found |].
      apply request_body_sha_token.
      by destruct (observed_token_Some _ _ Htoken) as (_ & _ & _ & ?).
    - rewrite H404. simpl. split; [by eapply retrieve_sha_not_found |].
      apply request_body_sha_None. }
  destruct Hstep1 as [Hstep1 Hsha].
  (* the ledger write *)
  assert (Hupdate : update_repo_file "assets/form_records.csv" (ADataFrame L') name None w1
                    = (Ret true,
                       (show (st_success "File updated successfully.")
                          (after_request
                             (datetime_now (after_request w1 (get_request ledger_url) s2)).2
                             (put_request ledger_url put_body) s3)).2)).
  { rewrite update_repo_file_run. fold ledger_url. rewrite Hstep1, send_update_run.
    change (remote (message_made None _)) with s2.
    change (ledger_message name None _)
      with (default_message "Edited" name (clock (S (ticks w)))).
    fold put_body. rewrite Hput.
    apply write_accepted_spec in Hok3. by rewrite Hok3. }
  rewrite Hupdate in Hsubmit.
  (* the publish *)
  set (w2 := (show (st_success "File updated successfully.")
                (after_request
                   (datetime_now (after_request w1 (get_request ledger_url) s2)).2
                   (put_request ledger_url put_body) s3)).2) in *.
  assert (Hfile : files w2 !! OUTPUT_PDF = Some (write_fillable_pdf d))
    by apply lookup_insert_eq.
  rewrite (post_to_repo_run OUTPUT_PDF (pdf_repo_path name date) name None w2 _ Hfile)
    in Hsubmit.
  fold publish_url in Hsubmit.
  change (publish_body (publish_message name None w2) (write_fillable_pdf d))
    with post_body in Hsubmit.
  change (remote w2) with s3 in Hsubmit. rewrite Hpost in Hsubmit.
  apply write_accepted_spec in Hok4. rewrite Hok4 in Hsubmit.
  subst run. rewrite Hsubmit. simpl fst. simpl snd.
  destruct (ledger_rows_not_empty L HL) as [Hcols Hrows].
  assert (Hread : csv_records (to_csv L' false)
                  = columns L :: ((λ r : list cell, cell_text <$> r) <$> rows L)
                      ++ [cell_text <$> new_row]).
  { rewrite csv_records_to_csv; simpl; [by rewrite fmap_app | done |].
    apply Forall_app. split; [done |]. apply Forall_singleton.
    intros Hnil. rewrite Hnil in Hlen. simpl in Hlen. by destruct (columns L). }
  split_and!.
  - done.
  - simpl. rewrite <- !app_assoc. done.
  - done.
  - simpl. rewrite <- !app_assoc. done.
  - apply request_body_content.
  - exact Hsha.
  - rewrite (content_bytes_b64encode put_body (to_csv L' false))
      by apply request_body_content.
    simpl. by rewrite Hread.
  - exact Hread.
  - exact Hlen.
  - exact Hname.
  - exact Hform.
  - exact Hdate.
  - apply publish_body_lookups.
  - apply content_bytes_b64encode, publish_body_lookups.
  - apply publish_body_lookups.
  - reflexivity.
Qed.

(** ** A ledger write the repository refuses *)

(** When the PUT of [update_repo_file] is answered with a status other than
    200 and 201, the call returns [False] and shows the status and the body
    of the answer. *)
Lemma update_repo_file_refused file_path df name commit_message w body s r :
  let url := contents_url file_path in
  let run := update_repo_file file_path (ADataFrame df) name commit_message w in
  sent run.2 = sent w ++ [get_request url; put_request url body] →
  serve (serve (remote w) (get_request url)).1 (put_request url body) = (s, Responded r) →
  status_code r ≠ 200 → status_code r ≠ 201 →
  run.1 = Ret false ∧
  ui run.2 = ui w ++ [st_error ("Failed to update file: " +:+ str_Z (status_code r)
                                  +:+ " - " +:+ text r)] ∧
  remote run.2 = s.
Proof.
  intros url run. subst run. rewrite update_repo_file_run, retrieve_sha_run. fold url.
  intros Hsent Hput H200 H201.
  assert (Hshort : ∀ l, l = sent w ++ [get_request url] →
                        l ≠ sent w ++ [get_request url; put_request url body]).
  { intros l -> Heq. apply app_inv_head in Heq. discriminate. }
  assert (Hgo : ∀ s1 sha,
    (serve (remote w) (get_request url)).1 = s1 →
    let run := send_update url
                 (request_body
                    (ledger_message name commit_message (after_request w (get_request url) s1))
                    (b64encode (to_csv df false)) sha)
                 (message_made commit_message (after_request w (get_request url) s1)) in
    sent run.2 = sent w ++ [get_request url; put_request url body] →
    run.1 = Ret false ∧
    ui run.2 = ui w ++ [st_error ("Failed to update file: " +:+ str_Z (status_code r)
                                    +:+ " - " +:+ text r)] ∧
    remote run.2 = s).
  { intros s1 sha Hs1 run. subst run.
    set (data := request_body _ _ sha). rewrite send_update_run.
    destruct (remote_message_made commit_message (after_request w (get_request url) s1))
      as (Hremote & Hsent' & Hui & _). rewrite Hremote. simpl remote.
    rewrite Hs1 in Hput.
    assert (Hnot : (status_code r =? 200) || (status_code r =? 201) = false).
    { apply orb_false_intro; by apply Z.eqb_neq. }
    destruct (serve s1 (put_request url data)) as [s2 [r2|m2]] eqn:Hput'; simpl;
      rewrite Hsent', ?Hui; simpl; rewrite <- app_assoc; simpl;
      intros Heq; apply app_inv_head in Heq; injection Heq as Heq;
      rewrite Heq, Hput in Hput'; [|discriminate].
    injection Hput' as <- <-. by rewrite Hnot. }
  destruct (serve (remote w) (get_request url)) as [s1 [r1|m1]] eqn:Hget; simpl in *.
  2: { by apply Hshort in Hsent. }
  destruct (status_code r1 =? 200).
  - destruct (json r1) as [contents|]; simpl in *; [| by apply Hshort in Hsent].
    destruct (subscript contents "sha") as [sha|e]; simpl in *; [| by apply Hshort in Hsent].
    by apply Hgo.
  - destruct (status_code r1 =? 404); simpl in *; [| by apply Hshort in Hsent].
    by apply Hgo.
Qed.

(** C2 (amended). A failed ledger append is reported at once, and it does
    not stop the submission.  When the repository refuses the PUT of the
    ledger (a status other than 200 and 201), [update_repo_file] returns
    [False] and shows the status and the body of the answer; whenever it
    returns [False] it has shown an error.  Whatever it returned, [True] or
    [False], the handler goes on as if nothing had happened: it calls
    [post_to_repo] in the state the append left, so the POST of the filled
    document is the next request sent, and the handler ends as that call
    ends, having sent nothing more; only the closing link depends on both
    results, so it is withheld after a failed append. *)
Theorem submit_goes_on_after_failed_steps trainee_name name department institution w :
  let date := strftime "%Y-%m-%d" (clock (ticks w)) in
  let w0 := prepared trainee_name name department institution w in
  let ledger_url := contents_url "assets/form_records.csv" in
  let publish_url := contents_url (pdf_repo_path name date) in
  let run := submit trainee_name name department institution w in
  ∃ fetched w1 df,
    fetch_records "assets/form_records.csv" w0 = (Ret fetched, w1) ∧
    pd_concat [fetched; Some (DataFrame_of_record (new_record name date))] = Ret df ∧
    let update := update_repo_file "assets/form_records.csv" (ADataFrame df) name None w1 in
    let post := post_to_repo OUTPUT_PDF (pdf_repo_path name date) name None update.2 in
    (∀ body s r,
       sent update.2 = sent w1 ++ [get_request ledger_url; put_request ledger_url body] →
       serve (serve (remote w1) (get_request ledger_url)).1 (put_request ledger_url body)
       = (s, Responded r) →
       status_code r ≠ 200 → status_code r ≠ 201 →
       update.1 = Ret false ∧
       ui update.2 = ui w1 ++ [st_error ("Failed to update file: " +:+ str_Z (status_code r)
                                           +:+ " - " +:+ text r)]) ∧
    (update.1 = Ret false → ∃ msg, ui update.2 = ui w1 ++ [st_error msg]) ∧
    (∀ record_success, update.1 = Ret record_success →
       (∃ body, sent post.2 = sent update.2 ++ [post_request publish_url body] ∧
                body !! "content"
                = Some (PStr (b64encode (write_fillable_pdf (f100d_e w0))))) ∧
       sent run.2 = sent post.2 ∧ remote run.2 = remote post.2 ∧
       match post.1 with
       | Ret pdf_success =>
           run.1 = Ret () ∧ ui run.2 = ui post.2 ++ closing (record_success && pdf_success)
       | Raise e => run.1 = Raise e ∧ ui run.2 = ui post.2
       end).
Proof.
  intros date w0 ledger_url publish_url run. subst run.
  destruct (submit_run trainee_name name department institution w)
    as (fetched & w1 & df & Hfetch & Hdf & Hsubmit). fold date w0 in Hfetch, Hdf, Hsubmit.
  exists fetched, w1, df. cbv zeta. split_and!; [done | done | | |].
  - intros body s r Hsent Hput H200 H201.
    destruct (update_repo_file_refused "assets/form_records.csv" df name None w1 body s r
                Hsent Hput H200 H201) as (Hres & Hui & _).
    done.
  - intros Hfalse.
    destruct (update_repo_file_cases "assets/form_records.csv" df name None w1)
      as (r2 & w2 & puts & ev2 & n2 & Hupdate & Hw2 & _ & Hev2).
    rewrite Hupdate in Hfalse |- *. simpl in Hfalse |- *. subst r2.
    destruct Hev2 as [msg ->]. exists msg. by destruct Hw2 as (_ & _ & -> & _).
  - intros record_success Hreturned.
    destruct (fetch_records_cases "assets/form_records.csv" w0)
      as (fetched' & w1' & ev1 & Hfetch' & Hw1 & _).
    rewrite Hfetch in Hfetch'. injection Hfetch' as <- <-.
    destruct (update_repo_file_cases "assets/form_records.csv" df name None w1)
      as (r2 & w2 & puts & ev2 & n2 & Hupdate & Hw2 & _).
    rewrite Hupdate in Hsubmit, Hreturned |- *. simpl in Hreturned. subst r2.
    cbn [fst snd] in *.
    assert (Hfile : files w2 !! OUTPUT_PDF = Some (write_fillable_pdf (f100d_e w0))).
    { destruct Hw2 as (_ & _ & _ & _ & -> & _), Hw1 as (_ & _ & _ & _ & -> & _).
      apply prepared_document. }
    destruct (post_to_repo_cases OUTPUT_PDF (pdf_repo_path name date) name None w2 _ Hfile)
      as (r3 & w3 & ev3 & n3 & Hpost & Hw3 & _).
    fold publish_url in Hw3.
    rewrite Hpost in Hsubmit |- *. cbn [fst snd]. rewrite Hsubmit.
    split_and!.
    + eexists. split; [by destruct Hw3 as (_ & -> & _) | apply publish_body_lookups].
    + destruct r3 as [pdf_success|e]; cbn [fst snd]; [|done].
      by destruct (finished_frame (record_success && pdf_success) w3) as (_ & -> & _).
    + destruct r3 as [pdf_success|e]; cbn [fst snd]; [|done].
      by destruct (finished_frame (record_success && pdf_success) w3) as (-> & _).
    + destruct r3 as [pdf_success|e]; cbn [fst snd]; [|done].
      split; [done |].
      by destruct (finished_frame (record_success && pdf_success) w3)
        as (_ & _ & _ & _ & _ & _ & ->).
Qed.

End Facts.

(** ** Runs against a repository *)

Section Runs.

#[local] Existing Instance Forgejo.platform.

Import Forgejo.

(** C1 at work: the ledger exists with token [3f2a]; the PUT carries it. *)
Lemma update_repo_file_sha_iff_found_witness :
  ∃ body,
    sent (update_repo_file ledger_path (ADataFrame ledger_table) "Ann" None
            (start repo_with_ledger)).2
    = [get_request (contents_url ledger_path); put_request (contents_url ledger_path) body] ∧
    body !! "sha" = Some (PStr "3f2a").
Proof.
  pose proof (update_repo_file_sha_iff_found ledger_path ledger_table "Ann" None
                (start repo_with_ledger) repo_with_ledger
                (Responded (file_info_response 200 ledger_blob)) eq_refl) as Hthm.
  destruct Hthm as [Hwrite _].
  - intros r [= <-] _. vm_compute. by eexists.
  - destruct (Hwrite (or_introl eq_refl)) as (body & Hsent & _ & Hsha & _).
    exists body. split; [exact Hsent | exact (Hsha eq_refl)].
Defined.

(** C9 at work: CSV text passed where a table is expected. *)
Lemma update_repo_file_rejects_non_table_witness :
  ∃ w', update_repo_file ledger_path (AScalar (PStr "name,form,signed_on")) "Ann" None
          (start repo_with_ledger) = (Ret false, w') ∧
        sent w' = [] ∧ remote w' = repo_with_ledger ∧
        ui w' = [st_error "new_content must be a Pandas DataFrame"].
Proof.
  exact (update_repo_file_rejects_non_table ledger_path (AScalar (PStr "name,form,signed_on"))
           "Ann" None (start repo_with_ledger) eq_refl).
Defined.


Lemma template_fields_NoDup : NoDup template_fields.
Proof. compute_done. Qed.

Lemma ledger_table_is_ledger : is_ledger ledger_table.
Proof.
  split; [split |]; [compute_done | | done].
  repeat constructor.
Qed.

(** C10 at work on the six fields of the template. *)
Lemma submit_signature_is_name_witness :
  f100d_e (submit "B" "A. Example" "Chem" "U" (start repo_with_ledger)).2 !! "Signature"
  = Some "A. Example".
Proof.
  exact (proj1 (submit_signature_is_name "B" "A. Example" "Chem" "U"
                  (start repo_with_ledger) "Signature" template_fields_NoDup eq_refl)).
Defined.

(** C7 (amended) at work: one request, a POST. *)
Lemma post_to_repo_sends_one_post_witness :
  ∃ req, sent (post_to_repo OUTPUT_PDF "assets/filled_forms/f100d_e_Ann_2024-01-01.pdf"
                 "Ann" None (start_with_document repo_empty)).2 = [req] ∧
         req_method req = POST.
Proof.
  destruct (post_to_repo_sends_one_post OUTPUT_PDF
              "assets/filled_forms/f100d_e_Ann_2024-01-01.pdf" "Ann" None
              (start_with_document repo_empty) _ eq_refl)
    as (req & body & Hsent & Hmethod & _).
  exists req. split; [exact Hsent | exact Hmethod].
Defined.


(** C2, as stated, fails: the account may not write the ledger, so the
    ledger append fails (403) and leaves the ledger as it was; the error is
    shown, and the handler still sends the POST of the document, which the
    repository accepts. *)
Lemma failed_append_does_not_stop_publish :
  (submit "B" "A. Example" "Chem" "U" (start repo_read_only_ledger)).1 = Ret () ∧
  (λ r, (req_method r, req_url r)) <$>
    sent (submit "B" "A. Example" "Chem" "U" (start repo_read_only_ledger)).2 =
    [(GET, raw_url ledger_path); (GET, contents_url ledger_path);
     (PUT, contents_url ledger_path);
     (POST, contents_url "assets/filled_forms/f100d_e_A. Example_2024-01-01.pdf")] ∧
  st_error "Failed to update file: 403 - forbidden"
    ∈ ui (submit "B" "A. Example" "Chem" "U" (start repo_read_only_ledger)).2 ∧
  blobs (remote (submit "B" "A. Example" "Chem" "U" (start repo_read_only_ledger)).2)
    !! ledger_path = Some ledger_blob ∧
  blob_bytes <$>
    blobs (remote (submit "B" "A. Example" "Chem" "U" (start repo_read_only_ledger)).2)
      !! "assets/filled_forms/f100d_e_A. Example_2024-01-01.pdf"
  = Some "%PDF-1.7 f100d_e B|A. Example|Chem|U|A. Example|2024-01-01".
Proof.
  split_and!; [by vm_compute | by vm_compute | | by vm_compute | by vm_compute].
  compute_done.
Qed.

(** C7, as stated, fails: the one request of [post_to_repo] is a POST, not
    a PUT; when the host cannot be reached the call returns neither [True]
    nor [False], the exception of [requests] escapes; and with no document
    at [pdf_path] nothing is sent at all. *)
Lemma post_to_repo_sends_POST_not_PUT :
  req_method <$>
    sent (post_to_repo OUTPUT_PDF "assets/filled_forms/f100d_e_Ann_2024-01-01.pdf"
            "Ann" None (start_with_document repo_empty)).2 = [POST] ∧
  (post_to_repo OUTPUT_PDF "assets/filled_forms/f100d_e_Ann_2024-01-01.pdf"
     "Ann" None (start_with_document repo_offline)).1
  = Raise (RequestException "Connection refused") ∧
  (post_to_repo OUTPUT_PDF "assets/filled_forms/f100d_e_Ann_2024-01-01.pdf"
     "Ann" None (start repo_empty)).1
  = Raise (FileNotFoundError "assets/filled_form.pdf") ∧
  sent (post_to_repo OUTPUT_PDF "assets/filled_forms/f100d_e_Ann_2024-01-01.pdf"
          "Ann" None (start repo_empty)).2 = [].
Proof. split_and!; vm_compute; reflexivity. Qed.

(** C4: the code overwrites the ledger after a failed read.  The raw
    endpoint answers 500 while the ledger holds two rows.  The handler shows
    the error of the read, goes on from an empty table, finds the file and
    its token through the contents API, and writes a ledger made of the new
    row only: the two earlier rows are lost. *)
Theorem transient_read_error_overwrites_ledger :
  blob_bytes <$> blobs repo_raw_down !! ledger_path =
    Some (csv_of ["name,form,signed_on"; "Ann,f100d_e,2023-12-30"; "Bo,f100d_e,2023-12-31"]) ∧
  (submit "B" "A. Example" "Chem" "U" (start repo_raw_down)).1 = Ret () ∧
  st_error "Failed to fetch assets/form_records.csv. Status code: 500"
    ∈ ui (submit "B" "A. Example" "Chem" "U" (start repo_raw_down)).2 ∧
  req_method <$> sent (submit "B" "A. Example" "Chem" "U" (start repo_raw_down)).2
    = [GET; GET; PUT; POST] ∧
  blob_bytes <$>
    blobs (remote (submit "B" "A. Example" "Chem" "U" (start repo_raw_down)).2) !! ledger_path
  = Some (csv_of ["name,form,signed_on"; "A. Example,f100d_e,2024-01-01"]).
Proof.
  split_and!; [by vm_compute | by vm_compute | | by vm_compute | by vm_compute].
  compute_done.
Qed.

(** The other half of C4 holds: on a fresh repository the read answers 404
    and the ledger is created with exactly the new row. *)
Example first_submission_creates_ledger :
  blob_bytes <$>
    blobs (remote (submit "B" "A. Example" "Chem" "U" (start repo_empty)).2) !! ledger_path
  = Some (csv_of ["name,form,signed_on"; "A. Example,f100d_e,2024-01-01"]).
Proof. by vm_compute. Qed.

(** C5: the code writes the month where the minute belongs.  At 10:30 on
    2024-01-01 the default commit messages of both writers end in [10-01],
    the hour and the month again, where the pattern with the minute gives
    [10-30]; these are the messages the two write requests carry. *)
Theorem default_message_repeats_month :
  default_message "Edited" "A. Example" new_year_morning
    = "Edited by A. Example at 2024-01-01-10-01" ∧
  default_message "PDF uploaded" "A. Example" new_year_morning
    = "PDF uploaded by A. Example at 2024-01-01-10-01" ∧
  strftime "%Y-%m-%d-%H-%M" new_year_morning = "2024-01-01-10-30" ∧
  (λ r, req_json r ≫= (.!! "message")) <$>
    sent (submit "B" "A. Example" "Chem" "U" (start repo_with_ledger)).2
  = [None; None;
     Some (PStr "Edited by A. Example at 2024-01-01-10-01");
     Some (PStr "PDF uploaded by A. Example at 2024-01-01-10-01")].
Proof. split_and!; by vm_compute. Qed.

(** The end-to-end example of the specification: the ledger gains the row,
    the document appears at its path, and the same submission on the same
    day fails at the publish step, the path being taken. *)
Example end_to_end :
  blob_bytes <$>
    blobs (remote (submit "B" "A. Example" "Chem" "U" (start repo_with_ledger)).2)
      !! ledger_path
  = Some (csv_of ["name,form,signed_on"; "Ann,f100d_e,2023-12-30"; "Bo,f100d_e,2023-12-31";
                  "A. Example,f100d_e,2024-01-01"]) ∧
  is_Some (blobs (remote (submit "B" "A. Example" "Chem" "U" (start repo_with_ledger)).2)
             !! "assets/filled_forms/f100d_e_A. Example_2024-01-01.pdf") ∧
  last (ui (submit "B" "A. Example" "Chem" "U"
              (submit "B" "A. Example" "Chem" "U" (start repo_with_ledger)).2).2)
  = Some (st_error "Failed to commit: repository file already exists or sha is missing").
Proof. split_and!; [by vm_compute | vm_compute; by eexists | by vm_compute]. Qed.

(** X6 at work: nothing lies at [OUTPUT_PDF]. *)
Lemma post_to_repo_without_document_witness :
  post_to_repo OUTPUT_PDF "assets/filled_forms/f100d_e_Ann_2024-01-01.pdf" "Ann" None
    (start repo_empty)
  = (Raise (FileNotFoundError OUTPUT_PDF), start repo_empty).
Proof.
  exact (post_to_repo_without_document OUTPUT_PDF
           "assets/filled_forms/f100d_e_Ann_2024-01-01.pdf" "Ann" None (start repo_empty)
           eq_refl).
Defined.

(** X7 at work: the empty message is sent as it is. *)
Lemma post_to_repo_commit_message_witness :
  ∃ body,
    sent (post_to_repo OUTPUT_PDF "assets/filled_forms/f100d_e_Ann_2024-01-01.pdf" "Ann"
            (Some "") (start_with_document repo_empty)).2
    = [post_request (contents_url "assets/filled_forms/f100d_e_Ann_2024-01-01.pdf") body] ∧
    body !! "message" = Some (PStr "").
Proof.
  destruct (post_to_repo_commit_message OUTPUT_PDF
              "assets/filled_forms/f100d_e_Ann_2024-01-01.pdf" "Ann" (Some "")
              (start_with_document repo_empty) _ eq_refl)
    as (body & Hsent & Hmessage & _).
  exists body. split; [exact Hsent | exact Hmessage].
Defined.

(** X14 at work: the raw endpoint answers 500. *)
Lemma failed_read_sends_only_the_new_row_witness :
  ∃ reqs,
    sent (submit "B" "A. Example" "Chem" "U" (start repo_raw_down)).2 = reqs ∧
    ∀ body, put_request (contents_url ledger_path) body ∈ reqs →
      body !! "content" =
      Some (PStr (b64encode (csv_row ["name"; "form"; "signed_on"]
                               +:+ csv_row ["A. Example"; "f100d_e"; "2024-01-01"]))).
Proof.
  exact (failed_read_sends_only_the_new_row "B" "A. Example" "Chem" "U"
           (start repo_raw_down) eq_refl).
Defined.

(** X15 at work: the submission of the example. *)
Lemma script_offers_the_published_document_witness :
  (script (Some example_values) (start_with_template repo_with_ledger)).1
  = Ret [blank_button "%PDF-1.7 f100d_e";
         filled_button "%PDF-1.7 f100d_e B|A. Example|Chem|U|A. Example|2024-01-01"] ∧
  files (script (Some example_values) (start_with_template repo_with_ledger)).2
    !! OUTPUT_PDF = None.
Proof.
  destruct (script_offers_the_published_document example_values
              (start_with_template repo_with_ledger) _ eq_refl)
    as [(Hret & Hfiles & _)|[Hraise _]].
  - split; [exact Hret | rewrite Hfiles; apply lookup_delete_eq].
  - exfalso.
    destruct Hraise as [Hraise|[[m Hraise]|[m Hraise]]]; vm_compute in Hraise; discriminate.
Defined.

(** X16 at work: the host cannot be reached, the POST of the document
    fails, and the next load of the page offers the document. *)
Lemma filled_document_is_offered_once_witness :
  (script (Some example_values) (start_with_template repo_offline)).1
  = Raise (RequestException "Connection refused") ∧
  (script None (script (Some example_values) (start_with_template repo_offline)).2).1
  = Ret [blank_button "%PDF-1.7 f100d_e";
         filled_button "%PDF-1.7 f100d_e B|A. Example|Chem|U|A. Example|2024-01-01"] ∧
  files (script None (script (Some example_values) (start_with_template repo_offline)).2).2
    !! OUTPUT_PDF = None.
Proof.
  pose proof (filled_document_is_offered_once (Some example_values)
                (start_with_template repo_offline) _ eq_refl) as Hthm.
  cbv zeta in Hthm. destruct Hthm as (_ & _ & Hgone & Hcase).
  assert (Hrun : (script (Some example_values) (start_with_template repo_offline)).1
                 = Raise (RequestException "Connection refused")) by (vm_compute; reflexivity).
  rewrite Hrun in Hcase. destruct Hcase as (v & Hv & Hnext).
  injection Hv as <-.
  split_and!; [exact Hrun | exact Hnext | exact Hgone].
Defined.

(** C6 (amended) at work: a submission against the ledger of two rows,
    which the repository accepts.  Afterwards the ledger reads back with
    the new row last and the document lies at its path. *)
Lemma submit_appends_row_and_publishes_witness :
  (submit "B" "A. Example" "Chem" "U" (start repo_with_ledger)).1 = Ret () ∧
  csv_records ∘ blob_bytes <$>
    blobs (remote (submit "B" "A. Example" "Chem" "U" (start repo_with_ledger)).2)
      !! ledger_path
  = Some [["name"; "form"; "signed_on"];
          ["Ann"; "f100d_e"; "2023-12-30"];
          ["Bo"; "f100d_e"; "2023-12-31"];
          ["A. Example"; "f100d_e"; "2024-01-01"]] ∧
  blob_bytes <$>
    blobs (remote (submit "B" "A. Example" "Chem" "U" (start repo_with_ledger)).2)
      !! "assets/filled_forms/f100d_e_A. Example_2024-01-01.pdf"
  = Some "%PDF-1.7 f100d_e B|A. Example|Chem|U|A. Example|2024-01-01".
Proof.
  pose proof (λ s3 r3 s4 r4,
    submit_appends_row_and_publishes "B" "A. Example" "Chem" "U"
      (start repo_with_ledger) repo_with_ledger
      {| status_code := 200; content := blob_bytes ledger_blob; json := None |}
      repo_with_ledger (file_info_response 200 ledger_blob) s3 r3 s4 r4 ledger_table
      eq_refl eq_refl eq_refl ledger_table_is_ledger eq_refl) as Hthm.
  cbv zeta in Hthm.
  edestruct Hthm as (Hreturn & _ & Hremote & _).
  - left. split; [reflexivity | vm_compute; by eexists].
  - vm_compute. reflexivity.
  - left. reflexivity.
  - vm_compute. reflexivity.
  - right. reflexivity.
  - split; [exact Hreturn |]. rewrite Hremote. split; vm_compute; reflexivity.
Defined.

(** C6, as stated, fails.  Not every submission publishes its document:
    when the same person submits again on the same day the path is taken,
    the repository refuses the POST, and the document of the second
    submission is not published, while the ledger has gained a row for it.
    Nor does every submission add its row: when the account may not write
    the ledger, the ledger is left as it was. *)
Lemma second_submission_is_not_published :
  let first := (submit "B" "A. Example" "Chem" "U" (start repo_with_ledger)).2 in
  let second := submit "C" "A. Example" "Chem" "U" first in
  second.1 = Ret () ∧
  last (ui second.2)
  = Some (st_error "Failed to commit: repository file already exists or sha is missing") ∧
  blob_bytes <$> blobs (remote second.2)
                   !! "assets/filled_forms/f100d_e_A. Example_2024-01-01.pdf"
  = Some "%PDF-1.7 f100d_e B|A. Example|Chem|U|A. Example|2024-01-01" ∧
  csv_records ∘ blob_bytes <$> blobs (remote second.2) !! ledger_path
  = Some [["name"; "form"; "signed_on"];
          ["Ann"; "f100d_e"; "2023-12-30"];
          ["Bo"; "f100d_e"; "2023-12-31"];
          ["A. Example"; "f100d_e"; "2024-01-01"];
          ["A. Example"; "f100d_e"; "2024-01-01"]] ∧
  blobs (remote (submit "B" "A. Example" "Chem" "U" (start repo_read_only_ledger)).2)
    !! ledger_path = Some ledger_blob.
Proof. cbv zeta. split_and!; vm_compute; reflexivity. Qed.

End Runs.

(** ** Runs on answers given in advance *)

Section ScriptedRuns.

#[local] Existing Instance Scripted.platform.

(** X3 at work: a file info without [sha], a directory listing, and a
    sign-in page where the file info was expected. *)
Lemma update_repo_file_malformed_file_info_witness :
  update_repo_file "assets/form_records.csv" (ADataFrame Forgejo.ledger_table) "Ann" None
    (Scripted.start [Scripted.info_without_sha])
  = (Raise (KeyError "sha"),
     after_request (Scripted.start [Scripted.info_without_sha])
       (get_request (contents_url "assets/form_records.csv")) []) ∧
  update_repo_file "assets/form_records.csv" (ADataFrame Forgejo.ledger_table) "Ann" None
    (Scripted.start [Scripted.directory_listing])
  = (Raise (TypeError "list indices must be integers or slices, not str"),
     after_request (Scripted.start [Scripted.directory_listing])
       (get_request (contents_url "assets/form_records.csv")) []) ∧
  ∃ w' msg,
    update_repo_file "assets/form_records.csv" (ADataFrame Forgejo.ledger_table) "Ann" None
      (Scripted.start [Scripted.html_page]) = (Ret false, w') ∧
    sent w' = [get_request (contents_url "assets/form_records.csv")] ∧
    ui w' = [st_error msg].
Proof.
  split_and!.
  - destruct (update_repo_file_malformed_file_info "assets/form_records.csv"
                Forgejo.ledger_table "Ann" None
                (Scripted.start [Scripted.info_without_sha]) [] _ eq_refl eq_refl)
      as (Hkey & _ & _).
    exact (Hkey ∅ eq_refl eq_refl).
  - destruct (update_repo_file_malformed_file_info "assets/form_records.csv"
                Forgejo.ledger_table "Ann" None
                (Scripted.start [Scripted.directory_listing]) [] _ eq_refl eq_refl)
      as (_ & Hraise & _).
    exact (Hraise (JArray []) _ eq_refl eq_refl).
  - destruct (update_repo_file_malformed_file_info "assets/form_records.csv"
                Forgejo.ledger_table "Ann" None
                (Scripted.start [Scripted.html_page]) [] _ eq_refl eq_refl)
      as (_ & _ & Hhtml).
    destruct (Hhtml eq_refl) as (w' & msg & Hrun & Hsent & _ & Hui).
    exists w', msg. split_and!; [exact Hrun | exact Hsent | exact Hui].
Defined.

End ScriptedRuns.
